(** * The RPC endpoint of the TVM runtime (rpc_endpoint.cc)

    A shallow embedding of the event-driven state machine
    [RPCEndpoint::EventHandler], of the drive loop
    [RPCEndpoint::HandleUntilReturnEvent] and of the chunked copies of
    [RPCClientSession], with the properties the specification states
    about them.

    Conventions.
    - Fixed-width integers are [Z] with the wrap-around written out
      ([wrap64], [to_int32]); [size_t] is 64 bits wide.
    - Wire bytes are [list byte]; scalars travel little-endian
      ([le_bytes], [le_value]).
    - [std::string] is [string].
    - A C++ exception ([LOG(FATAL)], a failed [ICHECK], a [std::exception])
      is the outcome [Throw msg e]: it carries the state [e] reached when
      it was raised, since nothing is rolled back. *)

From Stdlib Require Import ZArith List Bool Lia.
From Stdlib.Strings Require Import String Ascii Byte.
Import ListNotations.
Open Scope string_scope.
Open Scope list_scope.
Open Scope Z_scope.

(* ================================================================= *)
(** ** Bytes and little-endian scalars *)

Definition byte_of_Z (z : Z) : byte :=
  match Byte.of_N (Z.to_N (z mod 256)) with
  | Some b => b
  | None => x00
  end.

Definition Z_of_byte (b : byte) : Z := Z.of_N (Byte.to_N b).

(** The [n] low-order bytes of [v], least significant first. *)
Fixpoint le_bytes (n : nat) (v : Z) : list byte :=
  match n with
  | O => []
  | S n' => byte_of_Z v :: le_bytes n' (v / 256)
  end.

Fixpoint le_value (bs : list byte) : Z :=
  match bs with
  | [] => 0
  | b :: bs' => Z_of_byte b + 256 * le_value bs'
  end.

Definition wrap32 (z : Z) : Z := z mod 2 ^ 32.
Definition wrap64 (z : Z) : Z := z mod 2 ^ 64.

(** Conversion to [int32_t] / [int64_t] (two's complement). *)
Definition to_int32 (z : Z) : Z := (z + 2 ^ 31) mod 2 ^ 32 - 2 ^ 31.
Definition to_int64 (z : Z) : Z := (z + 2 ^ 63) mod 2 ^ 64 - 2 ^ 63.

Definition len {A : Type} (l : list A) : Z := Z.of_nat (List.length l).

Definition take {A : Type} (n : Z) (l : list A) : list A := firstn (Z.to_nat n) l.
Definition drop {A : Type} (n : Z) (l : list A) : list A := skipn (Z.to_nat n) l.

(* ================================================================= *)
(** ** Data model *)

(** [enum State] of the event handler. *)
Inductive State : Type :=
| kInitHeader
| kRecvPacketNumBytes
| kProcessPacket
| kWaitForAsyncCallback
| kReturnReceived
| kCopyAckReceived
| kShutdownReceived.

Definition State_eqb (a b : State) : bool :=
  match a, b with
  | kInitHeader, kInitHeader
  | kRecvPacketNumBytes, kRecvPacketNumBytes
  | kProcessPacket, kProcessPacket
  | kWaitForAsyncCallback, kWaitForAsyncCallback
  | kReturnReceived, kReturnReceived
  | kCopyAckReceived, kCopyAckReceived
  | kShutdownReceived, kShutdownReceived => true
  | _, _ => false
  end.

(** Modelled from the spec: the numbering of [enum class RPCCode : int]
    (rpc_reference.h is not part of the sources).  The control codes count
    up from [None = 0]; the syscall codes follow from the sentinel
    [kSyscallCodeStart], in the order the specification lists them.  A code
    read from the wire is an arbitrary [int], so codes are integers here. *)
Module RPCCode.
Definition kNone : Z := 0.
Definition kShutdown : Z := 1.
Definition kInitServer : Z := 2.
Definition kCallFunc : Z := 3.
Definition kReturn : Z := 4.
Definition kException : Z := 5.
Definition kCopyFromRemote : Z := 6.
Definition kCopyToRemote : Z := 7.
Definition kCopyAck : Z := 8.
Definition kSyscallCodeStart : Z := 9.
Definition kGetGlobalFunc : Z := kSyscallCodeStart.
Definition kFreeHandle : Z := 10.
Definition kDevSetDevice : Z := 11.
Definition kDevGetAttr : Z := 12.
Definition kDevAllocData : Z := 13.
Definition kDevFreeData : Z := 14.
Definition kDevStreamSync : Z := 15.
Definition kCopyAmongRemote : Z := 16.
Definition kDevCreateStream : Z := 17.
Definition kDevFreeStream : Z := 18.
Definition kDevSetStream : Z := 19.
Definition kDevGetCurrentStream : Z := 20.
Definition kDevAllocDataWithScope : Z := 21.
End RPCCode.
Import RPCCode.

(** [DLDevice], [DLDataType], [DLTensor] (dlpack). *)
Record DLDevice : Type := { device_type : Z; device_id : Z }.
Record DLDataType : Type := { dtype_code : Z; bits : Z; lanes : Z }.
Record DLTensor : Type := {
  data : Z;
  device : DLDevice;
  ndim : Z;
  dtype : DLDataType;
  shape : list Z;
  byte_offset : Z
}.

(** The device type of host memory. *)
Definition kDLCPU : Z := 1.

(** A packed value ([ffi::AnyView]), as far as the endpoint looks at it. *)
Inductive Any : Type :=
| AnyNull
| AnyInt (v : Z)
| AnyStr (s : string)
| AnyHandle (p : Z)
| AnyDevice (d : DLDevice)
| AnyTensor (t : DLTensor)
| AnyModule
| AnyRPCObjectRef (object_handle : Z)
| AnyObject (type_index : Z).

(** The serving session, an external collaborator: the handler only asks it
    these two questions itself. *)
Record RPCSession : Type := {
  IsLocalSession : bool;
  IsAsync : bool;
  session_tag : Z
}.

(** What the serving session is asked to do asynchronously; each request
    stands for the call together with the completion lambda handed over. *)
Inductive AsyncRequest : Type :=
| AsyncCallFunc (call_handle : Z) (args : list Any)
| AsyncCopyFromRemote (arr : DLTensor) (temp_data data_bytes elem_bytes : Z)
| AsyncCopyToRemote (temp_data : Z) (arr : DLTensor) (data_bytes : Z)
| AsyncStreamWait (dev : DLDevice) (stream : Z).

(** Modelled from the spec: the transport ([RPCChannel]), a send/recv byte
    channel: what the peer will deliver, chunk by chunk, and what has been
    sent.  An empty [inbox] is a closed channel. *)
Record RPCChannel : Type := {
  inbox : list (list byte);
  outbox : list byte
}.

(** The endpoint and its event handler.  The handler holds pointers to the
    endpoint's ring buffers and remote key and reaches the channel through
    [flush_writer_], so all of it is one store.  Two components are not
    members of the classes: [session_requests_], the requests the serving
    session has been handed and has not completed yet, and [history_], the
    states [SwitchToState] has entered, oldest first. *)
Record Endpoint : Type := {
  state_ : State;
  init_header_step_ : Z;
  client_mode_ : bool;
  async_server_mode_ : bool;
  arena_ : list (Z * Z);
  object_arena_ : list Any;
  pending_request_bytes_ : Z;
  serving_session_ : option RPCSession;
  name_ : string;
  reader_ : list byte;
  writer_ : list byte;
  remote_key_ : string;
  channel_ : option RPCChannel;
  memory_ : Z -> byte;
  session_requests_ : list AsyncRequest;
  history_ : list State
}.

Definition set_state (v : State) (e : Endpoint) : Endpoint :=
  Build_Endpoint v (init_header_step_ e) (client_mode_ e) (async_server_mode_ e)
    (arena_ e) (object_arena_ e) (pending_request_bytes_ e) (serving_session_ e)
    (name_ e) (reader_ e) (writer_ e) (remote_key_ e) (channel_ e) (memory_ e)
    (session_requests_ e) (history_ e).
Definition set_init_header_step (v : Z) (e : Endpoint) : Endpoint :=
  Build_Endpoint (state_ e) v (client_mode_ e) (async_server_mode_ e)
    (arena_ e) (object_arena_ e) (pending_request_bytes_ e) (serving_session_ e)
    (name_ e) (reader_ e) (writer_ e) (remote_key_ e) (channel_ e) (memory_ e)
    (session_requests_ e) (history_ e).
Definition set_modes (c a : bool) (e : Endpoint) : Endpoint :=
  Build_Endpoint (state_ e) (init_header_step_ e) c a
    (arena_ e) (object_arena_ e) (pending_request_bytes_ e) (serving_session_ e)
    (name_ e) (reader_ e) (writer_ e) (remote_key_ e) (channel_ e) (memory_ e)
    (session_requests_ e) (history_ e).
Definition set_arena (v : list (Z * Z)) (e : Endpoint) : Endpoint :=
  Build_Endpoint (state_ e) (init_header_step_ e) (client_mode_ e) (async_server_mode_ e)
    v (object_arena_ e) (pending_request_bytes_ e) (serving_session_ e)
    (name_ e) (reader_ e) (writer_ e) (remote_key_ e) (channel_ e) (memory_ e)
    (session_requests_ e) (history_ e).
Definition set_object_arena (v : list Any) (e : Endpoint) : Endpoint :=
  Build_Endpoint (state_ e) (init_header_step_ e) (client_mode_ e) (async_server_mode_ e)
    (arena_ e) v (pending_request_bytes_ e) (serving_session_ e)
    (name_ e) (reader_ e) (writer_ e) (remote_key_ e) (channel_ e) (memory_ e)
    (session_requests_ e) (history_ e).
Definition set_pending (v : Z) (e : Endpoint) : Endpoint :=
  Build_Endpoint (state_ e) (init_header_step_ e) (client_mode_ e) (async_server_mode_ e)
    (arena_ e) (object_arena_ e) v (serving_session_ e)
    (name_ e) (reader_ e) (writer_ e) (remote_key_ e) (channel_ e) (memory_ e)
    (session_requests_ e) (history_ e).
Definition set_serving_session (v : option RPCSession) (e : Endpoint) : Endpoint :=
  Build_Endpoint (state_ e) (init_header_step_ e) (client_mode_ e) (async_server_mode_ e)
    (arena_ e) (object_arena_ e) (pending_request_bytes_ e) v
    (name_ e) (reader_ e) (writer_ e) (remote_key_ e) (channel_ e) (memory_ e)
    (session_requests_ e) (history_ e).
Definition set_reader (v : list byte) (e : Endpoint) : Endpoint :=
  Build_Endpoint (state_ e) (init_header_step_ e) (client_mode_ e) (async_server_mode_ e)
    (arena_ e) (object_arena_ e) (pending_request_bytes_ e) (serving_session_ e)
    (name_ e) v (writer_ e) (remote_key_ e) (channel_ e) (memory_ e)
    (session_requests_ e) (history_ e).
Definition set_writer (v : list byte) (e : Endpoint) : Endpoint :=
  Build_Endpoint (state_ e) (init_header_step_ e) (client_mode_ e) (async_server_mode_ e)
    (arena_ e) (object_arena_ e) (pending_request_bytes_ e) (serving_session_ e)
    (name_ e) (reader_ e) v (remote_key_ e) (channel_ e) (memory_ e)
    (session_requests_ e) (history_ e).
Definition set_remote_key (v : string) (e : Endpoint) : Endpoint :=
  Build_Endpoint (state_ e) (init_header_step_ e) (client_mode_ e) (async_server_mode_ e)
    (arena_ e) (object_arena_ e) (pending_request_bytes_ e) (serving_session_ e)
    (name_ e) (reader_ e) (writer_ e) v (channel_ e) (memory_ e)
    (session_requests_ e) (history_ e).
Definition set_channel (v : option RPCChannel) (e : Endpoint) : Endpoint :=
  Build_Endpoint (state_ e) (init_header_step_ e) (client_mode_ e) (async_server_mode_ e)
    (arena_ e) (object_arena_ e) (pending_request_bytes_ e) (serving_session_ e)
    (name_ e) (reader_ e) (writer_ e) (remote_key_ e) v (memory_ e)
    (session_requests_ e) (history_ e).
Definition set_memory (v : Z -> byte) (e : Endpoint) : Endpoint :=
  Build_Endpoint (state_ e) (init_header_step_ e) (client_mode_ e) (async_server_mode_ e)
    (arena_ e) (object_arena_ e) (pending_request_bytes_ e) (serving_session_ e)
    (name_ e) (reader_ e) (writer_ e) (remote_key_ e) (channel_ e) v
    (session_requests_ e) (history_ e).
Definition set_session_requests (v : list AsyncRequest) (e : Endpoint) : Endpoint :=
  Build_Endpoint (state_ e) (init_header_step_ e) (client_mode_ e) (async_server_mode_ e)
    (arena_ e) (object_arena_ e) (pending_request_bytes_ e) (serving_session_ e)
    (name_ e) (reader_ e) (writer_ e) (remote_key_ e) (channel_ e) (memory_ e) v
    (history_ e).
Definition set_history (v : list State) (e : Endpoint) : Endpoint :=
  Build_Endpoint (state_ e) (init_header_step_ e) (client_mode_ e) (async_server_mode_ e)
    (arena_ e) (object_arena_ e) (pending_request_bytes_ e) (serving_session_ e)
    (name_ e) (reader_ e) (writer_ e) (remote_key_ e) (channel_ e) (memory_ e)
    (session_requests_ e) v.

(** [state_ = state], seen from outside. *)
Definition enter (state : State) (e : Endpoint) : Endpoint :=
  set_history (history_ e ++ [state]) (set_state state e).

(* ================================================================= *)
(** ** Outcomes: state passing with exceptions that keep the state *)

Inductive Res (A : Type) : Type :=
| Ok (a : A) (e : Endpoint)
| Throw (msg : string) (e : Endpoint).
Arguments Ok {A} a e.
Arguments Throw {A} msg e.

Definition M (A : Type) : Type := Endpoint -> Res A.

Definition ret {A : Type} (a : A) : M A := fun e => Ok a e.
Definition bind {A B : Type} (m : M A) (k : A -> M B) : M B :=
  fun e => match m e with
           | Ok a e' => k a e'
           | Throw msg e' => Throw msg e'
           end.
Definition throw {A : Type} (msg : string) : M A := fun e => Throw msg e.
Definition get : M Endpoint := fun e => Ok e e.
Definition modify (f : Endpoint -> Endpoint) : M unit := fun e => Ok tt (f e).

(** [try { body } catch (const std::exception& e) { handler(e.what()) }] *)
Definition try_catch {A : Type} (body : M A) (handler : string -> M A) : M A :=
  fun e => match body e with
           | Ok a e' => Ok a e'
           | Throw msg e' => handler msg e'
           end.

(** [ICHECK(cond) << msg] *)
Definition ICHECK (cond : bool) (msg : string) : M unit :=
  if cond then ret tt else throw msg.

Declare Scope rpc_scope.
Delimit Scope rpc_scope with rpc.
Notation "x <- m ;; k" := (bind m (fun x => k))
  (at level 61, m at next level, right associativity) : rpc_scope.
Notation "m ;;; k" := (bind m (fun _ => k))
  (at level 61, right associativity) : rpc_scope.
Open Scope rpc_scope.

(* ================================================================= *)
(** ** What the handler takes from outside rpc_endpoint.cc *)

(** Outcome of one of the syscall bodies ([RPCGetGlobalFunc],
    [RPCFreeHandle], ...): they hand their arguments to the serving session
    and either set [rv] or raise. *)
Inductive SysResult : Type :=
| SysReturn (rv : Any)
| SysThrow (what : string).

(** Outcome of looking up and calling a session constructor. *)
Inductive ConstructorOutcome : Type :=
| CtorMissing
| CtorThrows (what : string)
| CtorNotModule
| CtorModule (tkey : string) (sess : RPCSession).

(** A completion of an asynchronous request: the status and arguments the
    session passes to the completion lambda, and the bytes it has stored in
    the destination buffer beforehand (for a copy out of a tensor). *)
Record Completion : Type := {
  status : Z;
  cargs : list Any;
  copied : list byte
}.

(** Constants, macros and helpers declared in headers that are not part of
    the sources (rpc_reference.h, rpc_session.h, dmlc, the object type
    table), taken as parameters.
    - [PackedSeqBytes]: the wire image [RPCReference::SendPackedSeq] writes
      for a packed sequence, [None] when a value is refused; its length is
      what [PackedSeqGetNumBytes] returns.
    - [ExceptionSeqBytes msg], [VoidSeqBytes]: the packed sequences that
      [RPCReference::ReturnException] and [RPCReference::ReturnVoid] write
      by hand, the one holding the string [msg], the other no value.
    - [RPCReference_RecvPackedSeq], [RPCReference_ReceiveDLTensor]: the
      decoders, which read through the handler.
    - [AsyncOutcome]: [Some c] when the session runs the completion before
      the asynchronous call returns (as a synchronous session does), [None]
      when it keeps it for later.
    - [arena_base]: where the arena's memory starts. *)
Record Externals : Type := {
  kRuntimeRPCObjectRef : Z;
  kRPCProtocolVer : string;
  DMLC_IO_NO_ENDIAN_SWAP : bool;
  PackedSeqBytes : list Any -> option (list byte);
  ExceptionSeqBytes : string -> list byte;
  VoidSeqBytes : list byte;
  RPCReference_RecvPackedSeq : M (list Any);
  RPCReference_ReceiveDLTensor : M DLTensor;
  SessionConstructor : string -> list Any -> ConstructorOutcome;
  LocalSession : RPCSession;
  SysCallFn : Z -> RPCSession -> list Any -> SysResult;
  AsyncOutcome : RPCSession -> AsyncRequest -> option Completion;
  IsRPCSessionDevice : DLDevice -> bool;
  arena_base : Z
}.

(** Modelled from the spec: [support::StartsWith] (support/utils.h). *)
Definition StartsWith (str pre : string) : bool := String.prefix pre str.

(** [std::string::resize]: cut, or pad with NUL characters. *)
Fixpoint resize (n : nat) (s : string) : string :=
  match n with
  | O => EmptyString
  | S n' => match s with
            | EmptyString => String Ascii.zero (resize n' EmptyString)
            | String c s' => String c (resize n' s')
            end
  end.

(** Modelled from the spec: [support::RingBuffer] (support/ring_buffer.h), a
    byte FIFO.  [Read] hands out the oldest [size] bytes and refuses to hand
    out more than the buffer holds; [Write] appends. *)
Definition bytes_available (buf : list byte) : Z := len buf.

Definition RingBuffer_Read (size : Z) (buf : list byte) : option (list byte * list byte) :=
  if size <=? bytes_available buf then Some (take size buf, drop size buf) else None.

Definition RingBuffer_Write (bs buf : list byte) : list byte := buf ++ bs.

(** Host memory as the handler sees it. *)
Definition mem_read (m : Z -> byte) (addr n : Z) : list byte :=
  map (fun i => m (addr + Z.of_nat i)) (seq 0 (Z.to_nat n)).

Definition mem_write (m : Z -> byte) (addr : Z) (bs : list byte) : Z -> byte :=
  fun a => if (addr <=? a) && (a <? addr + len bs)
           then nth (Z.to_nat (a - addr)) bs x00
           else m a.

(** [dmlc::ByteSwap(data, elem_bytes, num_elems)]: reverse the bytes of each
    of the [num_elems] leading elements. *)
Fixpoint ByteSwap (bs : list byte) (elem_bytes : nat) (num_elems : nat) : list byte :=
  match num_elems with
  | O => bs
  | S k => rev (firstn elem_bytes bs) ++ ByteSwap (skipn elem_bytes bs) elem_bytes k
  end.

(* ================================================================= *)
(** ** RPCEndpoint::EventHandler *)

Section EventHandler.

Variable X : Externals.

(** [Clear] *)
Definition Clear : M unit :=
  modify (fun e => set_pending 8 (set_state kRecvPacketNumBytes e)).

(** The constructor, on the store [RPCEndpoint::Create] and [Init] set up:
    empty ring buffers, no serving session. *)
Definition EventHandler_new (channel : option RPCChannel) (name remote_key : string)
    (memory : Z -> byte) : Endpoint :=
  let e := {| state_ := kRecvPacketNumBytes;
              init_header_step_ := 0;
              client_mode_ := false;
              async_server_mode_ := false;
              arena_ := [];
              object_arena_ := [];
              pending_request_bytes_ := 8;
              serving_session_ := None;
              name_ := name;
              reader_ := [];
              writer_ := [];
              remote_key_ := remote_key;
              channel_ := channel;
              memory_ := memory;
              session_requests_ := [];
              history_ := [] |} in
  if String.eqb remote_key "%toinit"
  then set_pending 4 (set_remote_key (resize 0 remote_key) (set_state kInitHeader e))
  else e.

(** [BytesNeeded] *)
Definition BytesNeeded (e : Endpoint) : Z :=
  if bytes_available (reader_ e) <? pending_request_bytes_ e
  then pending_request_bytes_ e - bytes_available (reader_ e)
  else 0.

(** [RequestBytes]; [reader_->Reserve] only grows the buffer's capacity. *)
Definition RequestBytes (nbytes : Z) : M unit :=
  modify (fun e => set_pending (wrap64 (pending_request_bytes_ e + nbytes)) e).

(** [Ready] *)
Definition Ready (e : Endpoint) : bool :=
  pending_request_bytes_ e <=? bytes_available (reader_ e).

(** [CanCleanShutdown] *)
Definition CanCleanShutdown (e : Endpoint) : bool :=
  State_eqb (state_ e) kRecvPacketNumBytes.

(** [RecycleAll] *)
Definition RecycleAll : M unit :=
  modify (fun e => set_arena [] (set_object_arena [] e)).

(** [Read(void* data, size_t size)] *)
Definition Read (size : Z) : M (list byte) := fun e =>
  if size <=? pending_request_bytes_ e then
    match RingBuffer_Read size (reader_ e) with
    | Some (bs, remaining) =>
        Ok bs (set_pending (pending_request_bytes_ e - size) (set_reader remaining e))
    | None => Throw "Check failed: (bytes_available_ >= size) is false" e
    end
  else Throw "Check failed: (size <= pending_request_bytes_) is false" e.

(** [Write(const void* data, size_t size)] *)
Definition Write (bs : list byte) : M unit :=
  modify (fun e => set_writer (RingBuffer_Write bs (writer_ e)) e).

(** The typed reads and writes of [dmlc::Stream]: scalars are little-endian
    on the wire whatever the host is. *)
Definition Read_u32 : M Z := bs <- Read 4 ;; ret (le_value bs).
Definition Read_i32 : M Z := bs <- Read 4 ;; ret (to_int32 (le_value bs)).
Definition Read_u64 : M Z := bs <- Read 8 ;; ret (le_value bs).
Definition Write_u32 (v : Z) : M unit := Write (le_bytes 4 v).
Definition Write_i32 (v : Z) : M unit := Write (le_bytes 4 v).
Definition Write_i64 (v : Z) : M unit := Write (le_bytes 8 v).
Definition Write_u64 (v : Z) : M unit := Write (le_bytes 8 v).

(** The [RPCCode] overloads of [Read] and [Write]. *)
Definition Read_code : M Z := Read_i32.
Definition Write_code (code : Z) : M unit := Write_i32 code.

(** [ReadArray] / [WriteArray] of [char]s. *)
Definition ReadArray (n : Z) : M (list byte) := Read n.
Definition WriteArray (bs : list byte) : M unit := Write bs.

(** [WriteFFIAny] *)
Definition WriteFFIAny (v : Any) : M unit :=
  match v with
  | AnyRPCObjectRef object_handle =>
      Write_u32 (wrap32 (kRuntimeRPCObjectRef X)) ;;;
      let handle := wrap64 object_handle in
      Write_i64 (to_int64 handle)
  | _ => throw "ValueError: Object type is not supported in RPC calling convention"
  end.

(** [GetFFIAnyProtocolBytes] *)
Definition GetFFIAnyProtocolBytes (v : Any) : M Z :=
  match v with
  | AnyRPCObjectRef _ => ret (4 + 8)
  | _ => throw "ValueError: Object type is not supported in RPC calling convention"
  end.

(** [ReadFFIAny] *)
Definition ReadFFIAny : M Any :=
  type_index <- Read_u32 ;;
  if type_index =? wrap32 (kRuntimeRPCObjectRef X) then
    handle <- Read_u64 ;;
    let rpc_obj := AnyRPCObjectRef handle in
    modify (fun e => set_object_arena (object_arena_ e ++ [rpc_obj]) e) ;;;
    ret rpc_obj
  else throw "ValueError: Object type is not supported in Disco calling convention".

(** Modelled from the spec: [support::Arena] (support/arena.h), a bump
    allocator whose pointers stay valid until [RecycleAll].  Each block is
    recorded as (address, bytes). *)
Definition arena_used (a : list (Z * Z)) : Z :=
  fold_right (fun b acc => snd b + acc) 0 a.

(** [ArenaAlloc<T>(int count)], with [elem_size = sizeof(T)]; the argument
    is converted to [int] on the way in. *)
Definition ArenaAlloc (elem_size count : Z) : M Z := fun e =>
  let count := to_int32 count in
  if count <? 0 then Throw "std::bad_alloc" e
  else
    let p := arena_base X + arena_used (arena_ e) in
    Ok p (set_arena ((p, elem_size * count) :: arena_ e) e).

(** The [flush_writer] lambda of [RPCEndpoint::Init]; the channel takes
    every byte offered. *)
Definition flush_writer_ : M unit := fun e =>
  match writer_ e with
  | [] => Ok tt e
  | _ =>
      match channel_ e with
      | None => Throw "channel_ is null" e
      | Some ch =>
          Ok tt (set_writer []
                   (set_channel (Some {| inbox := inbox ch;
                                         outbox := outbox ch ++ writer_ e |}) e))
      end
  end.

(** [SwitchToState] *)
Definition SwitchToState (state : State) : M unit :=
  (if negb (State_eqb state kCopyAckReceived)
   then e <- get ;;
        ICHECK (pending_request_bytes_ e =? 0)
               "Check failed: pending_request_bytes_ == 0U"
   else ret tt) ;;;
  (e <- get ;;
   if State_eqb (state_ e) kWaitForAsyncCallback then flush_writer_ else ret tt) ;;;
  modify (enter state) ;;;
  ICHECK (negb (State_eqb state kInitHeader)) "cannot switch to init header" ;;;
  if State_eqb state kRecvPacketNumBytes
  then RequestBytes 8 ;;; RecycleAll
  else ret tt.

(** [FinishCopyAck] *)
Definition FinishCopyAck : M unit := SwitchToState kRecvPacketNumBytes.

(** [HandleInitHeader] *)
Definition HandleInitHeader : M unit :=
  e <- get ;;
  if init_header_step_ e =? 0 then
    len_ <- Read_i32 ;;
    (if len_ <? 0 then throw "std::length_error" else ret tt) ;;;
    modify (fun e => set_remote_key (resize (Z.to_nat len_) (remote_key_ e)) e) ;;;
    modify (set_init_header_step 1) ;;;
    RequestBytes len_
  else
    ICHECK (init_header_step_ e =? 1) "Check failed: init_header_step_ == 1" ;;;
    bs <- ReadArray (Z.of_nat (String.length (remote_key_ e))) ;;
    modify (set_remote_key (string_of_list_byte bs)) ;;;
    SwitchToState kRecvPacketNumBytes.

(** [args[i]]; reading past the end of the array has no defined outcome and
    is made an error. *)
Definition arg (i : nat) (args : list Any) : M Any :=
  match nth_error args i with
  | Some a => ret a
  | None => throw "packed argument index out of range"
  end.

(** The casts of [ffi::AnyView] the handler uses. *)
Definition cast_String (a : Any) : M string :=
  match a with
  | AnyStr s => ret s
  | _ => throw "TypeError: cannot convert to String"
  end.

Definition cast_handle (a : Any) : M Z :=
  match a with
  | AnyHandle p => ret p
  | AnyNull => ret 0
  | _ => throw "TypeError: cannot convert to void*"
  end.

Definition cast_Device (a : Any) : M DLDevice :=
  match a with
  | AnyDevice d => ret d
  | _ => throw "TypeError: cannot convert to Device"
  end.

(** [ValidateArguments] *)
Fixpoint ValidateArguments (args : list Any) : M unit :=
  match args with
  | [] => ret tt
  | a :: rest =>
      match a with
      | AnyNull => ValidateArguments rest
      | AnyModule => ValidateArguments rest
      | AnyObject _ => throw "ValueError: Cannot pass argument"
      | AnyDevice dev =>
          ICHECK (negb (IsRPCSessionDevice X dev))
                 "InternalError: cannot pass RPC device in the channel" ;;;
          ValidateArguments rest
      | _ => ValidateArguments rest
      end
  end.

(** [RecvPackedSeq] *)
Definition RecvPackedSeq : M (list Any) := RPCReference_RecvPackedSeq X.

(** Modelled from the spec: the replies of rpc_reference.h.  Every packet is
    [u64 length | u32 opcode | body], the body of a [Return] or [Exception]
    being a packed sequence. *)
Definition WritePacket (code : Z) (body : list byte) : M unit :=
  Write_u64 (wrap64 (4 + len body)) ;;;
  Write_code code ;;;
  Write body.

(** Modelled from the spec: [RPCReference::ReturnException], an
    [Exception] packet whose packed sequence is the one string [err_msg]. *)
Definition ReturnException (err_msg : string) : M unit :=
  WritePacket kException (ExceptionSeqBytes X err_msg).

(** Modelled from the spec: [RPCReference::ReturnVoid], a [Return] packet
    with no value. *)
Definition ReturnVoid : M unit :=
  WritePacket kReturn (VoidSeqBytes X).

(** Modelled from the spec: [RPCReference::ReturnPackedSeq], a [Return]
    packet with the packed sequence [args]. *)
Definition ReturnPackedSeq (args : list Any) : M unit :=
  match PackedSeqBytes X args with
  | Some body => WritePacket kReturn body
  | None => throw "ValueError: Object type is not supported in RPC calling convention"
  end.

Definition newline : string := String (Ascii.ascii_of_nat 10) EmptyString.

(** [HandleReturn] *)
Definition HandleReturn (code : Z) (setreturn : option (list Any -> M unit)) : M unit :=
  args <- RecvPackedSeq ;;
  (if code =? kException then
     SwitchToState kRecvPacketNumBytes ;;;
     a <- arg 0 args ;;
     msg <- cast_String a ;;
     let msg := if negb (StartsWith msg "RPCSessionTimeoutError: ")
                then String.append
                       (String.append "RPCError: Error caught from RPC call:" newline) msg
                else msg in
     throw msg
   else ret tt) ;;;
  match setreturn with
  | None => throw "fsetreturn not available"
  | Some f => f args
  end ;;;
  SwitchToState kReturnReceived.

(** [GetServingSession] *)
Definition GetServingSession : M RPCSession :=
  e <- get ;;
  match serving_session_ e with
  | None => throw "Need to call InitRemoteSession first before any further actions"
  | Some sess =>
      ICHECK (negb (IsAsync sess) || async_server_mode_ e)
             "Cannot host an async session in a non-Event driven server" ;;;
      ret sess
  end.

(** Handing a request to the serving session: it either runs the completion
    before returning, after storing what it copied, or keeps the request. *)
Definition run_async (sess : RPCSession) (req : AsyncRequest)
    (store : list byte -> M unit) (on_complete : Z -> list Any -> M unit) : M unit :=
  match AsyncOutcome X sess req with
  | Some c => store (copied c) ;;; on_complete (status c) (cargs c)
  | None => modify (fun e => set_session_requests (session_requests_ e ++ [req]) e)
  end.

Definition store_bytes (addr : Z) (bs : list byte) : M unit :=
  modify (fun e => set_memory (mem_write (memory_ e) addr bs) e).

(** [dmlc::ByteSwap(ptr, elem_bytes, data_bytes / elem_bytes)] on memory. *)
Definition swap_in_memory (ptr elem_bytes data_bytes : Z) : M unit :=
  if elem_bytes =? 0 then throw "division by zero"
  else
    modify (fun e =>
      set_memory
        (mem_write (memory_ e) ptr
           (ByteSwap (mem_read (memory_ e) ptr data_bytes)
                     (Z.to_nat elem_bytes) (Z.to_nat (data_bytes / elem_bytes))))
        e).

(** The [fcopyack] lambda of [HandleCopyFromRemote]. *)
Definition fcopyack (dptr num_bytes : Z) : M unit :=
  let code := kCopyAck in
  let packet_nbytes := wrap64 (4 + num_bytes) in
  Write_u64 packet_nbytes ;;;
  Write_code code ;;;
  (e <- get ;; WriteArray (mem_read (memory_ e) dptr num_bytes)) ;;;
  SwitchToState kRecvPacketNumBytes.

(** The [on_copy_complete] lambda of [HandleCopyFromRemote]. *)
Definition on_copy_from_complete (elem_bytes data_bytes temp_data : Z)
    (status : Z) (args : list Any) : M unit :=
  if status =? kException then
    a <- arg 0 args ;;
    msg <- cast_String a ;;
    ReturnException msg ;;;
    SwitchToState kRecvPacketNumBytes
  else
    (if negb (DMLC_IO_NO_ENDIAN_SWAP X)
     then swap_in_memory temp_data elem_bytes data_bytes
     else ret tt) ;;;
    fcopyack temp_data data_bytes.

(** [HandleCopyFromRemote] *)
Definition HandleCopyFromRemote : M unit :=
  arr <- RPCReference_ReceiveDLTensor X ;;
  data_bytes <- Read_u64 ;;
  let elem_bytes := (bits (dtype arr) * lanes (dtype arr) + 7) / 8 in
  sess <- GetServingSession ;;
  if (device_type (device arr) =? kDLCPU) && IsLocalSession sess
     && DMLC_IO_NO_ENDIAN_SWAP X
  then
    let data_ptr := wrap64 (data arr + byte_offset arr) in
    fcopyack data_ptr data_bytes
  else
    temp_data <- ArenaAlloc 1 data_bytes ;;
    SwitchToState kWaitForAsyncCallback ;;;
    run_async sess (AsyncCopyFromRemote arr temp_data data_bytes elem_bytes)
      (store_bytes temp_data)
      (on_copy_from_complete elem_bytes data_bytes temp_data).

(** The [on_copy_complete] lambda of [HandleCopyToRemote]. *)
Definition on_copy_to_complete (status : Z) (args : list Any) : M unit :=
  if status =? kException then
    a <- arg 0 args ;;
    msg <- cast_String a ;;
    ReturnException msg ;;;
    SwitchToState kRecvPacketNumBytes
  else
    ReturnVoid ;;;
    SwitchToState kRecvPacketNumBytes.

(** [HandleCopyToRemote] *)
Definition HandleCopyToRemote : M unit :=
  arr <- RPCReference_ReceiveDLTensor X ;;
  data_bytes <- Read_u64 ;;
  let elem_bytes := (bits (dtype arr) * lanes (dtype arr) + 7) / 8 in
  sess <- GetServingSession ;;
  if (device_type (device arr) =? kDLCPU) && IsLocalSession sess then
    let dptr := wrap64 (data arr + byte_offset arr) in
    bs <- ReadArray data_bytes ;;
    store_bytes dptr bs ;;;
    (if negb (DMLC_IO_NO_ENDIAN_SWAP X)
     then swap_in_memory dptr elem_bytes data_bytes
     else ret tt) ;;;
    ReturnVoid ;;;
    SwitchToState kRecvPacketNumBytes
  else
    temp_data <- ArenaAlloc 1 data_bytes ;;
    bs <- ReadArray data_bytes ;;
    store_bytes temp_data bs ;;;
    (if negb (DMLC_IO_NO_ENDIAN_SWAP X)
     then swap_in_memory temp_data elem_bytes data_bytes
     else ret tt) ;;;
    SwitchToState kWaitForAsyncCallback ;;;
    run_async sess (AsyncCopyToRemote temp_data arr data_bytes)
      (fun _ => ret tt) on_copy_to_complete.

(** The completion lambda of [HandleNormalCallFunc]. *)
Definition on_call_complete (status : Z) (args : list Any) : M unit :=
  (if status =? kException then
     a <- arg 0 args ;;
     msg <- cast_String a ;;
     ReturnException msg
   else
     ValidateArguments args ;;;
     ReturnPackedSeq args) ;;;
  SwitchToState kRecvPacketNumBytes.

(** [HandleNormalCallFunc] *)
Definition HandleNormalCallFunc : M unit :=
  call_handle <- Read_u64 ;;
  args <- RecvPackedSeq ;;
  SwitchToState kWaitForAsyncCallback ;;;
  sess <- GetServingSession ;;
  run_async sess (AsyncCallFunc call_handle args) (fun _ => ret tt) on_call_complete.

Definition cast_std_string (a : Any) : M string := cast_String a.

(** [HandleInitServer] *)
Definition HandleInitServer : M unit :=
  len_ <- Read_u64 ;;
  bs <- Read len_ ;;
  let client_protocol_ver := string_of_list_byte bs in
  args <- RecvPackedSeq ;;
  try_catch
    (e <- get ;;
     ICHECK (match serving_session_ e with None => true | Some _ => false end)
            "Server has already been initialized" ;;;
     let server_protocol_ver := kRPCProtocolVer X in
     ICHECK (String.eqb client_protocol_ver server_protocol_ver)
            (String.append "Client protocol version mismatch with the server, client protocol="
                           client_protocol_ver) ;;;
     ctor <- match args with
             | [] =>
                 modify (set_serving_session (Some (LocalSession X))) ;;;
                 ret ("rpc.LocalSession", [])
             | a :: rest =>
                 constructor_name <- cast_std_string a ;;
                 ret (constructor_name, rest)
             end ;;
     let (constructor_name, constructor_args) := ctor in
     match SessionConstructor X constructor_name constructor_args with
     | CtorMissing =>
         throw (String.append " Cannot find session constructor " constructor_name)
     | CtorThrows what =>
         throw (String.append " Error caught from session constructor "
                  (String.append constructor_name (String.append newline what)))
     | CtorNotModule =>
         throw (String.append " Constructor "
                  (String.append constructor_name " need to return an RPCModule"))
     | CtorModule tkey sess =>
         ICHECK (String.eqb tkey "rpc")
                (String.append "Constructor "
                   (String.append constructor_name " to return an RPCModule")) ;;;
         modify (set_serving_session (Some sess)) ;;;
         ReturnVoid
     end)
    (fun what => ReturnException what) ;;;
  SwitchToState kRecvPacketNumBytes.

(** The completion lambda of [HandleSyscallStreamSync]. *)
Definition on_stream_complete (status : Z) (args : list Any) : M unit :=
  (if status =? kException then
     a <- arg 0 args ;;
     msg <- cast_String a ;;
     ReturnException msg
   else ReturnVoid) ;;;
  SwitchToState kRecvPacketNumBytes.

(** [HandleSyscallStreamSync] *)
Definition HandleSyscallStreamSync : M unit :=
  args <- RecvPackedSeq ;;
  try_catch
    (a0 <- arg 0 args ;;
     dev <- cast_Device a0 ;;
     a1 <- arg 1 args ;;
     handle <- cast_handle a1 ;;
     SwitchToState kWaitForAsyncCallback ;;;
     sess <- GetServingSession ;;
     run_async sess (AsyncStreamWait dev handle) (fun _ => ret tt) on_stream_complete)
    (fun what =>
       ReturnException what ;;;
       SwitchToState kRecvPacketNumBytes).

(** [SysCallHandler(f)], with [f] one of the syscall bodies. *)
Definition SysCallHandler (f : RPCSession -> list Any -> SysResult) : M unit :=
  args <- RecvPackedSeq ;;
  try_catch
    (sess <- GetServingSession ;;
     match f sess args with
     | SysReturn rv => ReturnPackedSeq [rv]
     | SysThrow what => throw what
     end)
    (fun what => ReturnException what) ;;;
  SwitchToState kRecvPacketNumBytes.

Definition is_plain_syscall (code : Z) : bool :=
  existsb (Z.eqb code)
    [kFreeHandle; kGetGlobalFunc; kDevSetDevice; kDevGetAttr; kDevAllocData;
     kDevAllocDataWithScope; kDevFreeData; kDevCreateStream; kDevFreeStream;
     kDevSetStream; kDevGetCurrentStream; kCopyAmongRemote].

(** [HandleSyscall] *)
Definition HandleSyscall (code : Z) : M unit :=
  (if code =? kDevStreamSync then HandleSyscallStreamSync
   else if is_plain_syscall code then SysCallHandler (SysCallFn X code)
   else throw "Unknown event") ;;;
  e <- get ;;
  if negb (State_eqb (state_ e) kWaitForAsyncCallback)
  then ICHECK (State_eqb (state_ e) kRecvPacketNumBytes)
              "Check failed: state_ == kRecvPacketNumBytes"
  else ret tt.

(** [HandleProcessPacket] *)
Definition HandleProcessPacket (setreturn : option (list Any -> M unit)) : M unit :=
  code <- Read_code ;;
  if code >=? kSyscallCodeStart then HandleSyscall code
  else if code =? kInitServer then HandleInitServer
  else if code =? kCallFunc then HandleNormalCallFunc
  else if code =? kCopyFromRemote then HandleCopyFromRemote
  else if code =? kCopyToRemote then HandleCopyToRemote
  else if (code =? kException) || (code =? kReturn) then HandleReturn code setreturn
  else if code =? kCopyAck then SwitchToState kCopyAckReceived
  else if code =? kShutdown then SwitchToState kShutdownReceived
  else throw "Unknown event".

(** One turn of the [while] loop of [HandleNextEvent]: the [switch] on
    [state_]; the result is the new value of [status]. *)
Definition HandleNextEvent_body (setreturn : option (list Any -> M unit)) : M Z :=
  e <- get ;;
  match state_ e with
  | kInitHeader => HandleInitHeader ;;; ret kNone
  | kRecvPacketNumBytes =>
      packet_nbytes <- Read_u64 ;;
      (if negb (packet_nbytes =? 0) then
         SwitchToState kProcessPacket ;;;
         RequestBytes packet_nbytes
       else
         SwitchToState kRecvPacketNumBytes) ;;;
      ret kNone
  | kProcessPacket => HandleProcessPacket setreturn ;;; ret kNone
  | kWaitForAsyncCallback => ret kNone
  | kReturnReceived => SwitchToState kRecvPacketNumBytes ;;; ret kReturn
  | kCopyAckReceived => ret kCopyAck
  | kShutdownReceived => ret kShutdown
  end.

(** The [while] loop of [HandleNextEvent]; [None] when [fuel] turns did not
    reach the exit. *)
Fixpoint HandleNextEvent_loop (fuel : nat) (setreturn : option (list Any -> M unit))
    (status : Z) (e : Endpoint) : option (Res Z) :=
  if (status =? kNone) && negb (State_eqb (state_ e) kWaitForAsyncCallback) && Ready e
  then
    match fuel with
    | O => None
    | S fuel' =>
        match HandleNextEvent_body setreturn e with
        | Ok status' e' => HandleNextEvent_loop fuel' setreturn status' e'
        | Throw msg e' => Some (Throw msg e')
        end
    end
  else Some (Ok status e).

(** [HandleNextEvent]: the two mode flags are swapped in for the duration of
    the loop and swapped back on the way out. *)
Definition HandleNextEvent (fuel : nat) (client_mode async_server_mode : bool)
    (setreturn : option (list Any -> M unit)) (e : Endpoint) : option (Res Z) :=
  let saved_client := client_mode_ e in
  let saved_async := async_server_mode_ e in
  match HandleNextEvent_loop fuel setreturn kNone
          (set_modes client_mode async_server_mode e) with
  | None => None
  | Some (Ok status e') => Some (Ok status (set_modes saved_client saved_async e'))
  | Some (Throw msg e') => Some (Throw msg e')
  end.

End EventHandler.

(* ================================================================= *)
(** ** RPCEndpoint: the drive loop *)

Section RPCEndpoint.

Variable X : Externals.

(** Modelled from the spec: [channel_->Recv(data, size)] hands over at most
    [size] bytes of the next chunk, and nothing when the peer has closed. *)
Definition channel_Recv (size : Z) (ch : RPCChannel) : list byte * RPCChannel :=
  match inbox ch with
  | [] => ([], ch)
  | chunk :: rest =>
      (take size chunk,
       {| inbox := match drop size chunk with
                   | [] => rest
                   | b :: more => (b :: more) :: rest
                   end;
          outbox := outbox ch |})
  end.

(** [reader_.WriteWithCallback(recv, bytes_needed)], then the test on the
    number of bytes received: [Some kShutdown] is the early [return]. *)
Definition receive_needed (bytes_needed : Z) : M (option Z) :=
  e <- get ;;
  match channel_ e with
  | None => throw "channel_ is null"
  | Some ch =>
      let (got, ch') := channel_Recv bytes_needed ch in
      modify (fun e => set_reader (reader_ e ++ got) (set_channel (Some ch') e)) ;;;
      let n := len got in
      if n =? 0 then
        e <- get ;;
        if CanCleanShutdown e then ret (Some kShutdown)
        else throw "Channel closes before we get needed bytes"
      else ret None
  end.

(** The [while] loop of [HandleUntilReturnEvent]; [None] when [fuel] turns
    did not reach the exit.  The writer is pushed to the channel as
    [flush_writer_] does it. *)
Fixpoint HandleUntilReturnEvent_loop (fuel : nat) (client_mode : bool)
    (setreturn : option (list Any -> M unit)) (code : Z) (e : Endpoint)
    : option (Res Z) :=
  if negb (code =? kReturn) && negb (code =? kShutdown) && negb (code =? kCopyAck)
  then
    match fuel with
    | O => None
    | S fuel' =>
        match flush_writer_ e with
        | Throw msg e1 => Some (Throw msg e1)
        | Ok _ e1 =>
            let bytes_needed := BytesNeeded e1 in
            match (if negb (bytes_needed =? 0)
                   then receive_needed bytes_needed
                   else ret None) e1 with
            | Throw msg e2 => Some (Throw msg e2)
            | Ok (Some early) e2 => Some (Ok early e2)
            | Ok None e2 =>
                match HandleNextEvent X fuel client_mode false setreturn e2 with
                | None => None
                | Some (Throw msg e3) => Some (Throw msg e3)
                | Some (Ok code' e3) =>
                    HandleUntilReturnEvent_loop fuel' client_mode setreturn code' e3
                end
            end
        end
    end
  else Some (Ok code e).

(** [HandleUntilReturnEvent] *)
Definition HandleUntilReturnEvent (fuel : nat) (client_mode : bool)
    (setreturn : option (list Any -> M unit)) (e : Endpoint) : option (Res Z) :=
  let code := kCallFunc in
  match channel_ e with
  | None =>
      Some (Throw "Expected connection to server to be active, but the connection was previously closed" e)
  | Some _ => HandleUntilReturnEvent_loop fuel client_mode setreturn code e
  end.

End RPCEndpoint.

(* ================================================================= *)
(** ** RPCClientSession: chunked copies *)

(** [RemoteCopyCalculatePacketOverheadSize]: the sizes of the opcode, the
    data pointer, the device, [ndim], the data type, [byte_offset], the
    shape and the [nbytes] field. *)
Definition RemoteCopyCalculatePacketOverheadSize (tensor : DLTensor) (code nbytes : Z) : Z :=
  let shape_bytes := wrap64 (wrap64 (ndim tensor) * 8) in
  let overhead := wrap64 (4 + 8 + 8 + 4 + 4 + 8 + shape_bytes + 8) in
  overhead.

Definition set_byte_offset (v : Z) (t : DLTensor) : DLTensor :=
  {| data := data t; device := device t; ndim := ndim t; dtype := dtype t;
     shape := shape t; byte_offset := v |}.

(** One call of [endpoint_->CopyToRemote] or [endpoint_->CopyFromRemote]:
    the local pointer, the tensor as it is passed, the byte count. *)
Record EndpointCopy : Type := {
  local_bytes : Z;
  remote : DLTensor;
  copy_nbytes : Z
}.

(** Where a chunked copy stands: the caller's tensor, whose [byte_offset]
    the copy overwrites, and the endpoint calls issued so far. *)
Record CopyProgress : Type := {
  tensor : DLTensor;
  issued : list EndpointCopy
}.

Inductive CopyResult : Type :=
| CopyDone (p : CopyProgress)
| CopyThrow (msg : string) (p : CopyProgress).

Module RPCClientSession.
Section Copy.

(** Whether a call of the endpoint returns ([true]) or raises. *)
Variable endpoint_copy : EndpointCopy -> bool.

Definition call_endpoint (c : EndpointCopy) (p : CopyProgress) : CopyResult :=
  let p' := {| tensor := remote c; issued := issued p ++ [c] |} in
  if endpoint_copy c then CopyDone p'
  else CopyThrow "endpoint copy failed" p'.

(** The [for] loop over the full blocks, [n] turns from [block_count] on;
    it hands back the final value of [block_count]. *)
Fixpoint copy_blocks (n : nat) (block_count block_size local : Z) (p : CopyProgress)
    : CopyResult * Z :=
  match n with
  | O => (CopyDone p, block_count)
  | S n' =>
      let t := set_byte_offset (wrap64 (block_count * block_size)) (tensor p) in
      let ptr := wrap64 (local + block_count * block_size) in
      match call_endpoint {| local_bytes := ptr; remote := t; copy_nbytes := block_size |} p with
      | CopyDone p' => copy_blocks n' (block_count + 1) block_size local p'
      | CopyThrow msg p' => (CopyThrow msg p', block_count)
      end
  end.

(** The body shared by [CopyToRemote] and [CopyFromRemote], which differ in
    the opcode and in the endpoint method they call; [rpc_max_size] is what
    [GetRPCMaxTransferSize] returned. *)
Definition chunked_copy (code : Z) (rpc_max_size : Z) (local : Z)
    (remote_tensor : DLTensor) (nbytes : Z) : CopyResult :=
  let p := {| tensor := remote_tensor; issued := [] |} in
  let overhead := RemoteCopyCalculatePacketOverheadSize remote_tensor code nbytes in
  if negb (rpc_max_size >? overhead) then CopyThrow "Invalid block size!" p
  else
    let block_size := wrap64 (rpc_max_size - overhead) in
    let num_blocks := nbytes / block_size in
    match copy_blocks (Z.to_nat num_blocks) 0 block_size local p with
    | (CopyThrow msg p', _) => CopyThrow msg p'
    | (CopyDone p', block_count) =>
        let remainder_bytes := nbytes mod block_size in
        if negb (remainder_bytes =? 0) then
          let t := set_byte_offset (wrap64 (block_count * block_size)) (tensor p') in
          let ptr := wrap64 (local + block_count * block_size) in
          call_endpoint {| local_bytes := ptr; remote := t; copy_nbytes := remainder_bytes |} p'
        else CopyDone p'
    end.

(** [CopyToRemote] *)
Definition CopyToRemote (rpc_max_size local_from_bytes : Z) (remote_to : DLTensor)
    (nbytes : Z) : CopyResult :=
  chunked_copy kCopyToRemote rpc_max_size local_from_bytes remote_to nbytes.

(** [CopyFromRemote] *)
Definition CopyFromRemote (rpc_max_size : Z) (remote_from : DLTensor)
    (local_to_bytes nbytes : Z) : CopyResult :=
  chunked_copy kCopyFromRemote rpc_max_size local_to_bytes remote_from nbytes.

End Copy.
End RPCClientSession.

(* ================================================================= *)
(** ** A small instance of the parameters

    Enough of a peer to run the model on concrete packets: packed
    sequences hold strings only ([u32] count, then [u64] length and bytes
    for each), a tensor descriptor is laid out as the specification's
    table has it, and the serving session finishes every asynchronous
    request later. *)

Module Demo.

Fixpoint recv_strings (n : nat) : M (list Any) :=
    match n with
    | O => ret []
    | S k =>
        l <- Read_u64 ;;
        bs <- Read l ;;
        rest <- recv_strings k ;;
        ret (AnyStr (string_of_list_byte bs) :: rest)
    end.

Definition recv_packed_seq : M (list Any) :=
    n <- Read_u32 ;; recv_strings (Z.to_nat n).

Definition string_bytes (s : string) : list byte :=
    le_bytes 8 (Z.of_nat (String.length s)) ++ list_byte_of_string s.

Fixpoint strings_bytes (args : list Any) : option (list byte) :=
    match args with
    | [] => Some []
    | AnyStr s :: rest =>
        match strings_bytes rest with
        | Some bs => Some (string_bytes s ++ bs)
        | None => None
        end
    | _ => None
    end.

Definition packed_seq_bytes (args : list Any) : option (list byte) :=
    match strings_bytes args with
    | Some bs => Some (le_bytes 4 (len args) ++ bs)
    | None => None
    end.

Fixpoint recv_shape (n : nat) : M (list Z) :=
    match n with
    | O => ret []
    | S k => d <- Read_u64 ;; rest <- recv_shape k ;; ret (to_int64 d :: rest)
    end.

Definition receive_tensor : M DLTensor :=
    dev_type <- Read_i32 ;;
    dev_id <- Read_i32 ;;
    ptr <- Read_u64 ;;
    nd <- Read_i32 ;;
    shp <- recv_shape (Z.to_nat nd) ;;
    code <- Read 1 ;;
    nbits <- Read 1 ;;
    nlanes <- Read 2 ;;
    offset <- Read_u64 ;;
    ret {| data := ptr;
           device := {| device_type := dev_type; device_id := dev_id |};
           ndim := nd;
           dtype := {| dtype_code := le_value code; bits := le_value nbits;
                       lanes := le_value nlanes |};
           shape := shp;
           byte_offset := offset |}.

Definition local_session : RPCSession :=
    {| IsLocalSession := true; IsAsync := false; session_tag := 0 |}.

Definition externals (no_endian_swap : bool) : Externals :=
    {| kRuntimeRPCObjectRef := 73;
       kRPCProtocolVer := "0.8.0";
       DMLC_IO_NO_ENDIAN_SWAP := no_endian_swap;
       PackedSeqBytes := packed_seq_bytes;
       ExceptionSeqBytes := fun msg => le_bytes 4 1 ++ string_bytes msg;
       VoidSeqBytes := le_bytes 4 0;
       RPCReference_RecvPackedSeq := recv_packed_seq;
       RPCReference_ReceiveDLTensor := receive_tensor;
       SessionConstructor := fun _ _ => CtorModule "rpc" local_session;
       LocalSession := local_session;
       SysCallFn := fun _ _ _ => SysReturn AnyNull;
       AsyncOutcome := fun _ _ => None;
       IsRPCSessionDevice := fun d => 128 <=? device_type d;
       arena_base := 4096 |}.

Definition zero_memory : Z -> byte := fun _ => x00.

  (** The bytes [1, 2, 3, ...] from address 0 on, modulo 256. *)
Definition counting_memory : Z -> byte := fun a => byte_of_Z (a + 1).

End Demo.

(* ================================================================= *)
(** ** Little-endian scalars: lemmas *)

Lemma Z_of_byte_of_Z (z : Z) : Z_of_byte (byte_of_Z z) = z mod 256.
Proof.
  unfold Z_of_byte, byte_of_Z.
  assert (Hb : 0 <= z mod 256 < 256) by (apply Z.mod_pos_bound; lia).
  destruct (Byte.of_N (Z.to_N (z mod 256))) as [b|] eqn:Hof.
  - apply Byte.to_of_N in Hof. rewrite Hof. lia.
  - apply Byte.of_N_None_iff in Hof. lia.
Qed.

Lemma length_le_bytes (n : nat) (v : Z) : List.length (le_bytes n v) = n.
Proof.
  revert v. induction n as [|n IH]; intro v; simpl; [reflexivity|].
  now rewrite IH.
Qed.

Lemma len_le_bytes (n : nat) (v : Z) : len (le_bytes n v) = Z.of_nat n.
Proof. unfold len. now rewrite length_le_bytes. Qed.

Lemma le_value_le_bytes (n : nat) (v : Z) :
  le_value (le_bytes n v) = v mod 2 ^ (8 * Z.of_nat n).
Proof.
  revert v. induction n as [|n IH]; intro v.
  - simpl. now rewrite Z.mod_1_r.
  - cbn [le_bytes le_value]. rewrite Z_of_byte_of_Z, IH.
    replace (8 * Z.of_nat (S n)) with (8 + 8 * Z.of_nat n) by lia.
    rewrite Z.pow_add_r by lia.
    change (2 ^ 8) with 256.
    rewrite (Z.rem_mul_r v 256 (2 ^ (8 * Z.of_nat n))) by
      (try lia; apply Z.pow_pos_nonneg; lia).
    reflexivity.
Qed.

Lemma to_int64_mod (z : Z) : to_int64 z mod 2 ^ 64 = z mod 2 ^ 64.
Proof.
  unfold to_int64. rewrite Zminus_mod_idemp_l. f_equal. lia.
Qed.

Lemma to_int32_small (z : Z) : - 2 ^ 31 <= z < 2 ^ 31 -> to_int32 z = z.
Proof.
  intro H. unfold to_int32. rewrite Z.mod_small; lia.
Qed.

Lemma len_app {A : Type} (l1 l2 : list A) : len (l1 ++ l2) = len l1 + len l2.
Proof. unfold len. rewrite length_app. lia. Qed.

Lemma len_nonneg {A : Type} (l : list A) : 0 <= len l.
Proof. unfold len. lia. Qed.

Lemma take_app_len {A : Type} (l1 l2 : list A) : take (len l1) (l1 ++ l2) = l1.
Proof.
  unfold take, len. rewrite Nat2Z.id.
  rewrite firstn_app, Nat.sub_diag, firstn_all. simpl. apply app_nil_r.
Qed.

Lemma drop_app_len {A : Type} (l1 l2 : list A) : drop (len l1) (l1 ++ l2) = l2.
Proof.
  unfold drop, len. rewrite Nat2Z.id.
  rewrite skipn_app, Nat.sub_diag, skipn_all. reflexivity.
Qed.

(** From here on the scalars are reasoned about through the lemmas above. *)
Arguments byte_of_Z : simpl never.
Arguments le_bytes : simpl never.
Arguments le_value : simpl never.
Arguments wrap32 : simpl never.
Arguments wrap64 : simpl never.
Arguments to_int32 : simpl never.
Arguments to_int64 : simpl never.
Arguments mem_read : simpl never.

(* ================================================================= *)
(** ** Reading and writing: lemmas *)

(** Two endpoints with the same components are the same endpoint. *)
Lemma endpoint_eq (a b : Endpoint) :
  state_ a = state_ b ->
  init_header_step_ a = init_header_step_ b ->
  client_mode_ a = client_mode_ b ->
  async_server_mode_ a = async_server_mode_ b ->
  arena_ a = arena_ b ->
  object_arena_ a = object_arena_ b ->
  pending_request_bytes_ a = pending_request_bytes_ b ->
  serving_session_ a = serving_session_ b ->
  name_ a = name_ b ->
  reader_ a = reader_ b ->
  writer_ a = writer_ b ->
  remote_key_ a = remote_key_ b ->
  channel_ a = channel_ b ->
  memory_ a = memory_ b ->
  session_requests_ a = session_requests_ b ->
  history_ a = history_ b ->
  a = b.
Proof.
  destruct a, b. cbn. intros. subst. reflexivity.
Qed.

(** Reduces the projections of updated endpoints, and nothing else. *)
Ltac project :=
  cbn [state_ init_header_step_ client_mode_ async_server_mode_ arena_ object_arena_
       pending_request_bytes_ serving_session_ name_ reader_ writer_ remote_key_
       channel_ memory_ session_requests_ history_
       set_state set_init_header_step set_modes set_arena set_object_arena set_pending
       set_serving_session set_reader set_writer set_remote_key set_channel set_memory
       set_session_requests set_history enter].

Ltac endpoint_ext := apply endpoint_eq; project; try reflexivity.

(** Unfolds the plumbing of the monad and the state-only operations. *)
Ltac run_monad :=
  cbv [bind modify ret get throw RequestBytes RecycleAll Write Write_u32 Write_i32
       Write_i64 Write_u64 Write_code WriteArray RingBuffer_Write].

(** A read of exactly the bytes at the front of the reader. *)
Lemma Read_front (bs rest : list byte) (e : Endpoint) :
  reader_ e = bs ++ rest ->
  len bs <= pending_request_bytes_ e ->
  Read (len bs) e =
    Ok bs (set_pending (pending_request_bytes_ e - len bs) (set_reader rest e)).
Proof.
  intros Hr Hp. unfold Read, RingBuffer_Read, bytes_available.
  destruct (Z.leb_spec (len bs) (pending_request_bytes_ e)) as [_|]; [|lia].
  rewrite Hr, len_app.
  destruct (Z.leb_spec (len bs) (len bs + len rest)) as [_|Hlt].
  - now rewrite take_app_len, drop_app_len.
  - pose proof (len_nonneg rest). lia.
Qed.

Lemma Read_exact (n : Z) (bs rest : list byte) (e : Endpoint) :
  reader_ e = bs ++ rest ->
  len bs = n ->
  n <= pending_request_bytes_ e ->
  Read n e = Ok bs (set_pending (pending_request_bytes_ e - n) (set_reader rest e)).
Proof.
  intros Hr Hn Hp. subst n. now apply Read_front.
Qed.

(* ================================================================= *)
(** ** The handler at the clean-shutdown boundary *)

(** C4: [CanCleanShutdown] answers [true] exactly when the handler is in
    [kRecvPacketNumBytes], and [false] in each of the six other states. *)
Theorem can_clean_shutdown_iff (e : Endpoint) :
  (CanCleanShutdown e = true <-> state_ e = kRecvPacketNumBytes) /\
  (In (state_ e)
      [kInitHeader; kProcessPacket; kWaitForAsyncCallback; kReturnReceived;
       kCopyAckReceived; kShutdownReceived] ->
   CanCleanShutdown e = false).
Proof.
  unfold CanCleanShutdown. split.
  - destruct (state_ e); simpl; split; congruence.
  - simpl. intros [H|[H|[H|[H|[H|[H|[]]]]]]]; rewrite <- H; reflexivity.
Qed.

(* ================================================================= *)
(** ** Remote-object handles on the wire *)

Section FFIAny.

Variable X : Externals.

(** What [WriteFFIAny] appends for a handle. *)
Definition handle_bytes (handle : Z) : list byte :=
  le_bytes 4 (wrap32 (kRuntimeRPCObjectRef X)) ++ le_bytes 8 (to_int64 (wrap64 handle)).

Lemma WriteFFIAny_handle (handle : Z) (w : Endpoint) :
  WriteFFIAny X (AnyRPCObjectRef handle) w =
    Ok tt (set_writer (writer_ w ++ handle_bytes handle) w).
Proof.
  unfold WriteFFIAny, handle_bytes. run_monad. f_equal.
  endpoint_ext. now rewrite <- app_assoc.
Qed.

Lemma ReadFFIAny_handle (handle : Z) (r : Endpoint) (rest : list byte) :
  0 <= handle < 2 ^ 64 ->
  reader_ r = handle_bytes handle ++ rest ->
  12 <= pending_request_bytes_ r ->
  ReadFFIAny X r =
    Ok (AnyRPCObjectRef handle)
       (set_object_arena (object_arena_ r ++ [AnyRPCObjectRef handle])
          (set_pending (pending_request_bytes_ r - 12) (set_reader rest r))).
Proof.
  intros Hh Hr Hp. unfold ReadFFIAny, Read_u32, Read_u64.
  unfold handle_bytes in Hr. rewrite <- app_assoc in Hr.
  unfold bind at 1. unfold bind at 1.
  rewrite (Read_exact 4 _ _ r Hr) by (try apply len_le_bytes; lia).
  unfold ret at 1.
  rewrite le_value_le_bytes.
  change (2 ^ (8 * Z.of_nat 4)) with (2 ^ 32).
  unfold wrap32 at 1. rewrite Z.mod_mod by lia. fold (wrap32 (kRuntimeRPCObjectRef X)).
  rewrite Z.eqb_refl.
  unfold bind at 1. unfold bind at 1.
  rewrite (Read_exact 8 (le_bytes 8 (to_int64 (wrap64 handle))) rest)
    by (try apply len_le_bytes; simpl; try reflexivity; lia).
  unfold ret at 1.
  rewrite le_value_le_bytes.
  change (2 ^ (8 * Z.of_nat 8)) with (2 ^ 64).
  rewrite to_int64_mod. unfold wrap64. rewrite Z.mod_mod by lia.
  rewrite Z.mod_small by lia.
  run_monad. f_equal. endpoint_ext. lia.
Qed.

End FFIAny.

(** C1: a remote-object handle written by [WriteFFIAny] takes as many bytes
    as [GetFFIAnyProtocolBytes] announces, and [ReadFFIAny] turns those
    bytes back into a remote object reference with the same 64-bit handle,
    which it also keeps in the object arena. *)
Theorem ffi_any_roundtrip (X : Externals) (handle : Z) (w : Endpoint) :
  0 <= handle < 2 ^ 64 ->
  exists bytes : list byte,
    WriteFFIAny X (AnyRPCObjectRef handle) w =
      Ok tt (set_writer (writer_ w ++ bytes) w) /\
    GetFFIAnyProtocolBytes (AnyRPCObjectRef handle) w = Ok (len bytes) w /\
    forall (r : Endpoint) (rest : list byte),
      reader_ r = bytes ++ rest ->
      len bytes <= pending_request_bytes_ r ->
      exists r' : Endpoint,
        ReadFFIAny X r = Ok (AnyRPCObjectRef handle) r' /\
        reader_ r' = rest /\
        pending_request_bytes_ r' = pending_request_bytes_ r - len bytes /\
        object_arena_ r' = object_arena_ r ++ [AnyRPCObjectRef handle] /\
        state_ r' = state_ r /\
        writer_ r' = writer_ r.
Proof.
  intro Hh. exists (handle_bytes X handle).
  assert (Hlen : len (handle_bytes X handle) = 12).
  { unfold handle_bytes. rewrite len_app, !len_le_bytes. reflexivity. }
  split; [apply WriteFFIAny_handle|]. split.
  - unfold GetFFIAnyProtocolBytes, ret. now rewrite Hlen.
  - intros r rest Hr Hp. rewrite Hlen in *.
    eexists. split; [apply ReadFFIAny_handle; eassumption|].
    simpl. repeat split; reflexivity.
Qed.

Lemma ffi_any_roundtrip_witness :
  exists bytes : list byte,
    WriteFFIAny (Demo.externals true) (AnyRPCObjectRef 18446744073709551615)
      (EventHandler_new None "server" "key" Demo.zero_memory) =
      Ok tt (set_writer
               (writer_ (EventHandler_new None "server" "key" Demo.zero_memory) ++ bytes)
               (EventHandler_new None "server" "key" Demo.zero_memory)) /\
    GetFFIAnyProtocolBytes (AnyRPCObjectRef 18446744073709551615)
      (EventHandler_new None "server" "key" Demo.zero_memory) =
      Ok (len bytes) (EventHandler_new None "server" "key" Demo.zero_memory) /\
    forall (r : Endpoint) (rest : list byte),
      reader_ r = bytes ++ rest ->
      len bytes <= pending_request_bytes_ r ->
      exists r' : Endpoint,
        ReadFFIAny (Demo.externals true) r = Ok (AnyRPCObjectRef 18446744073709551615) r' /\
        reader_ r' = rest /\
        pending_request_bytes_ r' = pending_request_bytes_ r - len bytes /\
        object_arena_ r' = object_arena_ r ++ [AnyRPCObjectRef 18446744073709551615] /\
        state_ r' = state_ r /\
        writer_ r' = writer_ r.
Proof.
  apply (ffi_any_roundtrip (Demo.externals true) 18446744073709551615).
  lia.
Defined.

(** A handle with its top bit set, written by one handler and read by
    another: twelve bytes, the same handle. *)
Example ffi_any_roundtrip_run :
  exists w r : Endpoint,
    WriteFFIAny (Demo.externals true) (AnyRPCObjectRef (2 ^ 63 + 5))
      (EventHandler_new None "client" "key" Demo.zero_memory) = Ok tt w /\
    len (writer_ w) = 12 /\
    ReadFFIAny (Demo.externals true)
      (set_pending 12 (set_reader (writer_ w)
         (EventHandler_new None "server" "key" Demo.zero_memory))) =
      Ok (AnyRPCObjectRef (2 ^ 63 + 5)) r /\
    reader_ r = [] /\
    object_arena_ r = [AnyRPCObjectRef (2 ^ 63 + 5)].
Proof.
  eexists. eexists. split; [vm_compute; reflexivity|].
  split; [reflexivity|]. split; [vm_compute; reflexivity|]. split; reflexivity.
Qed.

(* ================================================================= *)
(** ** The state switcher *)

Definition pending_check_failed : string :=
  "Check failed: pending_request_bytes_ == 0U".

Lemma SwitchToState_throw (state : State) (e : Endpoint) :
  state <> kCopyAckReceived ->
  pending_request_bytes_ e <> 0 ->
  SwitchToState state e = Throw pending_check_failed e.
Proof.
  intros Hs Hp. unfold SwitchToState, bind, get, ICHECK.
  destruct (State_eqb state kCopyAckReceived) eqn:E.
  - destruct state; simpl in E; congruence.
  - simpl. destruct (Z.eqb_spec (pending_request_bytes_ e) 0); [contradiction|].
    reflexivity.
Qed.

Lemma SwitchToState_ok_pending (state : State) (e e' : Endpoint) :
  SwitchToState state e = Ok tt e' ->
  state <> kCopyAckReceived ->
  pending_request_bytes_ e = 0.
Proof.
  intros H Hs.
  destruct (Z.eq_dec (pending_request_bytes_ e) 0) as [|Hne]; [assumption|].
  rewrite (SwitchToState_throw state e Hs Hne) in H. discriminate.
Qed.

(** Entering [kRecvPacketNumBytes] from a state other than
    [kWaitForAsyncCallback]: eight bytes are requested, the arena recycled. *)
Lemma SwitchToState_recv (e : Endpoint) :
  pending_request_bytes_ e = 0 ->
  state_ e <> kWaitForAsyncCallback ->
  SwitchToState kRecvPacketNumBytes e =
    Ok tt (set_arena [] (set_object_arena []
             (set_pending 8 (enter kRecvPacketNumBytes e)))).
Proof.
  intros Hp Hs.
  destruct e as [st step cm am ar oa pend ss nm rd wr rk ch mem sr hist].
  simpl in *. subst pend.
  destruct st; try contradiction; reflexivity.
Qed.

(** Entering any other state from a state other than
    [kWaitForAsyncCallback]. *)
Lemma SwitchToState_plain (state : State) (e : Endpoint) :
  pending_request_bytes_ e = 0 \/ state = kCopyAckReceived ->
  state_ e <> kWaitForAsyncCallback ->
  state <> kInitHeader ->
  state <> kRecvPacketNumBytes ->
  SwitchToState state e = Ok tt (enter state e).
Proof.
  intros Hp Hs Hi Hr.
  destruct e as [st step cm am ar oa pend ss nm rd wr rk ch mem sr hist].
  simpl in *.
  destruct Hp as [Hp|Hp]; [subst pend; destruct state|subst state];
    try contradiction; destruct st; try contradiction; reflexivity.
Qed.

(** Leaving [kWaitForAsyncCallback] for [kRecvPacketNumBytes]: the writer is
    flushed to the channel first. *)
Lemma SwitchToState_recv_flush (e : Endpoint) (ch : RPCChannel) :
  pending_request_bytes_ e = 0 ->
  state_ e = kWaitForAsyncCallback ->
  channel_ e = Some ch ->
  SwitchToState kRecvPacketNumBytes e =
    Ok tt (set_arena [] (set_object_arena []
             (set_pending 8 (enter kRecvPacketNumBytes
                (set_writer []
                   (set_channel (Some {| inbox := inbox ch;
                                         outbox := outbox ch ++ writer_ e |}) e)))))).
Proof.
  intros Hp Hs Hc.
  destruct e as [st step cm am ar oa pend ss nm rd wr rk c mem sr hist].
  simpl in *. subst. destruct ch as [ib ob].
  destruct wr; [|reflexivity].
  unfold SwitchToState, bind, get, ICHECK, flush_writer_, modify, ret,
    RequestBytes, RecycleAll, enter. simpl. now rewrite app_nil_r.
Qed.

(** C3 (amended): a call of [SwitchToState] with a destination other than
    [kCopyAckReceived] performs the transition only if
    [pending_request_bytes_] is zero at that moment; with bytes still
    pending the check fails, an error is raised and the handler is left as
    it was. *)
Theorem switch_requires_no_pending (state : State) (e : Endpoint) :
  state <> kCopyAckReceived ->
  (forall e' : Endpoint,
      SwitchToState state e = Ok tt e' -> pending_request_bytes_ e = 0) /\
  (pending_request_bytes_ e <> 0 ->
   SwitchToState state e = Throw pending_check_failed e).
Proof.
  intro Hs. split.
  - intros e' H. exact (SwitchToState_ok_pending state e e' H Hs).
  - intro Hp. exact (SwitchToState_throw state e Hs Hp).
Qed.

Lemma switch_requires_no_pending_witness :
  (forall e' : Endpoint,
      SwitchToState kShutdownReceived
        (EventHandler_new None "server" "key" Demo.zero_memory) = Ok tt e' ->
      pending_request_bytes_ (EventHandler_new None "server" "key" Demo.zero_memory) = 0) /\
  (pending_request_bytes_ (EventHandler_new None "server" "key" Demo.zero_memory) <> 0 ->
   SwitchToState kShutdownReceived
     (EventHandler_new None "server" "key" Demo.zero_memory) =
     Throw pending_check_failed (EventHandler_new None "server" "key" Demo.zero_memory)).
Proof.
  apply (switch_requires_no_pending kShutdownReceived
           (EventHandler_new None "server" "key" Demo.zero_memory)).
  discriminate.
Defined.

(** A packet that announces five bytes but carries the four-byte opcode
    [Shutdown]: one byte is still pending when the handler switches state. *)
Definition overlong_shutdown_packet : list byte :=
  le_bytes 8 5 ++ le_bytes 4 kShutdown ++ [x2a].

(** C3 (counterexample): the assertion of [SwitchToState] does fire on an
    execution that starts from a freshly constructed endpoint: the server's
    drive loop receives [overlong_shutdown_packet] and stops with the check
    failure, one byte pending, the state still [kProcessPacket]. *)
Lemma switch_assertion_fires :
  exists e' : Endpoint,
    HandleUntilReturnEvent (Demo.externals true) 3 false None
      (EventHandler_new
         (Some {| inbox := [overlong_shutdown_packet]; outbox := [] |})
         "server" "key" Demo.zero_memory)
    = Some (Throw pending_check_failed e') /\
    pending_request_bytes_ e' = 1 /\
    state_ e' = kProcessPacket.
Proof.
  eexists. split; [vm_compute; reflexivity|]. split; reflexivity.
Qed.

(* ================================================================= *)
(** ** Scalars at the front of the reader *)

Lemma Read_u64_front (v : Z) (rest : list byte) (e : Endpoint) :
  0 <= v < 2 ^ 64 ->
  reader_ e = le_bytes 8 v ++ rest ->
  8 <= pending_request_bytes_ e ->
  Read_u64 e = Ok v (set_pending (pending_request_bytes_ e - 8) (set_reader rest e)).
Proof.
  intros Hv Hr Hp. unfold Read_u64, bind.
  rewrite (Read_exact 8 _ _ e Hr) by (try apply len_le_bytes; lia).
  unfold ret. rewrite le_value_le_bytes.
  change (2 ^ (8 * Z.of_nat 8)) with (2 ^ 64).
  now rewrite Z.mod_small by lia.
Qed.

Lemma Read_i32_front (v : Z) (rest : list byte) (e : Endpoint) :
  0 <= v < 2 ^ 31 ->
  reader_ e = le_bytes 4 v ++ rest ->
  4 <= pending_request_bytes_ e ->
  Read_i32 e = Ok v (set_pending (pending_request_bytes_ e - 4) (set_reader rest e)).
Proof.
  intros Hv Hr Hp. unfold Read_i32, bind.
  rewrite (Read_exact 4 _ _ e Hr) by (try apply len_le_bytes; lia).
  unfold ret. rewrite le_value_le_bytes.
  change (2 ^ (8 * Z.of_nat 4)) with (2 ^ 32).
  rewrite Z.mod_small by lia.
  now rewrite to_int32_small by lia.
Qed.

(* ================================================================= *)
(** ** Zero-length packets *)

Section ZeroLength.

Variable X : Externals.
Variable setreturn : option (list Any -> M unit).

(** The handler after an empty packet: the prefix is gone from the reader
    and the arena has been recycled; nothing else has changed. *)
Definition skipped (rest : list byte) (e : Endpoint) : Endpoint :=
  set_arena [] (set_object_arena []
    (set_history (history_ e ++ [kRecvPacketNumBytes]) (set_reader rest e))).

Lemma HandleNextEvent_body_zero (e : Endpoint) (rest : list byte) :
  state_ e = kRecvPacketNumBytes ->
  pending_request_bytes_ e = 8 ->
  reader_ e = le_bytes 8 0 ++ rest ->
  HandleNextEvent_body X setreturn e = Ok kNone (skipped rest e).
Proof.
  intros Hs Hp Hr. unfold HandleNextEvent_body, bind at 1, get. rewrite Hs.
  unfold bind at 1. unfold bind at 1.
  rewrite (Read_u64_front 0 rest e) by (try assumption; lia).
  change (negb (0 =? 0)) with false. cbv iota.
  rewrite SwitchToState_recv.
  - unfold ret. f_equal. unfold skipped.
    destruct e as [st step cm am ar oa pend ss nm rd wr rk ch mem sr hist].
    simpl in *. subst. reflexivity.
  - simpl. lia.
  - simpl. rewrite Hs. discriminate.
Qed.

End ZeroLength.

(** C10: a packet whose length prefix is zero is consumed without error and
    without reading an opcode: one turn of the loop takes the eight bytes of
    the prefix off the reader, leaves the handler in [kRecvPacketNumBytes]
    waiting for the next eight bytes, writes nothing, and [HandleNextEvent]
    carries on as it would have without that packet. *)
Theorem zero_length_packet_skipped (X : Externals) (fuel : nat)
    (client_mode async_server_mode : bool)
    (setreturn : option (list Any -> M unit)) (e : Endpoint) (rest : list byte) :
  state_ e = kRecvPacketNumBytes ->
  pending_request_bytes_ e = 8 ->
  reader_ e = le_bytes 8 0 ++ rest ->
  HandleNextEvent_body X setreturn e = Ok kNone (skipped rest e) /\
  state_ (skipped rest e) = kRecvPacketNumBytes /\
  pending_request_bytes_ (skipped rest e) = 8 /\
  reader_ (skipped rest e) = rest /\
  writer_ (skipped rest e) = writer_ e /\
  HandleNextEvent X (S fuel) client_mode async_server_mode setreturn e =
    HandleNextEvent X fuel client_mode async_server_mode setreturn (skipped rest e) /\
  (len rest < 8 ->
   HandleNextEvent X (S fuel) client_mode async_server_mode setreturn e =
     Some (Ok kNone (skipped rest e))).
Proof.
  intros Hs Hp Hr.
  split; [now apply HandleNextEvent_body_zero|].
  assert (Hstep : HandleNextEvent X (S fuel) client_mode async_server_mode setreturn e =
                  HandleNextEvent X fuel client_mode async_server_mode setreturn
                    (skipped rest e)).
  { unfold HandleNextEvent. cbn [HandleNextEvent_loop].
    assert (Hready : Ready (set_modes client_mode async_server_mode e) = true).
    { unfold Ready, bytes_available. project. rewrite Hp, Hr, len_app, len_le_bytes.
      pose proof (len_nonneg rest). apply Z.leb_le. lia. }
    rewrite Hready. project. rewrite Hs.
    change (kNone =? kNone) with true. cbn [State_eqb negb andb].
    rewrite (HandleNextEvent_body_zero X setreturn
               (set_modes client_mode async_server_mode e) rest) by assumption.
    reflexivity. }
  repeat split; try assumption; try reflexivity.
  intro Hshort. rewrite Hstep. unfold HandleNextEvent.
  destruct fuel; cbn [HandleNextEvent_loop]; unfold Ready, bytes_available, skipped; project;
    rewrite Hp; destruct (Z.leb_spec 8 (len rest)) as [|_]; try lia;
    rewrite Bool.andb_false_r; do 2 f_equal; endpoint_ext.
Qed.

Lemma zero_length_packet_skipped_witness :
  HandleNextEvent (Demo.externals true) 2 false false None
    (set_reader (le_bytes 8 0 ++ le_bytes 8 0)
       (EventHandler_new None "server" "key" Demo.zero_memory)) =
  HandleNextEvent (Demo.externals true) 1 false false None
    (skipped (le_bytes 8 0)
       (set_reader (le_bytes 8 0 ++ le_bytes 8 0)
          (EventHandler_new None "server" "key" Demo.zero_memory))).
Proof.
  refine (proj1 (proj2 (proj2 (proj2 (proj2 (proj2
            (zero_length_packet_skipped (Demo.externals true) 1 false false None
               (set_reader (le_bytes 8 0 ++ le_bytes 8 0)
                  (EventHandler_new None "server" "key" Demo.zero_memory))
               (le_bytes 8 0) _ _ _))))))); reflexivity.
Defined.

(** Two empty packets in a row, run: the handler is idle again, nothing was
    written, no event is reported. *)
Example two_empty_packets :
  exists e' : Endpoint,
    HandleNextEvent (Demo.externals true) 2 false false None
      (set_reader (le_bytes 8 0 ++ le_bytes 8 0)
         (EventHandler_new None "server" "key" Demo.zero_memory)) =
    Some (Ok kNone e') /\
    state_ e' = kRecvPacketNumBytes /\ reader_ e' = [] /\ writer_ e' = [] /\
    pending_request_bytes_ e' = 8.
Proof.
  eexists. split; [vm_compute; reflexivity|]. repeat split; reflexivity.
Qed.

(* ================================================================= *)
(** ** The init handshake *)

Lemma length_resize (n : nat) (s : string) : String.length (resize n s) = n.
Proof.
  revert s. induction n as [|n IH]; intro s; simpl; [reflexivity|].
  destruct s; simpl; now rewrite IH.
Qed.

Lemma wrap64_small (z : Z) : 0 <= z < 2 ^ 64 -> wrap64 z = z.
Proof. intro H. unfold wrap64. now apply Z.mod_small. Qed.

(** First step: the key length is read and that many bytes are requested. *)
Lemma HandleInitHeader_length (e : Endpoint) (n : Z) (rest : list byte) :
  init_header_step_ e = 0 ->
  pending_request_bytes_ e = 4 ->
  0 <= n < 2 ^ 31 ->
  reader_ e = le_bytes 4 n ++ rest ->
  HandleInitHeader e =
    Ok tt (set_pending n
             (set_init_header_step 1
                (set_remote_key (resize (Z.to_nat n) (remote_key_ e))
                   (set_reader rest e)))).
Proof.
  intros Hstep Hp Hn Hr. unfold HandleInitHeader. unfold bind at 1, get.
  rewrite Hstep. change (0 =? 0) with true. cbv iota.
  unfold bind at 1. rewrite (Read_i32_front n rest e) by (try assumption; lia).
  destruct (Z.ltb_spec n 0) as [|_]; [lia|].
  run_monad. f_equal. endpoint_ext.
  rewrite Hp. apply wrap64_small. lia.
Qed.

(** Second step: the key itself is read, and only then the state changes. *)
Lemma HandleInitHeader_key (e : Endpoint) (key rest : list byte) :
  init_header_step_ e = 1 ->
  state_ e = kInitHeader ->
  Z.of_nat (String.length (remote_key_ e)) = len key ->
  pending_request_bytes_ e = len key ->
  reader_ e = key ++ rest ->
  HandleInitHeader e =
    Ok tt (set_arena [] (set_object_arena []
             (set_pending 8 (enter kRecvPacketNumBytes
                (set_remote_key (string_of_list_byte key) (set_reader rest e)))))).
Proof.
  intros Hstep Hs Hl Hp Hr. unfold HandleInitHeader. unfold bind at 1, get.
  rewrite Hstep. change (1 =? 0) with false. cbv iota.
  change (1 =? 1) with true. unfold ICHECK. unfold bind at 1. unfold ret at 1.
  unfold bind at 1. unfold ReadArray. rewrite Hl.
  rewrite (Read_front key rest e) by (try assumption; lia).
  unfold bind at 1. unfold modify at 1.
  rewrite SwitchToState_recv.
  - reflexivity.
  - simpl. lia.
  - simpl. rewrite Hs. discriminate.
Qed.

(** C9: an endpoint constructed with the remote key ["%toinit"] starts in
    [kInitHeader] and needs four bytes; it reads the key length, asks for
    exactly that many bytes, reads them into the remote key and only then
    enters [kRecvPacketNumBytes]; with any other remote key it starts in
    [kRecvPacketNumBytes] and needs eight bytes. *)
Theorem init_handshake (X : Externals) (channel : option RPCChannel) (name : string)
    (memory : Z -> byte) (key rest : list byte) (other_key : string) :
  len key < 2 ^ 31 ->
  other_key <> "%toinit" ->
  let e0 := EventHandler_new channel name "%toinit" memory in
  let e := EventHandler_new channel name other_key memory in
  (state_ e0 = kInitHeader /\ pending_request_bytes_ e0 = 4 /\ BytesNeeded e0 = 4) /\
  (exists e1 e2 : Endpoint,
      HandleInitHeader (set_reader (le_bytes 4 (len key) ++ key ++ rest) e0) = Ok tt e1 /\
      state_ e1 = kInitHeader /\
      pending_request_bytes_ e1 = len key /\
      reader_ e1 = key ++ rest /\
      HandleInitHeader e1 = Ok tt e2 /\
      state_ e2 = kRecvPacketNumBytes /\
      remote_key_ e2 = string_of_list_byte key /\
      reader_ e2 = rest /\
      pending_request_bytes_ e2 = 8) /\
  (state_ e = kRecvPacketNumBytes /\ pending_request_bytes_ e = 8 /\
   BytesNeeded e = 8 /\ remote_key_ e = other_key).
Proof.
  intros Hk Ho e0 e. pose proof (len_nonneg key) as Hk0. split; [|split].
  - repeat split; reflexivity.
  - eexists. eexists. split.
    { apply HandleInitHeader_length; try reflexivity. lia. }
    split; [reflexivity|]. split; [reflexivity|]. split; [reflexivity|]. split.
    { apply HandleInitHeader_key; try reflexivity.
      simpl. rewrite length_resize. lia. }
    repeat split; reflexivity.
  - subst e. unfold EventHandler_new.
    destruct (String.eqb_spec other_key "%toinit") as [Heq|_]; [contradiction|].
    repeat split; reflexivity.
Qed.

Lemma init_handshake_witness :
  exists e1 e2 : Endpoint,
    HandleInitHeader
      (set_reader (le_bytes 4 (len [x61; x62; x63]) ++ [x61; x62; x63] ++ le_bytes 8 0)
         (EventHandler_new None "server" "%toinit" Demo.zero_memory)) = Ok tt e1 /\
    state_ e1 = kInitHeader /\
    pending_request_bytes_ e1 = len [x61; x62; x63] /\
    reader_ e1 = [x61; x62; x63] ++ le_bytes 8 0 /\
    HandleInitHeader e1 = Ok tt e2 /\
    state_ e2 = kRecvPacketNumBytes /\
    remote_key_ e2 = string_of_list_byte [x61; x62; x63] /\
    reader_ e2 = le_bytes 8 0 /\
    pending_request_bytes_ e2 = 8.
Proof.
  apply (init_handshake (Demo.externals true) None "server" Demo.zero_memory
           [x61; x62; x63] (le_bytes 8 0) "key").
  - vm_compute. reflexivity.
  - discriminate.
Defined.

(** The handshake through [HandleNextEvent]: with the length and the key
    ["abc"] in the reader, two turns of the loop end in the idle state. *)
Example init_handshake_run :
  exists e' : Endpoint,
    HandleNextEvent (Demo.externals true) 2 false false None
      (set_reader (le_bytes 4 3 ++ [x61; x62; x63])
         (EventHandler_new None "server" "%toinit" Demo.zero_memory)) =
    Some (Ok kNone e') /\
    state_ e' = kRecvPacketNumBytes /\ remote_key_ e' = "abc" /\
    pending_request_bytes_ e' = 8.
Proof.
  eexists. split; [vm_compute; reflexivity|]. repeat split; reflexivity.
Qed.

(* ================================================================= *)
(** ** Exceptions returned by the peer *)

Definition timeout_prefix : string := "RPCSessionTimeoutError: ".

Definition rpc_error_banner : string :=
  String.append "RPCError: Error caught from RPC call:" newline.

(** C2: on an [Exception] packet whose packed arguments start with the
    string [msg], the handler first goes back to [kRecvPacketNumBytes] and
    then raises: [msg] itself when it starts with the timeout prefix, [msg]
    behind the RPC-error banner otherwise. *)
Theorem exception_raised_locally (X : Externals)
    (setreturn : option (list Any -> M unit))
    (e e1 : Endpoint) (msg : string) (more : list Any) :
  RPCReference_RecvPackedSeq X e = Ok (AnyStr msg :: more) e1 ->
  pending_request_bytes_ e1 = 0 ->
  state_ e1 <> kWaitForAsyncCallback ->
  exists (raised : string) (e2 : Endpoint),
    HandleReturn X kException setreturn e = Throw raised e2 /\
    (StartsWith msg timeout_prefix = true -> raised = msg) /\
    (StartsWith msg timeout_prefix = false ->
     raised = String.append rpc_error_banner msg) /\
    state_ e2 = kRecvPacketNumBytes /\
    pending_request_bytes_ e2 = 8 /\
    history_ e2 = history_ e1 ++ [kRecvPacketNumBytes].
Proof.
  intros Hrecv Hp Hs.
  exists (if negb (StartsWith msg timeout_prefix)
          then String.append rpc_error_banner msg else msg).
  eexists. split.
  - unfold HandleReturn, RecvPackedSeq. unfold bind at 1. rewrite Hrecv.
    change (kException =? kException) with true. cbv iota.
    unfold bind at 1. unfold bind at 1.
    rewrite (SwitchToState_recv e1 Hp Hs).
    reflexivity.
  - split; [intros ->; reflexivity|]. split; [intros ->; reflexivity|].
    repeat split; reflexivity.
Qed.

(** An [Exception] body for the small instance: one string. *)
Definition exception_body (msg : string) : list byte :=
  le_bytes 4 1 ++ Demo.string_bytes msg.

(** A client handler that has read the opcode of an [Exception] packet and
    has its body in the reader. *)
Definition awaiting_exception_body (msg : string) : Endpoint :=
  set_pending (len (exception_body msg))
    (set_state kProcessPacket
       (set_reader (exception_body msg)
          (EventHandler_new None "client" "key" Demo.zero_memory))).

Lemma exception_raised_locally_witness :
  exists (raised : string) (e2 : Endpoint),
    HandleReturn (Demo.externals true) kException None
      (awaiting_exception_body "RPCSessionTimeoutError: no reply") =
    Throw raised e2 /\
    (StartsWith "RPCSessionTimeoutError: no reply" timeout_prefix = true ->
     raised = "RPCSessionTimeoutError: no reply") /\
    (StartsWith "RPCSessionTimeoutError: no reply" timeout_prefix = false ->
     raised = String.append rpc_error_banner "RPCSessionTimeoutError: no reply") /\
    state_ e2 = kRecvPacketNumBytes /\
    pending_request_bytes_ e2 = 8 /\
    history_ e2 =
      history_ (set_pending 0 (set_reader []
                  (awaiting_exception_body "RPCSessionTimeoutError: no reply")))
      ++ [kRecvPacketNumBytes].
Proof.
  apply (exception_raised_locally (Demo.externals true) None
           (awaiting_exception_body "RPCSessionTimeoutError: no reply")
           (set_pending 0 (set_reader []
              (awaiting_exception_body "RPCSessionTimeoutError: no reply")))
           "RPCSessionTimeoutError: no reply" []).
  - vm_compute. reflexivity.
  - reflexivity.
  - discriminate.
Defined.

(** Both kinds of message through [HandleNextEvent], from the packet's
    length prefix on. *)
Example timeout_passes_through :
  exists e' : Endpoint,
    HandleNextEvent (Demo.externals true) 3 true false None
      (set_reader
         (le_bytes 8 (4 + len (exception_body "RPCSessionTimeoutError: no reply"))
          ++ le_bytes 4 kException
          ++ exception_body "RPCSessionTimeoutError: no reply")
         (EventHandler_new None "client" "key" Demo.zero_memory)) =
    Some (Throw "RPCSessionTimeoutError: no reply" e') /\
    state_ e' = kRecvPacketNumBytes.
Proof.
  eexists. split; [vm_compute; reflexivity|]. reflexivity.
Qed.

Example other_errors_get_the_banner :
  exists e' : Endpoint,
    HandleNextEvent (Demo.externals true) 3 true false None
      (set_reader
         (le_bytes 8 (4 + len (exception_body "boom"))
          ++ le_bytes 4 kException ++ exception_body "boom")
         (EventHandler_new None "client" "key" Demo.zero_memory)) =
    Some (Throw (String.append rpc_error_banner "boom") e') /\
    state_ e' = kRecvPacketNumBytes.
Proof.
  eexists. split; [vm_compute; reflexivity|]. reflexivity.
Qed.

(* ================================================================= *)
(** ** InitServer with the wrong protocol version *)

(** The bytes of an [Exception] reply carrying [what]. *)
Definition exception_packet (X : Externals) (what : string) : list byte :=
  le_bytes 8 (wrap64 (4 + len (ExceptionSeqBytes X what)))
  ++ le_bytes 4 kException ++ ExceptionSeqBytes X what.

Lemma ReturnException_writes (X : Externals) (what : string) (e : Endpoint) :
  ReturnException X what e =
    Ok tt (set_writer (writer_ e ++ exception_packet X what) e).
Proof.
  unfold ReturnException, WritePacket, exception_packet. run_monad. f_equal.
  endpoint_ext. now rewrite <- !app_assoc.
Qed.

(** C6: an [InitServer] packet whose protocol-version string differs from
    [kRPCProtocolVer] is answered with an [Exception] packet; the serving
    session is left as it was (none, if none was installed), the channel is
    kept, and the handler is back in [kRecvPacketNumBytes]. *)
Theorem init_server_version_mismatch (X : Externals) (e e1 : Endpoint)
    (ver rest : list byte) (args : list Any) :
  reader_ e = le_bytes 8 (len ver) ++ ver ++ rest ->
  8 + len ver <= pending_request_bytes_ e ->
  len ver < 2 ^ 64 ->
  string_of_list_byte ver <> kRPCProtocolVer X ->
  RPCReference_RecvPackedSeq X
    (set_pending (pending_request_bytes_ e - 8 - len ver) (set_reader rest e)) =
    Ok args e1 ->
  pending_request_bytes_ e1 = 0 ->
  state_ e1 <> kWaitForAsyncCallback ->
  exists (what : string) (e2 : Endpoint),
    HandleInitServer X e = Ok tt e2 /\
    writer_ e2 = writer_ e1 ++ exception_packet X what /\
    serving_session_ e2 = serving_session_ e1 /\
    (serving_session_ e1 = None -> serving_session_ e2 = None) /\
    channel_ e2 = channel_ e1 /\
    state_ e2 = kRecvPacketNumBytes /\
    pending_request_bytes_ e2 = 8.
Proof.
  intros Hr Hp Hv Hne Hrecv Hp1 Hs1. pose proof (len_nonneg ver) as Hv0.
  assert (Hhead : HandleInitServer X e =
    ((try_catch
        (e0 <- get ;;
         ICHECK (match serving_session_ e0 with None => true | Some _ => false end)
                "Server has already been initialized" ;;;
         ICHECK (String.eqb (string_of_list_byte ver) (kRPCProtocolVer X))
                (String.append
                   "Client protocol version mismatch with the server, client protocol="
                   (string_of_list_byte ver)) ;;;
         throw "unreachable")
        (fun what => ReturnException X what)) ;;;
     SwitchToState kRecvPacketNumBytes) e1).
  { unfold HandleInitServer. unfold bind at 1.
    rewrite (Read_u64_front (len ver) (ver ++ rest) e) by (try assumption; lia).
    unfold bind at 1.
    rewrite (Read_front ver rest) by (simpl; try reflexivity; lia).
    unfold bind at 1. unfold RecvPackedSeq.
    change (RPCReference_RecvPackedSeq X _) with
      (RPCReference_RecvPackedSeq X
         (set_pending (pending_request_bytes_ e - 8 - len ver) (set_reader rest e))).
    rewrite Hrecv.
    unfold bind at 1. unfold bind at 3.
    unfold try_catch, bind, get, ICHECK.
    destruct (serving_session_ e1); [reflexivity|].
    destruct (String.eqb_spec (string_of_list_byte ver) (kRPCProtocolVer X));
      [contradiction|reflexivity]. }
  rewrite Hhead. clear Hhead.
  unfold bind at 1. unfold try_catch, bind at 1, get, ICHECK.
  destruct (serving_session_ e1) as [sess|] eqn:Hsess.
  - exists "Server has already been initialized". eexists.
    unfold throw, bind. rewrite ReturnException_writes.
    rewrite SwitchToState_recv by assumption.
    split; [reflexivity|]. simpl. rewrite Hsess.
    repeat split; try reflexivity. discriminate.
  - destruct (String.eqb_spec (string_of_list_byte ver) (kRPCProtocolVer X));
      [contradiction|].
    eexists. eexists.
    unfold throw, bind, ret. rewrite ReturnException_writes.
    rewrite SwitchToState_recv by assumption.
    split; [reflexivity|]. simpl. rewrite Hsess.
    repeat split; reflexivity.
Qed.

(** A server handler that has read the opcode of an [InitServer] packet
    sent by a client of protocol version ["0.7.0"], with no constructor
    arguments; the small instance is at version ["0.8.0"]. *)
Definition old_client_version : list byte := list_byte_of_string "0.7.0".

Definition awaiting_init_server_body : Endpoint :=
  set_pending (8 + len old_client_version + 4)
    (set_state kProcessPacket
       (set_reader (le_bytes 8 (len old_client_version) ++ old_client_version ++ le_bytes 4 0)
          (EventHandler_new (Some {| inbox := []; outbox := [] |})
             "server" "key" Demo.zero_memory))).

Lemma init_server_version_mismatch_witness :
  exists (what : string) (e2 : Endpoint),
    HandleInitServer (Demo.externals true) awaiting_init_server_body = Ok tt e2 /\
    writer_ e2 =
      writer_ (set_pending 0 (set_reader [] awaiting_init_server_body))
      ++ exception_packet (Demo.externals true) what /\
    serving_session_ e2 =
      serving_session_ (set_pending 0 (set_reader [] awaiting_init_server_body)) /\
    (serving_session_ (set_pending 0 (set_reader [] awaiting_init_server_body)) = None ->
     serving_session_ e2 = None) /\
    channel_ e2 = channel_ (set_pending 0 (set_reader [] awaiting_init_server_body)) /\
    state_ e2 = kRecvPacketNumBytes /\
    pending_request_bytes_ e2 = 8.
Proof.
  apply (init_server_version_mismatch (Demo.externals true)
           awaiting_init_server_body
           (set_pending 0 (set_reader [] awaiting_init_server_body))
           old_client_version (le_bytes 4 0) []).
  - reflexivity.
  - vm_compute. discriminate.
  - vm_compute. reflexivity.
  - vm_compute. discriminate.
  - vm_compute. reflexivity.
  - reflexivity.
  - discriminate.
Defined.

(** The same packet through [HandleNextEvent], from its length prefix on:
    an [Exception] packet is in the writer, no session is installed, the
    handler is idle.  With the right version the reply is a [Return] and
    the session is installed. *)
Definition init_server_packet (ver : string) : list byte :=
  le_bytes 8 (4 + 8 + Z.of_nat (String.length ver) + 4)
  ++ le_bytes 4 kInitServer
  ++ le_bytes 8 (Z.of_nat (String.length ver)) ++ list_byte_of_string ver
  ++ le_bytes 4 0.

Example init_server_old_client :
  exists e' : Endpoint,
    HandleNextEvent (Demo.externals true) 3 false false None
      (set_reader (init_server_packet "0.7.0")
         (EventHandler_new None "server" "key" Demo.zero_memory)) =
    Some (Ok kNone e') /\
    state_ e' = kRecvPacketNumBytes /\
    serving_session_ e' = None /\
    take 4 (drop 8 (writer_ e')) = le_bytes 4 kException.
Proof.
  eexists. split; [vm_compute; reflexivity|]. repeat split; reflexivity.
Qed.

Example init_server_same_version :
  exists e' : Endpoint,
    HandleNextEvent (Demo.externals true) 3 false false None
      (set_reader (init_server_packet "0.8.0")
         (EventHandler_new None "server" "key" Demo.zero_memory)) =
    Some (Ok kNone e') /\
    state_ e' = kRecvPacketNumBytes /\
    serving_session_ e' = Some Demo.local_session /\
    take 4 (drop 8 (writer_ e')) = le_bytes 4 kReturn.
Proof.
  eexists. split; [vm_compute; reflexivity|]. repeat split; reflexivity.
Qed.

(* ================================================================= *)
(** ** CopyFromRemote on the serving side *)

Lemma GetServingSession_ok (e : Endpoint) (sess : RPCSession) :
  serving_session_ e = Some sess ->
  negb (IsAsync sess) || async_server_mode_ e = true ->
  GetServingSession e = Ok sess e.
Proof.
  intros Hs Ha. unfold GetServingSession, bind, get, ICHECK, ret.
  now rewrite Hs, Ha.
Qed.






Section CopyFromRemote.

Variable X : Externals.


Definition elem_bytes_of (arr : DLTensor) : Z :=
  (bits (dtype arr) * lanes (dtype arr) + 7) / 8.





End CopyFromRemote.



(** A tensor of four [float32] on the CPU, at address 64, read from byte 8
    on; its descriptor as the small instance lays it out. *)
Definition cpu_tensor : DLTensor :=
  {| data := 64;
     device := {| device_type := kDLCPU; device_id := 0 |};
     ndim := 1;
     dtype := {| dtype_code := 2; bits := 32; lanes := 1 |};
     shape := [4];
     byte_offset := 8 |}.

Definition cpu_tensor_bytes : list byte :=
  le_bytes 4 kDLCPU ++ le_bytes 4 0 ++ le_bytes 8 64 ++ le_bytes 4 1 ++ le_bytes 8 4
  ++ [x02; x20] ++ le_bytes 2 1 ++ le_bytes 8 8.

(** A server with a local session that has read the opcode of a
    [CopyFromRemote] packet asking for sixteen bytes of [cpu_tensor]. *)
Definition awaiting_copy_from_body : Endpoint :=
  set_serving_session (Some Demo.local_session)
    (set_pending (len cpu_tensor_bytes + 8)
       (set_state kProcessPacket
          (set_reader (cpu_tensor_bytes ++ le_bytes 8 16)
             (EventHandler_new (Some {| inbox := []; outbox := [] |})
                "server" "key" Demo.counting_memory)))).


(** On the little-endian instance the reply is there at once: the sixteen
    bytes found at address 72. *)
Example copy_from_remote_direct_run :
  exists e3 : Endpoint,
    HandleCopyFromRemote (Demo.externals true) awaiting_copy_from_body = Ok tt e3 /\
    writer_ e3 =
      le_bytes 8 20 ++ le_bytes 4 kCopyAck
      ++ map byte_of_Z [73; 74; 75; 76; 77; 78; 79; 80; 81; 82; 83; 84; 85; 86; 87; 88] /\
    state_ e3 = kRecvPacketNumBytes.
Proof.
  eexists. split; [vm_compute; reflexivity|]. split; reflexivity.
Qed.


(** The same server asked for [2^32 + 16] bytes: the count reaches
    [ArenaAlloc] as the [int] 16, so sixteen bytes are staged while the
    session is asked to copy all [2^32 + 16]. *)
Definition awaiting_large_copy_from_body : Endpoint :=
  set_serving_session (Some Demo.local_session)
    (set_pending (len cpu_tensor_bytes + 8)
       (set_state kProcessPacket
          (set_reader (cpu_tensor_bytes ++ le_bytes 8 4294967312)
             (EventHandler_new (Some {| inbox := []; outbox := [] |})
                "server" "key" Demo.counting_memory)))).

Example copy_from_remote_narrowed_staging :
  to_int32 4294967312 = 16 /\
  exists e3 : Endpoint,
    HandleCopyFromRemote (Demo.externals false) awaiting_large_copy_from_body = Ok tt e3 /\
    state_ e3 = kWaitForAsyncCallback /\
    arena_ e3 = [(4096, 16)] /\
    session_requests_ e3 = [AsyncCopyFromRemote cpu_tensor 4096 4294967312 4] /\
    writer_ e3 = [].
Proof.
  split; [reflexivity|].
  eexists. split; [vm_compute; reflexivity|]. repeat split; reflexivity.
Qed.

(** The suspended handler of the byte-swapping host, and its completion:
    the session has left the bytes [1, 2, ..., 16] in the staging buffer;
    the four-byte elements go out with their bytes reversed. *)
Definition suspended_on_swapping_host : Endpoint :=
  match HandleCopyFromRemote (Demo.externals false) awaiting_copy_from_body with
  | Ok _ e => e
  | Throw _ e => e
  end.

Example copy_from_remote_completion_swaps :
  exists e5 : Endpoint,
    on_copy_from_complete (Demo.externals false) 4 16 4096 kReturn []
      suspended_on_swapping_host = Ok tt e5 /\
    option_map outbox (channel_ e5) =
      Some (le_bytes 8 20 ++ le_bytes 4 kCopyAck
            ++ map byte_of_Z [4; 3; 2; 1; 8; 7; 6; 5; 12; 11; 10; 9; 16; 15; 14; 13]) /\
    state_ e5 = kRecvPacketNumBytes /\
    history_ e5 = [kWaitForAsyncCallback; kRecvPacketNumBytes].
Proof.
  eexists. split; [vm_compute; reflexivity|]. repeat split; reflexivity.
Qed.

(* ================================================================= *)
(** ** The drive loop when the channel closes *)

Definition channel_closed_message : string :=
  "Channel closes before we get needed bytes".

(** The endpoint once the writer has been pushed to the channel. *)
Definition after_flush (e : Endpoint) : Endpoint :=
  match writer_ e, channel_ e with
  | _ :: _, Some ch =>
      set_writer []
        (set_channel (Some {| inbox := inbox ch; outbox := outbox ch ++ writer_ e |}) e)
  | _, _ => e
  end.

Lemma flush_writer_channel (e : Endpoint) (ch : RPCChannel) :
  channel_ e = Some ch ->
  flush_writer_ e = Ok tt (after_flush e) /\
  state_ (after_flush e) = state_ e /\
  BytesNeeded (after_flush e) = BytesNeeded e /\
  exists ch' : RPCChannel,
    channel_ (after_flush e) = Some ch' /\ inbox ch' = inbox ch.
Proof.
  intro Hc. unfold flush_writer_, after_flush, BytesNeeded. rewrite Hc.
  destruct (writer_ e) as [|b w].
  - repeat split; try reflexivity. exists ch. now split.
  - repeat split; try reflexivity. eexists. split; reflexivity.
Qed.

Lemma channel_Recv_inbox (n : Z) (ch ch' : RPCChannel) :
  inbox ch' = inbox ch ->
  fst (channel_Recv n ch') = fst (channel_Recv n ch).
Proof.
  intro H. unfold channel_Recv. rewrite H. now destruct (inbox ch).
Qed.

(** The endpoint after a receive that brought nothing. *)
Definition after_empty_recv (n : Z) (e : Endpoint) : Endpoint :=
  match channel_ e with
  | Some ch =>
      set_reader (reader_ e ++ []) (set_channel (Some (snd (channel_Recv n ch))) e)
  | None => e
  end.

Lemma receive_needed_closed (n : Z) (e : Endpoint) (ch : RPCChannel) :
  channel_ e = Some ch ->
  fst (channel_Recv n ch) = [] ->
  receive_needed n e =
    if CanCleanShutdown e
    then Ok (Some kShutdown) (after_empty_recv n e)
    else Throw channel_closed_message (after_empty_recv n e).
Proof.
  intros Hc Hrecv. unfold receive_needed, after_empty_recv.
  unfold bind at 1, get. rewrite Hc.
  destruct (channel_Recv n ch) as [got ch'] eqn:E. simpl in Hrecv. subst got.
  run_monad. change (len [] =? 0) with true. cbv iota.
  unfold CanCleanShutdown. simpl.
  destruct (State_eqb (state_ e) kRecvPacketNumBytes); reflexivity.
Qed.

(** C8: in the drive loop, when the handler still needs bytes and the
    channel delivers none, the loop returns [kShutdown] if the handler is in
    [kRecvPacketNumBytes] and raises the fatal transport error in every
    other state. *)
Theorem channel_closed_in_drive_loop (X : Externals) (fuel : nat) (client_mode : bool)
    (setreturn : option (list Any -> M unit)) (code : Z) (e : Endpoint)
    (ch : RPCChannel) :
  code <> kReturn -> code <> kShutdown -> code <> kCopyAck ->
  channel_ e = Some ch ->
  BytesNeeded e <> 0 ->
  fst (channel_Recv (BytesNeeded e) ch) = [] ->
  exists e' : Endpoint,
    state_ e' = state_ e /\
    (state_ e = kRecvPacketNumBytes ->
     HandleUntilReturnEvent_loop X (S fuel) client_mode setreturn code e =
       Some (Ok kShutdown e')) /\
    (state_ e <> kRecvPacketNumBytes ->
     HandleUntilReturnEvent_loop X (S fuel) client_mode setreturn code e =
       Some (Throw channel_closed_message e')).
Proof.
  intros Hc1 Hc2 Hc3 Hch Hneed Hrecv.
  destruct (flush_writer_channel e ch Hch) as (Hflush & Hstate & Hbytes & ch' & Hch' & Hin).
  exists (after_empty_recv (BytesNeeded e) (after_flush e)).
  assert (Hrun : HandleUntilReturnEvent_loop X (S fuel) client_mode setreturn code e =
                 Some (if CanCleanShutdown e
                       then Ok kShutdown (after_empty_recv (BytesNeeded e) (after_flush e))
                       else Throw channel_closed_message
                              (after_empty_recv (BytesNeeded e) (after_flush e)))).
  { cbn [HandleUntilReturnEvent_loop].
    destruct (Z.eqb_spec code kReturn) as [|_]; [contradiction|].
    destruct (Z.eqb_spec code kShutdown) as [|_]; [contradiction|].
    destruct (Z.eqb_spec code kCopyAck) as [|_]; [contradiction|].
    cbn [negb andb]. rewrite Hflush, Hbytes.
    destruct (Z.eqb_spec (BytesNeeded e) 0) as [|_]; [contradiction|].
    cbn [negb].
    rewrite (receive_needed_closed (BytesNeeded e) (after_flush e) ch' Hch')
      by (rewrite (channel_Recv_inbox _ ch ch' Hin); exact Hrecv).
    unfold CanCleanShutdown. rewrite Hstate.
    destruct (State_eqb (state_ e) kRecvPacketNumBytes); reflexivity. }
  split; [|split].
  - unfold after_empty_recv. rewrite Hch'. simpl. exact Hstate.
  - intro Hs. rewrite Hrun. unfold CanCleanShutdown. now rewrite Hs.
  - intro Hs. rewrite Hrun. unfold CanCleanShutdown.
    destruct (state_ e); try reflexivity. contradiction.
Qed.

Lemma channel_closed_in_drive_loop_witness :
  exists e' : Endpoint,
    state_ e' =
      state_ (EventHandler_new (Some {| inbox := []; outbox := [] |})
                "server" "key" Demo.zero_memory) /\
    (state_ (EventHandler_new (Some {| inbox := []; outbox := [] |})
               "server" "key" Demo.zero_memory) = kRecvPacketNumBytes ->
     HandleUntilReturnEvent_loop (Demo.externals true) 1 false None kCallFunc
       (EventHandler_new (Some {| inbox := []; outbox := [] |})
          "server" "key" Demo.zero_memory) =
     Some (Ok kShutdown e')) /\
    (state_ (EventHandler_new (Some {| inbox := []; outbox := [] |})
               "server" "key" Demo.zero_memory) <> kRecvPacketNumBytes ->
     HandleUntilReturnEvent_loop (Demo.externals true) 1 false None kCallFunc
       (EventHandler_new (Some {| inbox := []; outbox := [] |})
          "server" "key" Demo.zero_memory) =
     Some (Throw channel_closed_message e')).
Proof.
  apply (channel_closed_in_drive_loop (Demo.externals true) 0 false None kCallFunc
           (EventHandler_new (Some {| inbox := []; outbox := [] |})
              "server" "key" Demo.zero_memory)
           {| inbox := []; outbox := [] |}).
  - discriminate.
  - discriminate.
  - discriminate.
  - reflexivity.
  - discriminate.
  - reflexivity.
Defined.

(** The two outcomes, run through [HandleUntilReturnEvent]: the peer closes
    while the server is idle, and the peer closes after half a length
    prefix of a packet body has been announced. *)
Example peer_closes_when_idle :
  exists e' : Endpoint,
    HandleUntilReturnEvent (Demo.externals true) 2 false None
      (EventHandler_new (Some {| inbox := []; outbox := [] |})
         "server" "key" Demo.zero_memory) =
    Some (Ok kShutdown e').
Proof. eexists. vm_compute. reflexivity. Qed.

Example peer_closes_inside_a_packet :
  exists e' : Endpoint,
    HandleUntilReturnEvent (Demo.externals true) 3 false None
      (EventHandler_new (Some {| inbox := [le_bytes 8 12]; outbox := [] |})
         "server" "key" Demo.zero_memory) =
    Some (Throw channel_closed_message e') /\
    state_ e' = kProcessPacket.
Proof. eexists. split; [vm_compute; reflexivity|reflexivity]. Qed.

(* ================================================================= *)
(** ** Chunked copies of the client session *)

Module ChunkedCopy.
Import RPCClientSession.

(** The endpoint call for the block with index [k], of [size] bytes. *)
Definition block_call (block_size local : Z) (t : DLTensor) (k size : Z) : EndpointCopy :=
  {| local_bytes := wrap64 (local + k * block_size);
     remote := set_byte_offset (wrap64 (k * block_size)) t;
     copy_nbytes := size |}.

(** The calls a copy of [nbytes] bytes is expected to issue. *)
Definition expected_calls (block_size local : Z) (t : DLTensor) (nbytes : Z)
    : list EndpointCopy :=
  map (fun k => block_call block_size local t (Z.of_nat k) block_size)
      (seq 0 (Z.to_nat (nbytes / block_size)))
  ++ (if nbytes mod block_size =? 0 then []
      else [block_call block_size local t (nbytes / block_size) (nbytes mod block_size)]).

Section AnyEndpoint.

(** Which calls of the endpoint return: any oracle, in particular one that
    refuses what lies outside the tensor as the endpoint's bounds check
    does. *)
Variable endpoint_copy : EndpointCopy -> bool.

Variables (block_size local : Z) (t0 : DLTensor).

(** The caller's tensor is [t0] up to its [byte_offset]. *)
Definition tracks (p : CopyProgress) : Prop :=
  forall v, set_byte_offset v (tensor p) = set_byte_offset v t0.

(** The [n] full blocks from [block_count] on. *)
Definition full_blocks (block_count : Z) (n : nat) : list EndpointCopy :=
  map (fun k => block_call block_size local t0 (block_count + Z.of_nat k) block_size)
      (seq 0 n).

Lemma full_blocks_S (block_count : Z) (n : nat) :
  full_blocks block_count (S n) =
    block_call block_size local t0 block_count block_size
    :: full_blocks (block_count + 1) n.
Proof.
  unfold full_blocks. cbn [seq map]. rewrite Z.add_0_r. f_equal.
  rewrite <- seq_shift, map_map. apply map_ext. intro k. f_equal. lia.
Qed.

(** The loop over the full blocks, for any endpoint: when it completes it
    has issued the [n] full blocks, all of which returned; when it raises,
    one of them did not return. *)
Lemma copy_blocks_spec (n : nat) :
  forall (block_count : Z) (p : CopyProgress),
    tracks p ->
    match copy_blocks endpoint_copy n block_count block_size local p with
    | (CopyDone p', count) =>
        count = block_count + Z.of_nat n /\
        issued p' = issued p ++ full_blocks block_count n /\
        tracks p' /\
        forallb endpoint_copy (full_blocks block_count n) = true
    | (CopyThrow _ _, _) =>
        forallb endpoint_copy (full_blocks block_count n) = false
    end.
Proof.
  induction n as [|n IH]; intros block_count p Hp.
  - cbn [copy_blocks]. unfold full_blocks. cbn [seq map forallb].
    rewrite Z.add_0_r, app_nil_r. auto.
  - cbn [copy_blocks]. unfold call_endpoint.
    rewrite (Hp (wrap64 (block_count * block_size))).
    rewrite full_blocks_S. cbn [forallb].
    fold (block_call block_size local t0 block_count block_size).
    destruct (endpoint_copy (block_call block_size local t0 block_count block_size))
      eqn:Hc; [|reflexivity].
    specialize (IH (block_count + 1)
                  {| tensor := remote (block_call block_size local t0 block_count
                                         block_size);
                     issued := issued p
                               ++ [block_call block_size local t0 block_count
                                     block_size] |}).
    destruct (copy_blocks endpoint_copy n (block_count + 1) block_size local _)
      as [[p'|msg p'] count].
    + destruct IH as (Hcount & Hissued & Htracks & Hall); [intro v; reflexivity|].
      split; [lia|]. split; [|split; [exact Htracks|exact Hall]].
      rewrite Hissued. cbn [issued]. now rewrite <- app_assoc.
    + apply IH. intro v. reflexivity.
Qed.

End AnyEndpoint.

Lemma ceil_div (n b : Z) :
  0 <= n -> 0 < b ->
  (n + b - 1) / b = n / b + (if n mod b =? 0 then 0 else 1).
Proof.
  intros Hn Hb.
  pose proof (Z.div_mod n b ltac:(lia)) as Hdm.
  pose proof (Z.mod_pos_bound n b Hb) as Hr.
  destruct (Z.eqb_spec (n mod b) 0) as [Hz|Hnz].
  - symmetry. apply (Z.div_unique _ _ _ (b - 1)); lia.
  - symmetry. apply (Z.div_unique _ _ _ (n mod b - 1)); lia.
Qed.

Lemma overhead_range (t : DLTensor) (code nbytes : Z) :
  0 <= RemoteCopyCalculatePacketOverheadSize t code nbytes < 2 ^ 64.
Proof.
  unfold RemoteCopyCalculatePacketOverheadSize, wrap64.
  apply Z.mod_pos_bound. lia.
Qed.

(** The whole copy, for any endpoint.  A copy that completes had room for a
    block, issued exactly the expected calls, and all of them returned; a
    copy that raises either had no room for a block or met an expected call
    that did not return. *)
Lemma chunked_copy_spec (endpoint_copy : EndpointCopy -> bool)
    (code rpc_max_size local : Z) (t : DLTensor) (nbytes : Z) :
  0 <= nbytes ->
  rpc_max_size < 2 ^ 64 ->
  let overhead := RemoteCopyCalculatePacketOverheadSize t code nbytes in
  let calls := expected_calls (rpc_max_size - overhead) local t nbytes in
  match chunked_copy endpoint_copy code rpc_max_size local t nbytes with
  | CopyDone p =>
      overhead < rpc_max_size /\ issued p = calls /\ forallb endpoint_copy calls = true
  | CopyThrow _ _ =>
      rpc_max_size <= overhead \/ forallb endpoint_copy calls = false
  end.
Proof.
  intros Hn Hmax. cbn zeta.
  pose proof (overhead_range t code nbytes) as Hrange.
  unfold chunked_copy.
  set (overhead := RemoteCopyCalculatePacketOverheadSize t code nbytes) in *.
  destruct (Z.gtb_spec rpc_max_size overhead) as [Hgt|Hle]; cbn [negb];
    [|left; exact Hle].
  rewrite (wrap64_small (rpc_max_size - overhead)) by lia.
  set (block_size := rpc_max_size - overhead).
  assert (Hq : 0 <= nbytes / block_size) by (apply Z.div_pos; lia).
  pose proof (copy_blocks_spec endpoint_copy block_size local t
                (Z.to_nat (nbytes / block_size)) 0 {| tensor := t; issued := [] |}) as H.
  unfold expected_calls.
  change (map (fun k => block_call block_size local t (Z.of_nat k) block_size)
              (seq 0 (Z.to_nat (nbytes / block_size))))
    with (full_blocks block_size local t 0 (Z.to_nat (nbytes / block_size))).
  destruct (copy_blocks endpoint_copy (Z.to_nat (nbytes / block_size)) 0 block_size local
              {| tensor := t; issued := [] |}) as [[p'|msg p'] count].
  - destruct H as (Hcount & Hissued & Htracks & Hall); [intro v; reflexivity|].
    rewrite Z2Nat.id in Hcount by assumption. cbn [Z.add issued app] in Hcount, Hissued.
    subst count. rewrite forallb_app, Hall. cbn [andb].
    destruct (Z.eqb_spec (nbytes mod block_size) 0) as [Hz|Hnz]; cbn [negb].
    + rewrite app_nil_r. split; [lia|]. split; [exact Hissued|reflexivity].
    + unfold call_endpoint.
      rewrite (Htracks (wrap64 (nbytes / block_size * block_size))).
      fold (block_call block_size local t (nbytes / block_size) (nbytes mod block_size)).
      cbn [forallb]. rewrite Bool.andb_true_r.
      destruct (endpoint_copy
                  (block_call block_size local t (nbytes / block_size)
                     (nbytes mod block_size))).
      * split; [lia|]. cbn [issued]. rewrite Hissued. split; reflexivity.
      * right. reflexivity.
  - right. rewrite forallb_app, H; [reflexivity|]. intro v. reflexivity.
Qed.

Lemma length_expected_calls (block_size local : Z) (t : DLTensor) (nbytes : Z) :
  0 <= nbytes -> 0 < block_size ->
  len (expected_calls block_size local t nbytes) =
    nbytes / block_size + (if nbytes mod block_size =? 0 then 0 else 1).
Proof.
  intros Hn Hb. unfold expected_calls. rewrite len_app. unfold len at 1.
  rewrite length_map, length_seq, Z2Nat.id by (apply Z.div_pos; lia).
  now destruct (nbytes mod block_size =? 0).
Qed.

Lemma nth_expected_calls (block_size local : Z) (t : DLTensor) (nbytes : Z)
    (k : nat) (c : EndpointCopy) :
  0 <= nbytes < 2 ^ 64 -> 0 < block_size ->
  nth_error (expected_calls block_size local t nbytes) k = Some c ->
  c = block_call block_size local t (Z.of_nat k)
        (if Z.of_nat k <? nbytes / block_size then block_size
         else nbytes mod block_size) /\
  byte_offset (remote c) = Z.of_nat k * block_size.
Proof.
  intros Hn Hb Hnth.
  assert (Hq : 0 <= nbytes / block_size) by (apply Z.div_pos; lia).
  pose proof (Z.mul_div_le nbytes block_size Hb) as Hle.
  assert (Hc : c = block_call block_size local t (Z.of_nat k)
                 (if Z.of_nat k <? nbytes / block_size then block_size
                  else nbytes mod block_size) /\
               Z.of_nat k <= nbytes / block_size).
  { unfold expected_calls in Hnth.
    destruct (Nat.lt_ge_cases k (Z.to_nat (nbytes / block_size))) as [Hlt|Hge].
    - rewrite nth_error_app1 in Hnth by now rewrite length_map, length_seq.
      rewrite nth_error_map, nth_error_seq in Hnth.
      destruct (Nat.ltb_spec k (Z.to_nat (nbytes / block_size))); [|lia].
      simpl in Hnth. injection Hnth as <-.
      destruct (Z.ltb_spec (Z.of_nat k) (nbytes / block_size)); [|lia].
      split; [reflexivity|lia].
    - rewrite nth_error_app2 in Hnth by now rewrite length_map, length_seq.
      rewrite length_map, length_seq in Hnth.
      destruct (nbytes mod block_size =? 0); [now destruct (k - _)%nat|].
      destruct (k - Z.to_nat (nbytes / block_size))%nat as [|j] eqn:Hk;
        [|now destruct j].
      simpl in Hnth. injection Hnth as <-.
      assert (Hkq : Z.of_nat k = nbytes / block_size) by lia.
      rewrite Hkq, Z.ltb_irrefl. split; [reflexivity|lia]. }
  destruct Hc as [-> Hk]. split; [reflexivity|].
  simpl. apply wrap64_small. nia.
Qed.

End ChunkedCopy.

(** What the claim says of the calls a copy issued: there are
    [ceil (nbytes / block_size)] of them, that is [nbytes / block_size] full
    blocks and a remainder if there is one, and call number [k] (from 0) is
    made at [byte_offset = k * block_size], from the local buffer moved on by
    as much, for a full block or for the remainder. *)
Definition transfers (block_size local nbytes : Z) (calls : list EndpointCopy) : Prop :=
  0 < block_size /\
  len calls = (nbytes + block_size - 1) / block_size /\
  len calls = nbytes / block_size + (if nbytes mod block_size =? 0 then 0 else 1) /\
  forall (k : nat) (c : EndpointCopy),
    nth_error calls k = Some c ->
    byte_offset (remote c) = Z.of_nat k * block_size /\
    local_bytes c = wrap64 (local + Z.of_nat k * block_size) /\
    copy_nbytes c = (if Z.of_nat k <? nbytes / block_size
                     then block_size else nbytes mod block_size).

Lemma expected_calls_transfers (block_size local : Z) (t : DLTensor) (nbytes : Z) :
  0 <= nbytes < 2 ^ 64 -> 0 < block_size ->
  transfers block_size local nbytes (ChunkedCopy.expected_calls block_size local t nbytes).
Proof.
  intros Hn Hb. split; [exact Hb|]. split; [|split].
  - rewrite ChunkedCopy.length_expected_calls by lia.
    symmetry. apply ChunkedCopy.ceil_div; lia.
  - apply ChunkedCopy.length_expected_calls; lia.
  - intros k c Hnth.
    destruct (ChunkedCopy.nth_expected_calls block_size local t nbytes k c Hn Hb Hnth)
      as [Hc Hoff].
    split; [exact Hoff|]. rewrite Hc. split; reflexivity.
Qed.

(** C5: a copy of [nbytes] bytes through the client session, to or from
    the remote tensor, whose endpoint calls return.  Whatever the endpoint
    lets through, a copy that completes has issued
    [ceil (nbytes / block_size)] single-packet transfers, where [block_size]
    is the maximum packet size less the per-packet overhead of the tensor
    descriptor: [nbytes / block_size] full blocks, then the remainder if
    there is one, transfer number [k] (from 0) at
    [byte_offset = k * block_size].  Both directions issue the same calls.
    And the copy does complete when there is room for a block and the
    endpoint lets these calls through: it is enough that those calls
    return, not every conceivable one. *)
Theorem chunked_copy_transfers (copy_to copy_from : EndpointCopy -> bool)
    (rpc_max_size local : Z) (t : DLTensor) (nbytes : Z) :
  0 <= nbytes < 2 ^ 64 ->
  rpc_max_size < 2 ^ 64 ->
  let overhead := RemoteCopyCalculatePacketOverheadSize t kCopyToRemote nbytes in
  let block_size := rpc_max_size - overhead in
  (0 <= ndim t < 2 ^ 32 -> overhead = 4 + (8 + 8 + 4 + 8 * ndim t + 4 + 8) + 8) /\
  (forall p : CopyProgress,
     RPCClientSession.CopyToRemote copy_to rpc_max_size local t nbytes = CopyDone p ->
     transfers block_size local nbytes (issued p)) /\
  (forall q : CopyProgress,
     RPCClientSession.CopyFromRemote copy_from rpc_max_size t local nbytes = CopyDone q ->
     transfers block_size local nbytes (issued q)) /\
  (forall p q : CopyProgress,
     RPCClientSession.CopyToRemote copy_to rpc_max_size local t nbytes = CopyDone p ->
     RPCClientSession.CopyFromRemote copy_from rpc_max_size t local nbytes = CopyDone q ->
     issued q = issued p) /\
  (overhead < rpc_max_size ->
   forallb copy_to (ChunkedCopy.expected_calls block_size local t nbytes) = true ->
   exists p : CopyProgress,
     RPCClientSession.CopyToRemote copy_to rpc_max_size local t nbytes = CopyDone p) /\
  (overhead < rpc_max_size ->
   forallb copy_from (ChunkedCopy.expected_calls block_size local t nbytes) = true ->
   exists q : CopyProgress,
     RPCClientSession.CopyFromRemote copy_from rpc_max_size t local nbytes = CopyDone q).
Proof.
  intros Hn Hmax overhead block_size.
  pose proof (ChunkedCopy.chunked_copy_spec copy_to kCopyToRemote rpc_max_size local t
                nbytes ltac:(lia) Hmax) as Hto.
  pose proof (ChunkedCopy.chunked_copy_spec copy_from kCopyFromRemote rpc_max_size local t
                nbytes ltac:(lia) Hmax) as Hfrom.
  cbn zeta in Hto, Hfrom.
  change (RemoteCopyCalculatePacketOverheadSize t kCopyFromRemote nbytes)
    with overhead in Hfrom.
  fold overhead in Hto. fold block_size in Hto, Hfrom.
  unfold RPCClientSession.CopyToRemote, RPCClientSession.CopyFromRemote.
  split; [|split; [|split; [|split; [|split]]]].
  - intro Hnd. subst overhead. unfold RemoteCopyCalculatePacketOverheadSize.
    rewrite (wrap64_small (ndim t)) by lia.
    rewrite (wrap64_small (ndim t * 8)) by lia.
    rewrite wrap64_small by lia. lia.
  - intros p Hp. rewrite Hp in Hto. destruct Hto as (Hroom & Hissued & _).
    rewrite Hissued. apply expected_calls_transfers; [exact Hn|lia].
  - intros q Hq. rewrite Hq in Hfrom. destruct Hfrom as (Hroom & Hissued & _).
    rewrite Hissued. apply expected_calls_transfers; [exact Hn|lia].
  - intros p q Hp Hq. rewrite Hp in Hto. rewrite Hq in Hfrom.
    destruct Hto as (_ & Hip & _). destruct Hfrom as (_ & Hiq & _). congruence.
  - intros Hroom Hall.
    destruct (RPCClientSession.chunked_copy copy_to kCopyToRemote rpc_max_size local t
                nbytes) as [p|msg p]; [now exists p|].
    destruct Hto as [Hle|Hfail]; [lia|congruence].
  - intros Hroom Hall.
    destruct (RPCClientSession.chunked_copy copy_from kCopyFromRemote rpc_max_size local t
                nbytes) as [q|msg q]; [now exists q|].
    destruct Hfrom as [Hle|Hfail]; [lia|congruence].
Qed.

(** A tensor of sixty-four [float32] on the CPU, 256 bytes in all, and an
    endpoint that lets a call through when it stays within these bytes, as
    the bounds check of [RPCEndpoint::CopyToRemote] and
    [RPCEndpoint::CopyFromRemote] does. *)
Definition wide_tensor : DLTensor :=
  {| data := 64;
     device := {| device_type := kDLCPU; device_id := 0 |};
     ndim := 1;
     dtype := {| dtype_code := 2; bits := 32; lanes := 1 |};
     shape := [64];
     byte_offset := 0 |}.

Definition within_wide_tensor (c : EndpointCopy) : bool :=
  wrap64 (byte_offset (remote c) + copy_nbytes c) <=? 256.

Lemma chunked_copy_transfers_witness :
  exists p q : CopyProgress,
    RPCClientSession.CopyToRemote within_wide_tensor 152 1000 wide_tensor 250 =
      CopyDone p /\
    RPCClientSession.CopyFromRemote within_wide_tensor 152 wide_tensor 1000 250 =
      CopyDone q /\
    issued q = issued p /\
    transfers (152 - RemoteCopyCalculatePacketOverheadSize wide_tensor kCopyToRemote 250)
      1000 250 (issued p).
Proof.
  destruct (chunked_copy_transfers within_wide_tensor within_wide_tensor
              152 1000 wide_tensor 250 ltac:(lia) ltac:(lia))
    as (_ & Hto & _ & Hsame & Hdone_to & Hdone_from).
  destruct Hdone_to as [p Hp]; [vm_compute; reflexivity|vm_compute; reflexivity|].
  destruct Hdone_from as [q Hq]; [vm_compute; reflexivity|vm_compute; reflexivity|].
  exists p, q. split; [exact Hp|]. split; [exact Hq|].
  split; [exact (Hsame p q Hp Hq)|exact (Hto p Hp)].
Defined.

(** The same copy, run: an overhead of 52 bytes leaves blocks of 100, and
    250 bytes go out as 100 + 100 + 50 at offsets 0, 100 and 200.  Six bytes
    more would pass the end of the tensor: the endpoint refuses the
    remainder, the third call, and the copy raises. *)
Example chunked_copy_run :
  RemoteCopyCalculatePacketOverheadSize wide_tensor kCopyToRemote 250 = 52 /\
  (exists p : CopyProgress,
     RPCClientSession.CopyToRemote within_wide_tensor 152 1000 wide_tensor 250 =
       CopyDone p /\
     map (fun c => (byte_offset (remote c), local_bytes c, copy_nbytes c)) (issued p) =
       [(0, 1000, 100); (100, 1100, 100); (200, 1200, 50)] /\
     byte_offset (tensor p) = 200) /\
  (exists (msg : string) (p : CopyProgress),
     RPCClientSession.CopyToRemote within_wide_tensor 152 1000 wide_tensor 257 =
       CopyThrow msg p /\
     map (fun c => (byte_offset (remote c), copy_nbytes c)) (issued p) =
       [(0, 100); (100, 100); (200, 57)]).
Proof.
  split; [reflexivity|]. split.
  - eexists. split; [vm_compute; reflexivity|]. split; reflexivity.
  - eexists. eexists. split; [vm_compute; reflexivity|]. reflexivity.
Qed.

(* ================================================================= *)
(** ** The event loop at rest and at its exits *)

Lemma HandleNextEvent_loop_exit (X : Externals) (fuel : nat)
    (setreturn : option (list Any -> M unit)) (status : Z) (e : Endpoint) :
  (status =? kNone) && negb (State_eqb (state_ e) kWaitForAsyncCallback) && Ready e = false ->
  HandleNextEvent_loop X fuel setreturn status e = Some (Ok status e).
Proof.
  intro H. destruct fuel; cbn [HandleNextEvent_loop]; now rewrite H.
Qed.

Lemma set_modes_back (c a : bool) (e : Endpoint) :
  set_modes (client_mode_ e) (async_server_mode_ e) (set_modes c a e) = e.
Proof. endpoint_ext. Qed.

Lemma Ready_BytesNeeded (e : Endpoint) : Ready e = true <-> BytesNeeded e = 0.
Proof.
  unfold Ready, BytesNeeded.
  destruct (Z.leb_spec (pending_request_bytes_ e) (bytes_available (reader_ e)));
    destruct (Z.ltb_spec (bytes_available (reader_ e)) (pending_request_bytes_ e));
    split; intros; try reflexivity; try discriminate; lia.
Qed.

(** X1: while an asynchronous operation is in flight, or while bytes the
    handler has asked for are still missing, [HandleNextEvent] reports
    [kNone] and leaves the endpoint exactly as it was, whatever the reader
    holds and however much fuel it is given. *)
Theorem handle_next_event_waits (X : Externals) (fuel : nat)
    (client_mode async_server_mode : bool)
    (setreturn : option (list Any -> M unit)) (e : Endpoint) :
  state_ e = kWaitForAsyncCallback \/ BytesNeeded e <> 0 ->
  HandleNextEvent X fuel client_mode async_server_mode setreturn e = Some (Ok kNone e).
Proof.
  intro H. unfold HandleNextEvent.
  rewrite HandleNextEvent_loop_exit.
  - now rewrite set_modes_back.
  - destruct H as [Hs|Hb].
    + project. rewrite Hs. cbn [State_eqb negb]. now rewrite Bool.andb_false_r.
    + assert (Hr : Ready (set_modes client_mode async_server_mode e) = false).
      { destruct (Ready (set_modes client_mode async_server_mode e)) eqn:E; [|reflexivity].
        apply Ready_BytesNeeded in E. contradiction. }
      rewrite Hr. apply Bool.andb_false_r.
Qed.

(** A server suspended on an asynchronous call, with a whole empty packet
    waiting in the reader. *)
Definition suspended_with_input : Endpoint :=
  set_state kWaitForAsyncCallback
    (set_reader (le_bytes 8 0)
       (EventHandler_new None "server" "key" Demo.zero_memory)).

Lemma handle_next_event_waits_witness :
  HandleNextEvent (Demo.externals true) 5 false true None suspended_with_input =
  Some (Ok kNone suspended_with_input).
Proof.
  apply (handle_next_event_waits (Demo.externals true) 5 false true None
           suspended_with_input).
  left. reflexivity.
Defined.

(** The endpoint once [SwitchToState(kRecvPacketNumBytes)] has run from a
    state other than [kWaitForAsyncCallback]. *)
Definition idle_again (e : Endpoint) : Endpoint :=
  set_arena [] (set_object_arena [] (set_pending 8 (enter kRecvPacketNumBytes e))).

Lemma HandleNextEvent_one_turn (X : Externals) (fuel : nat)
    (client_mode async_server_mode : bool)
    (setreturn : option (list Any -> M unit)) (e e' : Endpoint) (status : Z) :
  state_ e <> kWaitForAsyncCallback ->
  Ready e = true ->
  status <> kNone ->
  HandleNextEvent_body X setreturn (set_modes client_mode async_server_mode e) =
    Ok status e' ->
  HandleNextEvent X (S fuel) client_mode async_server_mode setreturn e =
    Some (Ok status (set_modes (client_mode_ e) (async_server_mode_ e) e')).
Proof.
  intros Hs Hr Hst Hbody. unfold HandleNextEvent. cbn [HandleNextEvent_loop].
  change (Ready (set_modes client_mode async_server_mode e)) with (Ready e).
  rewrite Hr. project.
  destruct (State_eqb (state_ e) kWaitForAsyncCallback) eqn:E;
    [destruct (state_ e); try discriminate; contradiction|].
  change (kNone =? kNone) with true. cbn [negb andb].
  rewrite Hbody. rewrite HandleNextEvent_loop_exit; [reflexivity|].
  destruct (Z.eqb_spec status kNone); [contradiction|reflexivity].
Qed.

(** X2: the three exit states.  In [kShutdownReceived] the handler reports
    [kShutdown] and stays there: nothing that is or comes into the reader is
    processed any more.  In [kCopyAckReceived] it reports [kCopyAck] and
    stays, leaving the payload to the caller.  In [kReturnReceived] it
    reports [kReturn] and is idle again. *)
Theorem exit_states_report (X : Externals) (fuel : nat)
    (client_mode async_server_mode : bool)
    (setreturn : option (list Any -> M unit)) (e : Endpoint) :
  Ready e = true ->
  (state_ e = kShutdownReceived ->
   HandleNextEvent X (S fuel) client_mode async_server_mode setreturn e =
     Some (Ok kShutdown e)) /\
  (state_ e = kCopyAckReceived ->
   HandleNextEvent X (S fuel) client_mode async_server_mode setreturn e =
     Some (Ok kCopyAck e)) /\
  (state_ e = kReturnReceived ->
   pending_request_bytes_ e = 0 ->
   HandleNextEvent X (S fuel) client_mode async_server_mode setreturn e =
     Some (Ok kReturn (idle_again e))).
Proof.
  intro Hr. split; [|split].
  - intro Hs.
    rewrite (HandleNextEvent_one_turn X fuel client_mode async_server_mode setreturn e
               (set_modes client_mode async_server_mode e) kShutdown);
      try assumption; try discriminate.
    + now rewrite set_modes_back.
    + rewrite Hs. discriminate.
    + unfold HandleNextEvent_body, bind, get. project. now rewrite Hs.
  - intro Hs.
    rewrite (HandleNextEvent_one_turn X fuel client_mode async_server_mode setreturn e
               (set_modes client_mode async_server_mode e) kCopyAck);
      try assumption; try discriminate.
    + now rewrite set_modes_back.
    + rewrite Hs. discriminate.
    + unfold HandleNextEvent_body, bind, get. project. now rewrite Hs.
  - intros Hs Hp.
    rewrite (HandleNextEvent_one_turn X fuel client_mode async_server_mode setreturn e
               (idle_again (set_modes client_mode async_server_mode e)) kReturn);
      try assumption; try discriminate.
    + reflexivity.
    + rewrite Hs. discriminate.
    + unfold HandleNextEvent_body. unfold bind at 1, get. project. rewrite Hs.
      unfold bind. rewrite SwitchToState_recv; [reflexivity|exact Hp|].
      project. rewrite Hs. discriminate.
Qed.

(** A handler that has received [Shutdown], with an empty packet behind it
    in the reader. *)
Definition shut_down_with_input : Endpoint :=
  set_pending 0
    (set_state kShutdownReceived
       (set_reader (le_bytes 8 0)
          (EventHandler_new None "server" "key" Demo.zero_memory))).

Lemma exit_states_report_witness :
  HandleNextEvent (Demo.externals true) 4 false false None shut_down_with_input =
  Some (Ok kShutdown shut_down_with_input).
Proof.
  refine (proj1 (exit_states_report (Demo.externals true) 3 false false None
                   shut_down_with_input _) _); reflexivity.
Defined.

(* ================================================================= *)
(** ** Opcodes outside the protocol *)

Lemma to_int32_wrap (v : Z) : - 2 ^ 31 <= v < 2 ^ 31 -> to_int32 (v mod 2 ^ 32) = v.
Proof.
  intro H. unfold to_int32. rewrite Zplus_mod_idemp_l.
  rewrite Z.mod_small; lia.
Qed.

Lemma Read_i32_front_signed (v : Z) (rest : list byte) (e : Endpoint) :
  - 2 ^ 31 <= v < 2 ^ 31 ->
  reader_ e = le_bytes 4 v ++ rest ->
  4 <= pending_request_bytes_ e ->
  Read_i32 e = Ok v (set_pending (pending_request_bytes_ e - 4) (set_reader rest e)).
Proof.
  intros Hv Hr Hp. unfold Read_i32, bind.
  rewrite (Read_exact 4 _ _ e Hr) by (try apply len_le_bytes; lia).
  unfold ret. rewrite le_value_le_bytes.
  change (2 ^ (8 * Z.of_nat 4)) with (2 ^ 32).
  now rewrite to_int32_wrap.
Qed.

Ltac opcode_cases code :=
  repeat match goal with
         | |- context [Z.eqb code ?k] =>
             destruct (Z.eqb_spec code k); [lia|]
         | |- context [Z.geb code ?k] =>
             destruct (Z.geb_spec code k); [try lia|try lia]
         end.

(** X3: a packet whose opcode is below [kShutdown] or above the last
    syscall code is fatal: the handler raises "Unknown event" having taken
    only the four opcode bytes, and writes no reply. *)
Theorem unknown_opcode_is_fatal (X : Externals)
    (setreturn : option (list Any -> M unit)) (e : Endpoint) (code : Z)
    (rest : list byte) :
  - 2 ^ 31 <= code < 2 ^ 31 ->
  code < kShutdown \/ kDevAllocDataWithScope < code ->
  reader_ e = le_bytes 4 code ++ rest ->
  4 <= pending_request_bytes_ e ->
  HandleProcessPacket X setreturn e =
    Throw "Unknown event"
      (set_pending (pending_request_bytes_ e - 4) (set_reader rest e)).
Proof.
  intros Hc Hout Hr Hp. unfold HandleProcessPacket, Read_code. unfold bind at 1.
  rewrite (Read_i32_front_signed code rest e) by assumption.
  unfold kShutdown, kDevAllocDataWithScope in Hout.
  unfold kSyscallCodeStart, kInitServer, kCallFunc, kCopyFromRemote, kCopyToRemote,
    kException, kReturn, kCopyAck, kShutdown.
  destruct Hout as [Hlow|Hhigh].
  - opcode_cases code. cbn [orb]. reflexivity.
  - destruct (Z.geb_spec code 9) as [_|]; [|lia].
    unfold HandleSyscall, is_plain_syscall, existsb.
    unfold kDevStreamSync, kFreeHandle, kGetGlobalFunc, kSyscallCodeStart, kDevSetDevice,
      kDevGetAttr, kDevAllocData, kDevAllocDataWithScope, kDevFreeData, kDevCreateStream,
      kDevFreeStream, kDevSetStream, kDevGetCurrentStream, kCopyAmongRemote.
    opcode_cases code. cbn [orb]. reflexivity.
Qed.

(** A handler with the body of a five-byte packet in the reader whose
    opcode is [kNone]. *)
Definition awaiting_none_opcode : Endpoint :=
  set_pending 5
    (set_state kProcessPacket
       (set_reader (le_bytes 4 kNone ++ [x00])
          (EventHandler_new None "server" "key" Demo.zero_memory))).

Lemma unknown_opcode_is_fatal_witness :
  HandleProcessPacket (Demo.externals true) None awaiting_none_opcode =
    Throw "Unknown event"
      (set_pending (pending_request_bytes_ awaiting_none_opcode - 4)
         (set_reader [x00] awaiting_none_opcode)).
Proof.
  apply (unknown_opcode_is_fatal (Demo.externals true) None awaiting_none_opcode
           kNone [x00]).
  - unfold kNone. lia.
  - left. reflexivity.
  - reflexivity.
  - vm_compute. discriminate.
Defined.

(* ================================================================= *)
(** ** More on the state switcher *)

(** X4: [SwitchToState] pushes the writer to the channel exactly when the
    handler is leaving [kWaitForAsyncCallback]: the bytes written so far go
    out, in order, before the state changes.  Entering a state from any
    other state leaves writer and channel untouched. *)
Theorem switch_flushes_on_leaving_wait (state : State) (e : Endpoint) (ch : RPCChannel) :
  pending_request_bytes_ e = 0 ->
  state <> kInitHeader ->
  channel_ e = Some ch ->
  exists e' : Endpoint,
    SwitchToState state e = Ok tt e' /\
    state_ e' = state /\
    (state_ e = kWaitForAsyncCallback ->
     writer_ e' = [] /\
     channel_ e' = Some {| inbox := inbox ch; outbox := outbox ch ++ writer_ e |}) /\
    (state_ e <> kWaitForAsyncCallback ->
     writer_ e' = writer_ e /\ channel_ e' = Some ch).
Proof.
  intros Hp Hs Hc.
  destruct e as [st step cm am ar oa pend ss nm rd wr rk c mem sr hist].
  cbn in Hp, Hc. subst pend c. destruct ch as [ib ob].
  destruct state; try contradiction; destruct st; destruct wr as [|b wr];
    (eexists; split; [reflexivity|]; split; [reflexivity|];
     split; intro H; try discriminate H; try contradiction;
     split; try reflexivity; cbn; now rewrite ?app_nil_r).
Qed.

(** A server suspended on an asynchronous call with a reply in its writer. *)
Definition suspended_with_reply : Endpoint :=
  set_pending 0
    (set_state kWaitForAsyncCallback
       (set_writer (le_bytes 8 4 ++ le_bytes 4 kReturn)
          (EventHandler_new (Some {| inbox := []; outbox := [x01] |})
             "server" "key" Demo.zero_memory))).

Lemma switch_flushes_on_leaving_wait_witness :
  exists e' : Endpoint,
    SwitchToState kRecvPacketNumBytes suspended_with_reply = Ok tt e' /\
    state_ e' = kRecvPacketNumBytes /\
    (state_ suspended_with_reply = kWaitForAsyncCallback ->
     writer_ e' = [] /\
     channel_ e' =
       Some {| inbox := inbox {| inbox := []; outbox := [x01] |};
               outbox := outbox {| inbox := []; outbox := [x01] |}
                         ++ writer_ suspended_with_reply |}) /\
    (state_ suspended_with_reply <> kWaitForAsyncCallback ->
     writer_ e' = writer_ suspended_with_reply /\
     channel_ e' = Some {| inbox := []; outbox := [x01] |}).
Proof.
  apply (switch_flushes_on_leaving_wait kRecvPacketNumBytes suspended_with_reply
           {| inbox := []; outbox := [x01] |}).
  - reflexivity.
  - discriminate.
  - reflexivity.
Defined.

(** X5: [SwitchToState(kInitHeader)] never succeeds.  When its first check
    passes it raises only after [state_] has been overwritten, so the
    handler is left in [kInitHeader]. *)
Theorem never_back_to_init_header (e : Endpoint) :
  (exists (msg : string) (e' : Endpoint), SwitchToState kInitHeader e = Throw msg e') /\
  (pending_request_bytes_ e = 0 ->
   state_ e <> kWaitForAsyncCallback ->
   SwitchToState kInitHeader e =
     Throw "cannot switch to init header" (enter kInitHeader e)).
Proof.
  split.
  - destruct (Z.eq_dec (pending_request_bytes_ e) 0) as [Hp|Hp].
    + destruct e as [st step cm am ar oa pend ss nm rd wr rk c mem sr hist].
      cbn in Hp. subst pend.
      destruct st; destruct wr; destruct c; eexists; eexists; reflexivity.
    + exists pending_check_failed, e. apply SwitchToState_throw; [discriminate|exact Hp].
  - intros Hp Hs.
    destruct e as [st step cm am ar oa pend ss nm rd wr rk c mem sr hist].
    cbn in Hp, Hs. subst pend.
    destruct st; try contradiction; reflexivity.
Qed.

(* ================================================================= *)
(** ** Which arguments may travel *)

(** What [ValidateArguments] lets through: anything but an object that is
    not a remote object reference, and a device of an RPC session. *)
Definition may_travel (X : Externals) (a : Any) : bool :=
  match a with
  | AnyObject _ => false
  | AnyDevice d => negb (IsRPCSessionDevice X d)
  | _ => true
  end.

(** X6: [ValidateArguments] accepts a sequence exactly when each value may
    travel: null, a module, a remote object reference, a scalar, a string,
    a tensor descriptor or a device that is not an RPC-session device; any
    other object and any RPC-session device make it raise.  It changes
    nothing either way. *)
Theorem validate_arguments_accepts (X : Externals) (args : list Any) (e : Endpoint) :
  (forallb (may_travel X) args = true /\ ValidateArguments X args e = Ok tt e) \/
  (forallb (may_travel X) args = false /\
   exists msg : string, ValidateArguments X args e = Throw msg e).
Proof.
  induction args as [|a args IH].
  - left. split; reflexivity.
  - cbn [forallb ValidateArguments].
    destruct a; cbn [may_travel andb];
      try exact IH;
      try (right; split; [reflexivity|eexists; reflexivity]).
    unfold bind, ICHECK.
    destruct (IsRPCSessionDevice X d); cbn [negb andb].
    + right. split; [reflexivity|eexists; reflexivity].
    + exact IH.
Qed.

(* ================================================================= *)
(** ** Syscalls and calls: who gets a reply *)

Definition session_missing_message : string :=
  "Need to call InitRemoteSession first before any further actions".

(** The bytes of a [Return] reply with the packed sequence [body]. *)
Definition return_packet (body : list byte) : list byte :=
  le_bytes 8 (wrap64 (4 + len body)) ++ le_bytes 4 kReturn ++ body.

Lemma WritePacket_writes (code : Z) (body : list byte) (e : Endpoint) :
  WritePacket code body e =
    Ok tt (set_writer
             (writer_ e ++ le_bytes 8 (wrap64 (4 + len body)) ++ le_bytes 4 code ++ body) e).
Proof.
  unfold WritePacket. run_monad. f_equal. endpoint_ext. now rewrite <- !app_assoc.
Qed.

(** What a plain syscall answers, given the arguments it received. *)
Definition syscall_reply (X : Externals) (f : RPCSession -> list Any -> SysResult)
    (args : list Any) (e1 : Endpoint) : list byte :=
  match GetServingSession e1 with
  | Throw what _ => exception_packet X what
  | Ok sess _ =>
      match f sess args with
      | SysThrow what => exception_packet X what
      | SysReturn rv =>
          match PackedSeqBytes X [rv] with
          | Some body => return_packet body
          | None =>
              exception_packet X
                "ValueError: Object type is not supported in RPC calling convention"
          end
      end
  end.

Lemma GetServingSession_frame (e : Endpoint) :
  match GetServingSession e with
  | Ok _ e' => e' = e
  | Throw _ e' => e' = e
  end.
Proof.
  unfold GetServingSession, bind, get, ICHECK, ret, throw.
  destruct (serving_session_ e) as [sess|]; [|reflexivity].
  destruct (negb (IsAsync sess) || async_server_mode_ e); reflexivity.
Qed.

(** X7: a plain syscall never raises once its arguments are read: it writes
    exactly one packet, a [Return] with the value or an [Exception] with the
    failure, and leaves the handler idle with the same serving session.  In
    particular a syscall that arrives before any session is installed is
    answered with an [Exception]. *)
Theorem syscall_gets_one_reply (X : Externals)
    (f : RPCSession -> list Any -> SysResult) (e e1 : Endpoint) (args : list Any) :
  RPCReference_RecvPackedSeq X e = Ok args e1 ->
  pending_request_bytes_ e1 = 0 ->
  state_ e1 <> kWaitForAsyncCallback ->
  exists e2 : Endpoint,
    SysCallHandler X f e = Ok tt e2 /\
    writer_ e2 = writer_ e1 ++ syscall_reply X f args e1 /\
    ((exists body, syscall_reply X f args e1 = return_packet body) \/
     (exists what, syscall_reply X f args e1 = exception_packet X what)) /\
    (serving_session_ e1 = None ->
     syscall_reply X f args e1 = exception_packet X session_missing_message) /\
    state_ e2 = kRecvPacketNumBytes /\
    pending_request_bytes_ e2 = 8 /\
    serving_session_ e2 = serving_session_ e1.
Proof.
  intros Hrecv Hp Hs. unfold SysCallHandler, RecvPackedSeq.
  unfold bind at 1. rewrite Hrecv. unfold bind at 1, try_catch, syscall_reply.
  unfold bind at 1.
  pose proof (GetServingSession_frame e1) as Hframe.
  assert (Hnone : serving_session_ e1 = None ->
                  GetServingSession e1 = Throw session_missing_message e1).
  { intro H. unfold GetServingSession, bind, get. now rewrite H. }
  destruct (GetServingSession e1) as [sess e1'|what e1']; subst e1'.
  - destruct (f sess args) as [rv|what].
    + unfold ReturnPackedSeq.
      destruct (PackedSeqBytes X [rv]) as [body|].
      * rewrite WritePacket_writes. rewrite SwitchToState_recv by assumption.
        eexists. split; [reflexivity|]. split; [reflexivity|].
        split; [left; eexists; reflexivity|].
        split; [intro H; specialize (Hnone H); discriminate|].
        repeat split; reflexivity.
      * unfold throw. rewrite ReturnException_writes.
        rewrite SwitchToState_recv by assumption.
        eexists. split; [reflexivity|]. split; [reflexivity|].
        split; [right; eexists; reflexivity|].
        split; [intro H; specialize (Hnone H); discriminate|].
        repeat split; reflexivity.
    + unfold throw. rewrite ReturnException_writes.
      rewrite SwitchToState_recv by assumption.
      eexists. split; [reflexivity|]. split; [reflexivity|].
      split; [right; eexists; reflexivity|].
      split; [intro H; specialize (Hnone H); discriminate|].
      repeat split; reflexivity.
  - rewrite ReturnException_writes. rewrite SwitchToState_recv by assumption.
    eexists. split; [reflexivity|]. split; [reflexivity|].
    split; [right; eexists; reflexivity|].
    split; [intro H; specialize (Hnone H); congruence|].
    repeat split; reflexivity.
Qed.

(** A server without a session that has read the opcode of a syscall whose
    packed arguments are empty. *)
Definition awaiting_syscall_body : Endpoint :=
  set_pending 4
    (set_state kProcessPacket
       (set_reader (le_bytes 4 0)
          (EventHandler_new None "server" "key" Demo.zero_memory))).

Lemma syscall_gets_one_reply_witness :
  exists e2 : Endpoint,
    SysCallHandler (Demo.externals true) (fun _ _ => SysReturn AnyNull)
      awaiting_syscall_body = Ok tt e2 /\
    writer_ e2 =
      writer_ (set_pending 0 (set_reader [] awaiting_syscall_body))
      ++ syscall_reply (Demo.externals true) (fun _ _ => SysReturn AnyNull) []
           (set_pending 0 (set_reader [] awaiting_syscall_body)) /\
    ((exists body,
         syscall_reply (Demo.externals true) (fun _ _ => SysReturn AnyNull) []
           (set_pending 0 (set_reader [] awaiting_syscall_body)) = return_packet body) \/
     (exists what,
         syscall_reply (Demo.externals true) (fun _ _ => SysReturn AnyNull) []
           (set_pending 0 (set_reader [] awaiting_syscall_body)) =
         exception_packet (Demo.externals true) what)) /\
    (serving_session_ (set_pending 0 (set_reader [] awaiting_syscall_body)) = None ->
     syscall_reply (Demo.externals true) (fun _ _ => SysReturn AnyNull) []
       (set_pending 0 (set_reader [] awaiting_syscall_body)) =
     exception_packet (Demo.externals true) session_missing_message) /\
    state_ e2 = kRecvPacketNumBytes /\
    pending_request_bytes_ e2 = 8 /\
    serving_session_ e2 =
      serving_session_ (set_pending 0 (set_reader [] awaiting_syscall_body)).
Proof.
  apply (syscall_gets_one_reply (Demo.externals true) (fun _ _ => SysReturn AnyNull)
           awaiting_syscall_body
           (set_pending 0 (set_reader [] awaiting_syscall_body)) []).
  - vm_compute. reflexivity.
  - reflexivity.
  - discriminate.
Defined.

(** X8: a [CallFunc] packet that arrives before any session is installed is
    not answered: the handler has already entered [kWaitForAsyncCallback]
    when it looks for the session, raises, and stays in that state with
    nothing written. *)
Theorem call_before_init_is_fatal (X : Externals) (e e1 : Endpoint)
    (call_handle : Z) (rest : list byte) (args : list Any) :
  0 <= call_handle < 2 ^ 64 ->
  reader_ e = le_bytes 8 call_handle ++ rest ->
  8 <= pending_request_bytes_ e ->
  RPCReference_RecvPackedSeq X
    (set_pending (pending_request_bytes_ e - 8) (set_reader rest e)) = Ok args e1 ->
  pending_request_bytes_ e1 = 0 ->
  state_ e1 <> kWaitForAsyncCallback ->
  serving_session_ e1 = None ->
  HandleNormalCallFunc X e =
    Throw session_missing_message (enter kWaitForAsyncCallback e1) /\
  writer_ (enter kWaitForAsyncCallback e1) = writer_ e1.
Proof.
  intros Hh Hr Hp Hrecv Hp1 Hs1 Hnone. split; [|reflexivity].
  unfold HandleNormalCallFunc. unfold bind at 1.
  rewrite (Read_u64_front call_handle rest e) by assumption.
  unfold bind at 1. unfold RecvPackedSeq. rewrite Hrecv.
  unfold bind at 1.
  rewrite SwitchToState_plain;
    [|left; exact Hp1|exact Hs1|discriminate|discriminate].
  unfold bind at 1, GetServingSession. unfold bind at 1, get. project.
  now rewrite Hnone.
Qed.

(** A server without a session that has read the opcode of a [CallFunc]
    packet for the function handle 7, with no arguments. *)
Definition awaiting_call_body : Endpoint :=
  set_pending 12
    (set_state kProcessPacket
       (set_reader (le_bytes 8 7 ++ le_bytes 4 0)
          (EventHandler_new None "server" "key" Demo.zero_memory))).

Lemma call_before_init_is_fatal_witness :
  HandleNormalCallFunc (Demo.externals true) awaiting_call_body =
    Throw session_missing_message
      (enter kWaitForAsyncCallback (set_pending 0 (set_reader [] awaiting_call_body))) /\
  writer_ (enter kWaitForAsyncCallback (set_pending 0 (set_reader [] awaiting_call_body))) =
    writer_ (set_pending 0 (set_reader [] awaiting_call_body)).
Proof.
  apply (call_before_init_is_fatal (Demo.externals true) awaiting_call_body
           (set_pending 0 (set_reader [] awaiting_call_body)) 7 (le_bytes 4 0) []).
  - lia.
  - reflexivity.
  - vm_compute. discriminate.
  - vm_compute. reflexivity.
  - reflexivity.
  - discriminate.
  - reflexivity.
Defined.

(* ================================================================= *)
(** ** InitServer with the right protocol version *)

Definition already_initialized_message : string :=
  "Server has already been initialized".

(** Reads the version string and the packed arguments of an [InitServer]
    body, leaving the [try] block and the final state switch. *)
Ltac init_server_read X e ver rest Hr Hp Hv Hrecv :=
  unfold HandleInitServer; unfold bind at 1;
  rewrite (Read_u64_front (len ver) (ver ++ rest) e)
    by (try assumption; pose proof (len_nonneg ver); lia);
  unfold bind at 1;
  rewrite (Read_front ver rest) by (project; try reflexivity; lia);
  unfold bind at 1; unfold RecvPackedSeq;
  change (RPCReference_RecvPackedSeq X _) with
    (RPCReference_RecvPackedSeq X
       (set_pending (pending_request_bytes_ e - 8 - len ver) (set_reader rest e)));
  rewrite Hrecv.

(** X9: once a serving session is installed, every further [InitServer]
    packet is refused, whatever protocol version it carries: the reply is an
    [Exception] saying the server has already been initialized, and the
    session stays the one that was installed. *)
Theorem init_server_twice_refused (X : Externals) (e e1 : Endpoint)
    (ver rest : list byte) (args : list Any) (sess : RPCSession) :
  reader_ e = le_bytes 8 (len ver) ++ ver ++ rest ->
  8 + len ver <= pending_request_bytes_ e ->
  len ver < 2 ^ 64 ->
  RPCReference_RecvPackedSeq X
    (set_pending (pending_request_bytes_ e - 8 - len ver) (set_reader rest e)) =
    Ok args e1 ->
  pending_request_bytes_ e1 = 0 ->
  state_ e1 <> kWaitForAsyncCallback ->
  serving_session_ e1 = Some sess ->
  exists e2 : Endpoint,
    HandleInitServer X e = Ok tt e2 /\
    writer_ e2 = writer_ e1 ++ exception_packet X already_initialized_message /\
    serving_session_ e2 = Some sess /\
    state_ e2 = kRecvPacketNumBytes /\
    pending_request_bytes_ e2 = 8.
Proof.
  intros Hr Hp Hv Hrecv Hp1 Hs1 Hsess.
  init_server_read X e ver rest Hr Hp Hv Hrecv.
  unfold bind at 1, try_catch. unfold bind at 1, get. rewrite Hsess.
  unfold ICHECK, throw, bind at 1.
  rewrite ReturnException_writes. rewrite SwitchToState_recv by assumption.
  eexists. split; [reflexivity|]. project. rewrite Hsess.
  repeat split; reflexivity.
Qed.

(** The server of [awaiting_init_server_body] with a session installed. *)
Definition initialized_awaiting_init_server_body : Endpoint :=
  set_serving_session (Some Demo.local_session) awaiting_init_server_body.

Lemma init_server_twice_refused_witness :
  exists e2 : Endpoint,
    HandleInitServer (Demo.externals true) initialized_awaiting_init_server_body =
      Ok tt e2 /\
    writer_ e2 =
      writer_ (set_pending 0 (set_reader [] initialized_awaiting_init_server_body))
      ++ exception_packet (Demo.externals true) already_initialized_message /\
    serving_session_ e2 = Some Demo.local_session /\
    state_ e2 = kRecvPacketNumBytes /\
    pending_request_bytes_ e2 = 8.
Proof.
  apply (init_server_twice_refused (Demo.externals true)
           initialized_awaiting_init_server_body
           (set_pending 0 (set_reader [] initialized_awaiting_init_server_body))
           old_client_version (le_bytes 4 0) [] Demo.local_session).
  - reflexivity.
  - vm_compute. discriminate.
  - vm_compute. reflexivity.
  - vm_compute. reflexivity.
  - reflexivity.
  - discriminate.
  - reflexivity.
Defined.

(** X10: an [InitServer] packet with the right version that names a
    constructor installs a session exactly when the constructor returns a
    module of type key ["rpc"]: then the reply is a void [Return] and the
    session is the module's; in every other case (no such constructor, the
    constructor raises, its result is no module or a module of another kind)
    the reply is an [Exception] and no session is installed.  The handler is
    idle afterwards either way. *)
Theorem init_server_named_constructor (X : Externals) (e e1 : Endpoint)
    (ver rest : list byte) (name : string) (cargs : list Any) :
  reader_ e = le_bytes 8 (len ver) ++ ver ++ rest ->
  8 + len ver <= pending_request_bytes_ e ->
  len ver < 2 ^ 64 ->
  string_of_list_byte ver = kRPCProtocolVer X ->
  RPCReference_RecvPackedSeq X
    (set_pending (pending_request_bytes_ e - 8 - len ver) (set_reader rest e)) =
    Ok (AnyStr name :: cargs) e1 ->
  pending_request_bytes_ e1 = 0 ->
  state_ e1 <> kWaitForAsyncCallback ->
  serving_session_ e1 = None ->
  exists (e2 : Endpoint) (reply : list byte),
    HandleInitServer X e = Ok tt e2 /\
    writer_ e2 = writer_ e1 ++ reply /\
    state_ e2 = kRecvPacketNumBytes /\
    ((exists sess : RPCSession,
         SessionConstructor X name cargs = CtorModule "rpc" sess /\
         serving_session_ e2 = Some sess /\
         reply = return_packet (VoidSeqBytes X)) \/
     ((forall sess : RPCSession,
          SessionConstructor X name cargs <> CtorModule "rpc" sess) /\
      serving_session_ e2 = None /\
      exists what : string, reply = exception_packet X what)).
Proof.
  intros Hr Hp Hv Hver Hrecv Hp1 Hs1 Hnone.
  init_server_read X e ver rest Hr Hp Hv Hrecv.
  unfold bind at 1, try_catch. unfold bind at 1, get. rewrite Hnone.
  unfold ICHECK at 1. unfold bind at 1, ret at 1. unfold bind at 1.
  rewrite Hver, String.eqb_refl. unfold ICHECK at 1, ret at 1.
  unfold bind at 1. unfold bind at 1. unfold cast_std_string, cast_String, ret at 1.
  unfold ret at 1.
  destruct (SessionConstructor X name cargs) as [|what| |tkey sess] eqn:Hctor;
    try (unfold throw; rewrite ReturnException_writes;
         rewrite SwitchToState_recv by assumption;
         eexists; eexists; split; [reflexivity|]; split; [reflexivity|];
         split; [reflexivity|]; right;
         split; [intros s Hcontra; discriminate Hcontra|];
         split; [project; exact Hnone|eexists; reflexivity]).
  destruct (String.eqb_spec tkey "rpc") as [->|Hkey].
  - unfold ICHECK, bind at 1, ret at 1. unfold bind at 1, modify at 1.
    unfold ReturnVoid. rewrite WritePacket_writes.
    rewrite SwitchToState_recv by assumption.
    eexists. eexists. split; [reflexivity|]. split; [reflexivity|].
    split; [reflexivity|]. left. exists sess. repeat split; reflexivity.
  - unfold ICHECK, bind at 1, throw. rewrite ReturnException_writes.
    rewrite SwitchToState_recv by assumption.
    eexists. eexists. split; [reflexivity|]. split; [reflexivity|].
    split; [reflexivity|]. right.
    split; [intros s Hcontra; injection Hcontra as Hk _; contradiction|].
    split; [project; exact Hnone|eexists; reflexivity].
Qed.

(** A server without a session that has read the opcode of an [InitServer]
    packet of the instance's own version naming the constructor ["ctor"]. *)
Definition same_version : list byte := list_byte_of_string "0.8.0".

Definition awaiting_named_init_body : Endpoint :=
  set_pending (8 + len same_version + len (le_bytes 4 1 ++ Demo.string_bytes "ctor"))
    (set_state kProcessPacket
       (set_reader (le_bytes 8 (len same_version) ++ same_version
                    ++ le_bytes 4 1 ++ Demo.string_bytes "ctor")
          (EventHandler_new (Some {| inbox := []; outbox := [] |})
             "server" "key" Demo.zero_memory))).

Lemma init_server_named_constructor_witness :
  exists (e2 : Endpoint) (reply : list byte),
    HandleInitServer (Demo.externals true) awaiting_named_init_body = Ok tt e2 /\
    writer_ e2 =
      writer_ (set_pending 0 (set_reader [] awaiting_named_init_body)) ++ reply /\
    state_ e2 = kRecvPacketNumBytes /\
    ((exists sess : RPCSession,
         SessionConstructor (Demo.externals true) "ctor" [] = CtorModule "rpc" sess /\
         serving_session_ e2 = Some sess /\
         reply = return_packet (VoidSeqBytes (Demo.externals true))) \/
     ((forall sess : RPCSession,
          SessionConstructor (Demo.externals true) "ctor" [] <> CtorModule "rpc" sess) /\
      serving_session_ e2 = None /\
      exists what : string, reply = exception_packet (Demo.externals true) what)).
Proof.
  apply (init_server_named_constructor (Demo.externals true)
           awaiting_named_init_body
           (set_pending 0 (set_reader [] awaiting_named_init_body))
           same_version (le_bytes 4 1 ++ Demo.string_bytes "ctor") "ctor" []).
  - reflexivity.
  - vm_compute. discriminate.
  - vm_compute. reflexivity.
  - reflexivity.
  - vm_compute. reflexivity.
  - reflexivity.
  - discriminate.
  - reflexivity.
Defined.

(** X11: an [InitServer] packet with the right version and no constructor
    argument always leaves a session installed.  A [LocalSession] is put in
    place before the constructor ["rpc.LocalSession"] is looked up, so when
    that constructor is missing, raises or returns something else the
    reply is an [Exception] and yet the [LocalSession] stays; when it
    returns an ["rpc"] module the reply is a void [Return] and the session
    is the module's. *)
Theorem init_server_default_session (X : Externals) (e e1 : Endpoint)
    (ver rest : list byte) :
  reader_ e = le_bytes 8 (len ver) ++ ver ++ rest ->
  8 + len ver <= pending_request_bytes_ e ->
  len ver < 2 ^ 64 ->
  string_of_list_byte ver = kRPCProtocolVer X ->
  RPCReference_RecvPackedSeq X
    (set_pending (pending_request_bytes_ e - 8 - len ver) (set_reader rest e)) =
    Ok [] e1 ->
  pending_request_bytes_ e1 = 0 ->
  state_ e1 <> kWaitForAsyncCallback ->
  serving_session_ e1 = None ->
  exists (e2 : Endpoint) (reply : list byte),
    HandleInitServer X e = Ok tt e2 /\
    writer_ e2 = writer_ e1 ++ reply /\
    state_ e2 = kRecvPacketNumBytes /\
    ((exists sess : RPCSession,
         SessionConstructor X "rpc.LocalSession" [] = CtorModule "rpc" sess /\
         serving_session_ e2 = Some sess /\
         reply = return_packet (VoidSeqBytes X)) \/
     ((forall sess : RPCSession,
          SessionConstructor X "rpc.LocalSession" [] <> CtorModule "rpc" sess) /\
      serving_session_ e2 = Some (LocalSession X) /\
      exists what : string, reply = exception_packet X what)).
Proof.
  intros Hr Hp Hv Hver Hrecv Hp1 Hs1 Hnone.
  init_server_read X e ver rest Hr Hp Hv Hrecv.
  unfold bind at 1, try_catch. unfold bind at 1, get. rewrite Hnone.
  unfold ICHECK at 1. unfold bind at 1, ret at 1. unfold bind at 1.
  rewrite Hver, String.eqb_refl. unfold ICHECK at 1, ret at 1.
  unfold bind at 1. unfold bind at 1. unfold modify at 1. unfold ret at 1.
  destruct (SessionConstructor X "rpc.LocalSession" []) as [|what| |tkey sess] eqn:Hctor;
    try (unfold throw; rewrite ReturnException_writes;
         rewrite SwitchToState_recv by assumption;
         eexists; eexists; split; [reflexivity|]; split; [reflexivity|];
         split; [reflexivity|]; right;
         split; [intros s Hcontra; discriminate Hcontra|];
         split; [reflexivity|eexists; reflexivity]).
  destruct (String.eqb_spec tkey "rpc") as [->|Hkey].
  - unfold ICHECK, bind at 1, ret at 1. unfold bind at 1, modify at 1.
    unfold ReturnVoid. rewrite WritePacket_writes.
    rewrite SwitchToState_recv by assumption.
    eexists. eexists. split; [reflexivity|]. split; [reflexivity|].
    split; [reflexivity|]. left. exists sess. repeat split; reflexivity.
  - unfold ICHECK, bind at 1, throw. rewrite ReturnException_writes.
    rewrite SwitchToState_recv by assumption.
    eexists. eexists. split; [reflexivity|]. split; [reflexivity|].
    split; [reflexivity|]. right.
    split; [intros s Hcontra; injection Hcontra as Hk _; contradiction|].
    split; [reflexivity|eexists; reflexivity].
Qed.

(** An instance whose constructor registry is empty. *)
Definition no_constructors : Externals :=
  {| kRuntimeRPCObjectRef := kRuntimeRPCObjectRef (Demo.externals true);
     kRPCProtocolVer := kRPCProtocolVer (Demo.externals true);
     DMLC_IO_NO_ENDIAN_SWAP := true;
     PackedSeqBytes := PackedSeqBytes (Demo.externals true);
     ExceptionSeqBytes := ExceptionSeqBytes (Demo.externals true);
     VoidSeqBytes := VoidSeqBytes (Demo.externals true);
     RPCReference_RecvPackedSeq := RPCReference_RecvPackedSeq (Demo.externals true);
     RPCReference_ReceiveDLTensor := RPCReference_ReceiveDLTensor (Demo.externals true);
     SessionConstructor := fun _ _ => CtorMissing;
     LocalSession := Demo.local_session;
     SysCallFn := SysCallFn (Demo.externals true);
     AsyncOutcome := AsyncOutcome (Demo.externals true);
     IsRPCSessionDevice := IsRPCSessionDevice (Demo.externals true);
     arena_base := arena_base (Demo.externals true) |}.

Definition awaiting_default_init_body : Endpoint :=
  set_pending (8 + len same_version + 4)
    (set_state kProcessPacket
       (set_reader (le_bytes 8 (len same_version) ++ same_version ++ le_bytes 4 0)
          (EventHandler_new (Some {| inbox := []; outbox := [] |})
             "server" "key" Demo.zero_memory))).

Lemma init_server_default_session_witness :
  exists (e2 : Endpoint) (reply : list byte),
    HandleInitServer no_constructors awaiting_default_init_body = Ok tt e2 /\
    writer_ e2 =
      writer_ (set_pending 0 (set_reader [] awaiting_default_init_body)) ++ reply /\
    state_ e2 = kRecvPacketNumBytes /\
    ((exists sess : RPCSession,
         SessionConstructor no_constructors "rpc.LocalSession" [] = CtorModule "rpc" sess /\
         serving_session_ e2 = Some sess /\
         reply = return_packet (VoidSeqBytes no_constructors)) \/
     ((forall sess : RPCSession,
          SessionConstructor no_constructors "rpc.LocalSession" [] <> CtorModule "rpc" sess) /\
      serving_session_ e2 = Some (LocalSession no_constructors) /\
      exists what : string, reply = exception_packet no_constructors what)).
Proof.
  apply (init_server_default_session no_constructors
           awaiting_default_init_body
           (set_pending 0 (set_reader [] awaiting_default_init_body))
           same_version (le_bytes 4 0)).
  - reflexivity.
  - vm_compute. discriminate.
  - vm_compute. reflexivity.
  - reflexivity.
  - vm_compute. reflexivity.
  - reflexivity.
  - discriminate.
  - reflexivity.
Defined.

(* ================================================================= *)
(** ** CopyToRemote on the serving side, and back *)

Lemma mem_write_reads_back (m : Z -> byte) (a : Z) (bs : list byte) :
  forall pre : list byte,
    map (fun i => mem_write m a (pre ++ bs) (a + Z.of_nat i))
        (seq (List.length pre) (List.length bs)) = bs.
Proof.
  induction bs as [|b bs IH]; intro pre; [reflexivity|].
  cbn [List.length seq map]. f_equal.
  - unfold mem_write. rewrite len_app. unfold len. cbn [List.length].
    destruct (Z.leb_spec a (a + Z.of_nat (List.length pre))); [|lia].
    destruct (Z.ltb_spec (a + Z.of_nat (List.length pre))
                (a + (Z.of_nat (List.length pre) + Z.of_nat (S (List.length bs)))));
      [|lia].
    cbn [andb].
    replace (Z.to_nat (a + Z.of_nat (List.length pre) - a)) with (List.length pre) by lia.
    apply nth_middle.
  - specialize (IH (pre ++ [b])).
    rewrite <- app_assoc in IH. cbn [app] in IH.
    rewrite length_app in IH. cbn [List.length] in IH.
    rewrite Nat.add_1_r in IH. exact IH.
Qed.

Lemma mem_read_write_same (m : Z -> byte) (a : Z) (bs : list byte) :
  mem_read (mem_write m a bs) a (len bs) = bs.
Proof.
  unfold mem_read, len. rewrite Nat2Z.id.
  exact (mem_write_reads_back m a bs []).
Qed.

Lemma mem_read_write_len (m : Z -> byte) (a n : Z) (bs : list byte) :
  len bs = n -> mem_read (mem_write m a bs) a n = bs.
Proof. intros <-. apply mem_read_write_same. Qed.

Lemma mem_write_outside (m : Z -> byte) (a : Z) (bs : list byte) (x : Z) :
  x < a \/ a + len bs <= x ->
  mem_write m a bs x = m x.
Proof.
  intro H. unfold mem_write.
  destruct (Z.leb_spec a x); destruct (Z.ltb_spec x (a + len bs));
    try reflexivity; lia.
Qed.

Lemma length_ByteSwap (bs : list byte) (elem_bytes num_elems : nat) :
  List.length (ByteSwap bs elem_bytes num_elems) = List.length bs.
Proof.
  revert bs. induction num_elems as [|k IH]; intro bs; cbn [ByteSwap]; [reflexivity|].
  rewrite length_app, length_rev, IH, <- length_app, firstn_skipn. reflexivity.
Qed.

(** What ends up in the tensor: the payload, with the bytes of each element
    reversed on a host that swaps. *)
Definition as_stored (X : Externals) (elem_bytes : Z) (payload : list byte) : list byte :=
  if DMLC_IO_NO_ENDIAN_SWAP X then payload
  else ByteSwap payload (Z.to_nat elem_bytes) (Z.to_nat (len payload / elem_bytes)).

Lemma len_as_stored (X : Externals) (elem_bytes : Z) (payload : list byte) :
  len (as_stored X elem_bytes payload) = len payload.
Proof.
  unfold as_stored, len. destruct (DMLC_IO_NO_ENDIAN_SWAP X); [reflexivity|].
  now rewrite length_ByteSwap.
Qed.

(** The direct path of [HandleCopyToRemote]. *)
Lemma HandleCopyToRemote_direct (X : Externals) (e e1 : Endpoint) (arr : DLTensor)
    (sess : RPCSession) (payload rest : list byte) :
  RPCReference_ReceiveDLTensor X e = Ok arr e1 ->
  reader_ e1 = le_bytes 8 (len payload) ++ payload ++ rest ->
  pending_request_bytes_ e1 = 8 + len payload ->
  len payload < 2 ^ 64 ->
  serving_session_ e1 = Some sess ->
  negb (IsAsync sess) || async_server_mode_ e1 = true ->
  state_ e1 <> kWaitForAsyncCallback ->
  device_type (device arr) = kDLCPU ->
  IsLocalSession sess = true ->
  DMLC_IO_NO_ENDIAN_SWAP X = true \/ elem_bytes_of arr <> 0 ->
  exists e2 : Endpoint,
    HandleCopyToRemote X e = Ok tt e2 /\
    mem_read (memory_ e2) (wrap64 (data arr + byte_offset arr)) (len payload) =
      as_stored X (elem_bytes_of arr) payload /\
    (forall a : Z,
        a < wrap64 (data arr + byte_offset arr) \/
        wrap64 (data arr + byte_offset arr) + len payload <= a ->
        memory_ e2 a = memory_ e1 a) /\
    writer_ e2 = writer_ e1 ++ return_packet (VoidSeqBytes X) /\
    reader_ e2 = rest /\
    state_ e2 = kRecvPacketNumBytes /\
    history_ e2 = history_ e1 ++ [kRecvPacketNumBytes] /\
    session_requests_ e2 = session_requests_ e1.
Proof.
  intros Hrecv Hr Hp Hlen Hs Ha Hst Hcpu Hlocal Hswap.
  pose proof (len_nonneg payload) as Hl0.
  unfold HandleCopyToRemote. unfold bind at 1. rewrite Hrecv.
  unfold bind at 1.
  rewrite (Read_u64_front (len payload) (payload ++ rest) e1) by (try assumption; lia).
  unfold bind at 1.
  rewrite (GetServingSession_ok _ sess) by assumption.
  rewrite Hcpu, Z.eqb_refl, Hlocal. cbn [andb].
  unfold bind at 1, ReadArray.
  rewrite (Read_front payload rest) by (project; try reflexivity; lia).
  unfold bind at 1, store_bytes, modify at 1.
  fold (elem_bytes_of arr). unfold as_stored.
  set (dptr := wrap64 (data arr + byte_offset arr)).
  destruct (DMLC_IO_NO_ENDIAN_SWAP X) eqn:Hd; cbn [negb].
  - unfold bind at 1, ret at 1. unfold bind at 1, ReturnVoid.
    rewrite WritePacket_writes.
    rewrite SwitchToState_recv by (project; try assumption; lia).
    eexists. split; [reflexivity|]. project.
    split; [apply mem_read_write_same|].
    split; [intros a Hout; now apply mem_write_outside|].
    repeat split; reflexivity.
  - destruct Hswap as [Hswap|Hswap]; [discriminate|].
    unfold bind at 1, swap_in_memory.
    destruct (Z.eqb_spec (elem_bytes_of arr) 0) as [|_]; [contradiction|].
    unfold modify at 1. unfold bind at 1, ReturnVoid.
    rewrite WritePacket_writes.
    rewrite SwitchToState_recv by (project; try assumption; lia).
    eexists. split; [reflexivity|]. project.
    rewrite mem_read_write_same.
    assert (Hsw : len (ByteSwap payload (Z.to_nat (elem_bytes_of arr))
                         (Z.to_nat (len payload / elem_bytes_of arr))) = len payload).
    { unfold len. now rewrite length_ByteSwap. }
    split; [apply mem_read_write_len; exact Hsw|].
    split.
    { intros a Hout. rewrite mem_write_outside by (rewrite Hsw; exact Hout).
      now apply mem_write_outside. }
    repeat split; reflexivity.
Qed.

(** X12: a [CopyToRemote] packet for a CPU tensor served by a local session
    is written straight into the tensor: afterwards the memory from
    [data + byte_offset] on holds the payload (element-swapped on a host
    that swaps), no byte outside that range has changed, nothing was staged
    and no asynchronous request was made, the reply is one void [Return],
    and the handler is idle with the rest of the input untouched. *)
Theorem copy_to_remote_direct (X : Externals) (e e1 : Endpoint) (arr : DLTensor)
    (sess : RPCSession) (payload rest : list byte) :
  RPCReference_ReceiveDLTensor X e = Ok arr e1 ->
  reader_ e1 = le_bytes 8 (len payload) ++ payload ++ rest ->
  pending_request_bytes_ e1 = 8 + len payload ->
  len payload < 2 ^ 64 ->
  serving_session_ e1 = Some sess ->
  negb (IsAsync sess) || async_server_mode_ e1 = true ->
  state_ e1 <> kWaitForAsyncCallback ->
  device_type (device arr) = kDLCPU ->
  IsLocalSession sess = true ->
  DMLC_IO_NO_ENDIAN_SWAP X = true \/ elem_bytes_of arr <> 0 ->
  exists e2 : Endpoint,
    HandleCopyToRemote X e = Ok tt e2 /\
    mem_read (memory_ e2) (wrap64 (data arr + byte_offset arr)) (len payload) =
      as_stored X (elem_bytes_of arr) payload /\
    (forall a : Z,
        a < wrap64 (data arr + byte_offset arr) \/
        wrap64 (data arr + byte_offset arr) + len payload <= a ->
        memory_ e2 a = memory_ e1 a) /\
    writer_ e2 = writer_ e1 ++ return_packet (VoidSeqBytes X) /\
    reader_ e2 = rest /\
    state_ e2 = kRecvPacketNumBytes /\
    history_ e2 = history_ e1 ++ [kRecvPacketNumBytes] /\
    session_requests_ e2 = session_requests_ e1.
Proof.
  exact (HandleCopyToRemote_direct X e e1 arr sess payload rest).
Qed.

(** A server with a local session that has read the opcode of a
    [CopyToRemote] packet bringing four bytes for [cpu_tensor]. *)
Definition awaiting_copy_to_body : Endpoint :=
  set_serving_session (Some Demo.local_session)
    (set_pending (len cpu_tensor_bytes + 8 + 4)
       (set_state kProcessPacket
          (set_reader (cpu_tensor_bytes ++ le_bytes 8 4 ++ [x0a; x0b; x0c; x0d])
             (EventHandler_new (Some {| inbox := []; outbox := [] |})
                "server" "key" Demo.zero_memory)))).

Definition copy_to_body_read : Endpoint :=
  set_pending 12 (set_reader (le_bytes 8 4 ++ [x0a; x0b; x0c; x0d]) awaiting_copy_to_body).

Lemma copy_to_remote_direct_witness :
  exists e2 : Endpoint,
    HandleCopyToRemote (Demo.externals true) awaiting_copy_to_body = Ok tt e2 /\
    mem_read (memory_ e2) (wrap64 (data cpu_tensor + byte_offset cpu_tensor))
      (len [x0a; x0b; x0c; x0d]) =
      as_stored (Demo.externals true) (elem_bytes_of cpu_tensor) [x0a; x0b; x0c; x0d] /\
    (forall a : Z,
        a < wrap64 (data cpu_tensor + byte_offset cpu_tensor) \/
        wrap64 (data cpu_tensor + byte_offset cpu_tensor) + len [x0a; x0b; x0c; x0d] <= a ->
        memory_ e2 a = memory_ copy_to_body_read a) /\
    writer_ e2 =
      writer_ copy_to_body_read ++ return_packet (VoidSeqBytes (Demo.externals true)) /\
    reader_ e2 = [] /\
    state_ e2 = kRecvPacketNumBytes /\
    history_ e2 = history_ copy_to_body_read ++ [kRecvPacketNumBytes] /\
    session_requests_ e2 = session_requests_ copy_to_body_read.
Proof.
  apply (copy_to_remote_direct (Demo.externals true) awaiting_copy_to_body
           copy_to_body_read cpu_tensor Demo.local_session [x0a; x0b; x0c; x0d] []).
  - vm_compute. reflexivity.
  - reflexivity.
  - reflexivity.
  - vm_compute. reflexivity.
  - reflexivity.
  - reflexivity.
  - discriminate.
  - reflexivity.
  - reflexivity.
  - left. reflexivity.
Defined.




(** The two packets, run one after the other on the same server: the
    second reply carries the four bytes the first packet brought. *)
Example copy_round_trip_run :
  exists e2 e3 : Endpoint,
    HandleCopyToRemote (Demo.externals true) awaiting_copy_to_body = Ok tt e2 /\
    HandleCopyFromRemote (Demo.externals true)
      (set_pending (len cpu_tensor_bytes + 8)
         (set_state kProcessPacket
            (set_writer [] (set_reader (cpu_tensor_bytes ++ le_bytes 8 4) e2)))) =
      Ok tt e3 /\
    writer_ e3 = le_bytes 8 8 ++ le_bytes 4 kCopyAck ++ [x0a; x0b; x0c; x0d].
Proof.
  eexists. eexists. split; [vm_compute; reflexivity|].
  split; [vm_compute; reflexivity|]. reflexivity.
Qed.

(* ================================================================= *)
(** ** RPCEndpoint: the facade *)

(** What follows a run of the drive loop. *)
Definition drive_then {A : Type} (r : option (Res Z)) (k : Z -> M A) : option (Res A) :=
  match r with
  | None => None
  | Some (Throw msg e) => Some (Throw msg e)
  | Some (Ok code e) => Some (k code e)
  end.

(** The [setreturn] of the callers that ignore the value. *)
Definition ignore_return : option (list Any -> M unit) := Some (fun _ => ret tt).

Module RPCEndpoint.
Section Facade.

Variable X : Externals.

(** Helpers of headers that are not part of the sources: the wire image
    [RPCReference::SendDLTensor] writes for a tensor descriptor, and
    [GetDataSize], the byte size of a tensor. *)
Variable SendDLTensorBytes : DLTensor -> list byte.
Variable GetDataSize : DLTensor -> Z.

(** The global functions ["tvm.rpc.server.start"] and
    ["tvm.rpc.server.shutdown"], when registered, and [fcleanup_]. *)
Variables start_hook shutdown_hook fcleanup_ : option (M unit).

Definition run_hook (h : option (M unit)) : M unit :=
  match h with
  | Some f => f
  | None => ret tt
  end.

(** [Shutdown].  The result also hands back the channel as it is when it
    is released, so that what went out can be told. *)
Definition Shutdown (e : Endpoint) : option RPCChannel * Endpoint :=
  match channel_ e with
  | None => (None, e)
  | Some _ =>
      let code := kShutdown in
      let packet_nbytes := 4 in
      match (Write_u64 packet_nbytes ;;; Write_code code ;;;
             try_catch flush_writer_ (fun _ => ret tt)) e with
      | Ok _ e' => (channel_ e', set_channel None e')
      | Throw _ e' => (channel_ e', set_channel None e')
      end
  end.

(** [ServerLoop] *)
Definition ServerLoop (fuel : nat) (e : Endpoint) : option (Res unit) :=
  match run_hook start_hook e with
  | Throw msg e1 => Some (Throw msg e1)
  | Ok _ e1 =>
      drive_then (HandleUntilReturnEvent X fuel false ignore_return e1)
        (fun code =>
           ICHECK (code =? kShutdown)
                  "Check failed: HandleUntilReturnEvent(...) == RPCCode::kShutdown" ;;;
           run_hook shutdown_hook ;;;
           modify (set_channel None) ;;;
           run_hook fcleanup_)
  end.

(** [ServerAsyncIOEventHandler]; the channel takes every byte offered. *)
Definition ServerAsyncIOEventHandler (fuel : nat) (in_bytes : list byte) (event_flag : Z)
    (e : Endpoint) : option (Res Z) :=
  let fed :=
    if negb (len in_bytes =? 0)
    then HandleNextEvent X fuel false true ignore_return
           (set_reader (RingBuffer_Write in_bytes (reader_ e)) e)
    else Some (Ok kNone e) in
  drive_then fed
    (fun code =>
       (e1 <- get ;;
        if negb (Z.land event_flag 2 =? 0) && negb (bytes_available (writer_ e1) =? 0)
        then flush_writer_
        else ret tt) ;;;
       ICHECK (negb (code =? kReturn) && negb (code =? kCopyAck))
              "Check failed: code != RPCCode::kReturn && code != RPCCode::kCopyAck" ;;;
       e2 <- get ;;
       if code =? kShutdown then ret 0
       else if negb (bytes_available (writer_ e2) =? 0) then ret 2
       else ret 1).

(** The packed sequence as [SendPackedSeq] writes it; the dry run that
    computes the packet length refuses what cannot be sent before anything
    is written. *)
Definition packed_body (args : list Any) : M (list byte) :=
  match PackedSeqBytes X args with
  | Some body => ret body
  | None => throw "ValueError: Object type is not supported in RPC calling convention"
  end.

(** [InitRemoteSession] *)
Definition InitRemoteSession (fuel : nat) (args : list Any) (e : Endpoint)
    : option (Res unit) :=
  let code := kInitServer in
  let protocol_ver := list_byte_of_string (kRPCProtocolVer X) in
  let length := len protocol_ver in
  match (body <- packed_body args ;;
         let packet_nbytes := wrap64 (4 + 8 + length + len body) in
         Write_u64 packet_nbytes ;;;
         Write_code code ;;;
         Write_u64 length ;;;
         WriteArray protocol_ver ;;;
         Write body) e with
  | Throw msg e1 => Some (Throw msg e1)
  | Ok _ e1 =>
      drive_then (HandleUntilReturnEvent X fuel true ignore_return e1)
        (fun code => ICHECK (code =? kReturn) "Check failed: code == RPCCode::kReturn")
  end.

(** [CallFunc] *)
Definition CallFunc (fuel : nat) (h : Z) (args : list Any)
    (encode_return : option (list Any -> M unit)) (e : Endpoint) : option (Res unit) :=
  let code := kCallFunc in
  match (ValidateArguments X args ;;;
         body <- packed_body args ;;
         let packet_nbytes := wrap64 (4 + 8 + len body) in
         Write_u64 packet_nbytes ;;;
         Write_code code ;;;
         Write_u64 h ;;;
         Write body) e with
  | Throw msg e1 => Some (Throw msg e1)
  | Ok _ e1 =>
      drive_then (HandleUntilReturnEvent X fuel true encode_return e1)
        (fun code => ICHECK (code =? kReturn) "Check failed: code == RPCCode::kReturn")
  end.

(** [CopyToRemote]; [from_bytes] is the address of the local bytes. *)
Definition CopyToRemote (fuel : nat) (from_bytes : Z) (to : DLTensor) (nbytes : Z)
    (e : Endpoint) : option (Res unit) :=
  let code := kCopyToRemote in
  let tensor_total_size_bytes := wrap64 (GetDataSize to) in
  if negb (wrap64 (byte_offset to + nbytes) <=? tensor_total_size_bytes)
  then Some (Throw "CopyToRemote: overflow in tensor size" e)
  else
    let overhead := RemoteCopyCalculatePacketOverheadSize to code nbytes in
    let packet_nbytes := wrap64 (overhead + nbytes) in
    match (Write_u64 packet_nbytes ;;;
           Write_code code ;;;
           Write (SendDLTensorBytes to) ;;;
           Write_u64 nbytes ;;;
           (e0 <- get ;; WriteArray (mem_read (memory_ e0) from_bytes nbytes))) e with
    | Throw msg e1 => Some (Throw msg e1)
    | Ok _ e1 =>
        drive_then (HandleUntilReturnEvent X fuel true ignore_return e1)
          (fun code => ICHECK (code =? kReturn) "Check failed: ... == RPCCode::kReturn")
    end.

(** [CopyFromRemote]; [to_bytes] is the address of the local buffer. *)
Definition CopyFromRemote (fuel : nat) (from : DLTensor) (to_bytes : Z) (nbytes : Z)
    (e : Endpoint) : option (Res unit) :=
  let code := kCopyFromRemote in
  let tensor_total_size_bytes := wrap64 (GetDataSize from) in
  if negb (wrap64 (byte_offset from + nbytes) <=? tensor_total_size_bytes)
  then Some (Throw "CopyFromRemote: overflow in tensor size" e)
  else
    let overhead := RemoteCopyCalculatePacketOverheadSize from code nbytes in
    let packet_nbytes := overhead in
    match (Write_u64 packet_nbytes ;;;
           Write_code code ;;;
           Write (SendDLTensorBytes from) ;;;
           Write_u64 nbytes) e with
    | Throw msg e1 => Some (Throw msg e1)
    | Ok _ e1 =>
        drive_then (HandleUntilReturnEvent X fuel true ignore_return e1)
          (fun code =>
             ICHECK (code =? kCopyAck) "Check failed: ... == RPCCode::kCopyAck" ;;;
             bs <- ReadArray nbytes ;;
             store_bytes to_bytes bs ;;;
             FinishCopyAck)
    end.

End Facade.
End RPCEndpoint.

(* ================================================================= *)
(** ** Turns of the event loop on the pieces of a packet *)

Section Turns.

Variable X : Externals.
Variable setreturn : option (list Any -> M unit).

Lemma body_length_prefix (e : Endpoint) (n : Z) (rest : list byte) :
  state_ e = kRecvPacketNumBytes ->
  pending_request_bytes_ e = 8 ->
  reader_ e = le_bytes 8 n ++ rest ->
  0 < n < 2 ^ 64 ->
  HandleNextEvent_body X setreturn e =
    Ok kNone (set_pending n (enter kProcessPacket (set_reader rest e))).
Proof.
  intros Hs Hp Hr Hn. unfold HandleNextEvent_body. unfold bind at 1, get. rewrite Hs.
  unfold bind at 1. unfold bind at 1.
  rewrite (Read_u64_front n rest e) by (try assumption; lia).
  destruct (Z.eqb_spec n 0) as [|_]; [lia|]. cbn [negb].
  unfold bind at 1.
  rewrite SwitchToState_plain;
    [|left; project; lia|project; rewrite Hs; discriminate|discriminate|discriminate].
  run_monad. f_equal. endpoint_ext. rewrite Hp.
  replace (8 - 8 + n) with n by lia. apply wrap64_small. lia.
Qed.

Lemma body_copy_ack (e : Endpoint) (rest : list byte) :
  state_ e = kProcessPacket ->
  reader_ e = le_bytes 4 kCopyAck ++ rest ->
  4 <= pending_request_bytes_ e ->
  HandleNextEvent_body X setreturn e =
    Ok kNone (enter kCopyAckReceived
                (set_pending (pending_request_bytes_ e - 4) (set_reader rest e))).
Proof.
  intros Hs Hr Hp. unfold HandleNextEvent_body. unfold bind at 1, get. rewrite Hs.
  unfold bind at 1, HandleProcessPacket, Read_code. unfold bind at 1.
  rewrite (Read_i32_front kCopyAck rest e) by (try assumption; unfold kCopyAck; lia).
  change (kCopyAck >=? kSyscallCodeStart) with false.
  change (kCopyAck =? kInitServer) with false.
  change (kCopyAck =? kCallFunc) with false.
  change (kCopyAck =? kCopyFromRemote) with false.
  change (kCopyAck =? kCopyToRemote) with false.
  change ((kCopyAck =? kException) || (kCopyAck =? kReturn)) with false.
  change (kCopyAck =? kCopyAck) with true. cbv iota.
  rewrite SwitchToState_plain;
    [|right; reflexivity|project; rewrite Hs; discriminate|discriminate|discriminate].
  reflexivity.
Qed.

Lemma body_shutdown (e : Endpoint) (rest : list byte) :
  state_ e = kProcessPacket ->
  reader_ e = le_bytes 4 kShutdown ++ rest ->
  pending_request_bytes_ e = 4 ->
  HandleNextEvent_body X setreturn e =
    Ok kNone (enter kShutdownReceived (set_pending 0 (set_reader rest e))).
Proof.
  intros Hs Hr Hp. unfold HandleNextEvent_body. unfold bind at 1, get. rewrite Hs.
  unfold bind at 1, HandleProcessPacket, Read_code. unfold bind at 1.
  rewrite (Read_i32_front kShutdown rest e) by (try assumption; unfold kShutdown; lia).
  change (kShutdown >=? kSyscallCodeStart) with false.
  change (kShutdown =? kInitServer) with false.
  change (kShutdown =? kCallFunc) with false.
  change (kShutdown =? kCopyFromRemote) with false.
  change (kShutdown =? kCopyToRemote) with false.
  change ((kShutdown =? kException) || (kShutdown =? kReturn)) with false.
  change (kShutdown =? kCopyAck) with false.
  change (kShutdown =? kShutdown) with true. cbv iota.
  rewrite SwitchToState_plain;
    [|left; project; lia|project; rewrite Hs; discriminate|discriminate|discriminate].
  rewrite Hp. reflexivity.
Qed.

(** One turn, after which the loop has to wait. *)
Lemma HandleNextEvent_turn_then_wait (fuel : nat) (client_mode async_server_mode : bool)
    (e e' : Endpoint) :
  state_ e <> kWaitForAsyncCallback ->
  Ready e = true ->
  HandleNextEvent_body X setreturn (set_modes client_mode async_server_mode e) =
    Ok kNone e' ->
  state_ e' = kWaitForAsyncCallback \/ Ready e' = false ->
  HandleNextEvent X (S fuel) client_mode async_server_mode setreturn e =
    Some (Ok kNone (set_modes (client_mode_ e) (async_server_mode_ e) e')).
Proof.
  intros Hs Hr Hbody Hstop. unfold HandleNextEvent. cbn [HandleNextEvent_loop].
  change (Ready (set_modes client_mode async_server_mode e)) with (Ready e).
  rewrite Hr. project.
  destruct (State_eqb (state_ e) kWaitForAsyncCallback) eqn:E;
    [destruct (state_ e); try discriminate; contradiction|].
  change (kNone =? kNone) with true. cbn [negb andb].
  rewrite Hbody. rewrite HandleNextEvent_loop_exit; [reflexivity|].
  destruct Hstop as [Hw|Hn].
  - rewrite Hw. cbn [State_eqb negb]. now rewrite Bool.andb_false_r.
  - rewrite Hn. apply Bool.andb_false_r.
Qed.

(** Two turns, the second of which reports an event. *)
Lemma HandleNextEvent_two_turns (fuel : nat) (client_mode async_server_mode : bool)
    (e e1 e2 : Endpoint) (status : Z) :
  state_ e <> kWaitForAsyncCallback ->
  Ready e = true ->
  HandleNextEvent_body X setreturn (set_modes client_mode async_server_mode e) =
    Ok kNone e1 ->
  state_ e1 <> kWaitForAsyncCallback ->
  Ready e1 = true ->
  HandleNextEvent_body X setreturn e1 = Ok status e2 ->
  status <> kNone ->
  HandleNextEvent X (S (S fuel)) client_mode async_server_mode setreturn e =
    Some (Ok status (set_modes (client_mode_ e) (async_server_mode_ e) e2)).
Proof.
  intros Hs Hr Hbody Hs1 Hr1 Hbody1 Hst. unfold HandleNextEvent.
  cbn [HandleNextEvent_loop].
  change (Ready (set_modes client_mode async_server_mode e)) with (Ready e).
  rewrite Hr. project.
  destruct (State_eqb (state_ e) kWaitForAsyncCallback) eqn:E;
    [destruct (state_ e); try discriminate; contradiction|].
  change (kNone =? kNone) with true. cbn [negb andb].
  rewrite Hbody. rewrite Hr1.
  destruct (State_eqb (state_ e1) kWaitForAsyncCallback) eqn:E1;
    [destruct (state_ e1); try discriminate; contradiction|].
  cbn [negb andb]. rewrite Hbody1.
  rewrite HandleNextEvent_loop_exit; [reflexivity|].
  destruct (Z.eqb_spec status kNone); [contradiction|reflexivity].
Qed.

End Turns.

(* ================================================================= *)
(** ** Turns of the drive loop *)

Lemma channel_Recv_front (a b : list byte) (more : list (list byte)) (ob : list byte) :
  channel_Recv (len a) {| inbox := (a ++ b) :: more; outbox := ob |} =
    (a, {| inbox := match b with [] => more | _ :: _ => b :: more end; outbox := ob |}).
Proof.
  unfold channel_Recv. cbn [inbox outbox].
  rewrite take_app_len, drop_app_len. now destruct b.
Qed.

(** A turn of the drive loop in which the channel delivers [got]. *)
Lemma drive_turn (X : Externals) (fuel : nat) (client_mode : bool)
    (setreturn : option (list Any -> M unit)) (code : Z) (e : Endpoint)
    (ch ch' : RPCChannel) (got : list byte) :
  code <> kReturn -> code <> kShutdown -> code <> kCopyAck ->
  channel_ (after_flush e) = Some ch ->
  flush_writer_ e = Ok tt (after_flush e) ->
  BytesNeeded e <> 0 ->
  channel_Recv (BytesNeeded e) ch = (got, ch') ->
  got <> [] ->
  HandleUntilReturnEvent_loop X (S fuel) client_mode setreturn code e =
    match HandleNextEvent X (S fuel) client_mode false setreturn
            (set_reader (reader_ e ++ got) (set_channel (Some ch') (after_flush e))) with
    | None => None
    | Some (Throw msg e3) => Some (Throw msg e3)
    | Some (Ok code' e3) =>
        HandleUntilReturnEvent_loop X fuel client_mode setreturn code' e3
    end.
Proof.
  intros Hc1 Hc2 Hc3 Hch Hflush Hneed Hrecv Hgot.
  cbn [HandleUntilReturnEvent_loop].
  destruct (Z.eqb_spec code kReturn) as [|_]; [contradiction|].
  destruct (Z.eqb_spec code kShutdown) as [|_]; [contradiction|].
  destruct (Z.eqb_spec code kCopyAck) as [|_]; [contradiction|].
  cbn [negb andb]. rewrite Hflush.
  assert (Hb : BytesNeeded (after_flush e) = BytesNeeded e).
  { unfold after_flush, BytesNeeded.
    destruct (writer_ e); [reflexivity|]. now destruct (channel_ e). }
  assert (Hrd : reader_ (after_flush e) = reader_ e).
  { unfold after_flush. destruct (writer_ e); [reflexivity|]. now destruct (channel_ e). }
  rewrite Hb.
  destruct (Z.eqb_spec (BytesNeeded e) 0) as [|_]; [contradiction|]. cbn [negb].
  unfold receive_needed. unfold bind at 1, get. rewrite Hch, Hrecv.
  unfold bind at 1, modify at 1.
  destruct (Z.eqb_spec (len got) 0) as [Hz|_].
  { destruct got; [contradiction|]. unfold len in Hz. cbn [List.length] in Hz. lia. }
  unfold ret. rewrite Hrd. reflexivity.
Qed.

Lemma drive_exit (X : Externals) (fuel : nat) (client_mode : bool)
    (setreturn : option (list Any -> M unit)) (code : Z) (e : Endpoint) :
  code = kReturn \/ code = kShutdown \/ code = kCopyAck ->
  HandleUntilReturnEvent_loop X fuel client_mode setreturn code e = Some (Ok code e).
Proof.
  intro H. destruct fuel; cbn [HandleUntilReturnEvent_loop];
    destruct H as [H|[H|H]]; subst code; reflexivity.
Qed.

(* ================================================================= *)
(** ** Shutdown, sent and received *)

Definition shutdown_packet : list byte := le_bytes 8 4 ++ le_bytes 4 kShutdown.

Definition connection_closed_message : string :=
  "Expected connection to server to be active, but the connection was previously closed".

Lemma after_flush_channel (e : Endpoint) (ch : RPCChannel) :
  channel_ e = Some ch ->
  after_flush e =
    set_writer []
      (set_channel (Some {| inbox := inbox ch; outbox := outbox ch ++ writer_ e |}) e).
Proof.
  intro Hc. unfold after_flush. rewrite Hc.
  destruct e as [st step cm am ar oa pend ss nm rd wr rk c mem sr hist].
  cbn in Hc. subst c. destruct ch as [ib ob]. destruct wr; [|reflexivity].
  cbn. now rewrite app_nil_r.
Qed.

(** X14: [Shutdown] on an endpoint with a live channel appends the
    [Shutdown] packet to whatever is still in the writer, pushes all of it
    to the channel and releases the channel.  It is idempotent: on an
    endpoint without a channel it does nothing.  After it, every use of the
    drive loop is refused with the connection-closed error. *)
Theorem shutdown_releases_channel (X : Externals) (fuel : nat) (client_mode : bool)
    (setreturn : option (list Any -> M unit)) (e : Endpoint) (ch : RPCChannel) :
  channel_ e = Some ch ->
  RPCEndpoint.Shutdown e =
    (Some {| inbox := inbox ch; outbox := outbox ch ++ writer_ e ++ shutdown_packet |},
     set_channel None (set_writer [] e)) /\
  RPCEndpoint.Shutdown (set_channel None (set_writer [] e)) =
    (None, set_channel None (set_writer [] e)) /\
  HandleUntilReturnEvent X fuel client_mode setreturn (set_channel None (set_writer [] e)) =
    Some (Throw connection_closed_message (set_channel None (set_writer [] e))).
Proof.
  intro Hc. split; [|split; reflexivity].
  unfold RPCEndpoint.Shutdown. rewrite Hc.
  unfold bind at 1, Write_u64, Write at 1, modify at 1.
  unfold bind at 1, Write_code, Write_i32, Write at 1, modify at 1.
  unfold try_catch.
  match goal with
  | |- context [flush_writer_ ?s] =>
      destruct (flush_writer_channel s ch) as (Hflush & _); [exact Hc|];
      rewrite Hflush; rewrite (after_flush_channel s ch) by exact Hc
  end.
  project. unfold RingBuffer_Write, shutdown_packet. rewrite <- !app_assoc.
  f_equal.
Qed.

Lemma shutdown_releases_channel_witness :
  RPCEndpoint.Shutdown
    (EventHandler_new (Some {| inbox := []; outbox := [x07] |})
       "client" "key" Demo.zero_memory) =
    (Some {| inbox := inbox {| inbox := []; outbox := [x07] |};
             outbox := outbox {| inbox := []; outbox := [x07] |}
                       ++ writer_ (EventHandler_new (Some {| inbox := []; outbox := [x07] |})
                                     "client" "key" Demo.zero_memory)
                       ++ shutdown_packet |},
     set_channel None
       (set_writer [] (EventHandler_new (Some {| inbox := []; outbox := [x07] |})
                         "client" "key" Demo.zero_memory))).
Proof.
  refine (proj1 (shutdown_releases_channel (Demo.externals true) 1 true None
                   (EventHandler_new (Some {| inbox := []; outbox := [x07] |})
                      "client" "key" Demo.zero_memory)
                   {| inbox := []; outbox := [x07] |} _)).
  reflexivity.
Defined.

Lemma le_bytes_cons (n : nat) (v : Z) :
  le_bytes (S n) v = byte_of_Z v :: le_bytes n (v / 256).
Proof. reflexivity. Qed.

(** The idle server once the [Shutdown] packet has been taken in: the
    writer has gone out, the packet is off the channel. *)
Definition shut_down (e : Endpoint) (ib : list (list byte)) (ob : list byte) : Endpoint :=
  enter kShutdownReceived
    (enter kProcessPacket
       (set_pending 0
          (set_writer []
             (set_channel (Some {| inbox := ib; outbox := ob ++ writer_ e |}) e)))).

(** An idle endpoint whose channel delivers a [Shutdown] packet. *)
Lemma drive_until_shutdown (X : Externals) (fuel : nat) (client_mode : bool)
    (setreturn : option (list Any -> M unit)) (e : Endpoint)
    (tail : list byte) (more : list (list byte)) (ob : list byte) :
  state_ e = kRecvPacketNumBytes ->
  pending_request_bytes_ e = 8 ->
  reader_ e = [] ->
  channel_ e = Some {| inbox := (shutdown_packet ++ tail) :: more; outbox := ob |} ->
  HandleUntilReturnEvent X (S (S (S fuel))) client_mode setreturn e =
    Some (Ok kShutdown
            (shut_down e (match tail with [] => more | _ :: _ => tail :: more end) ob)).
Proof.
  intros Hs Hp Hr Hc.
  unfold HandleUntilReturnEvent. rewrite Hc.
  destruct (flush_writer_channel e _ Hc) as (Hflush & _).
  pose proof (after_flush_channel e _ Hc) as Haf. cbn [inbox outbox] in Haf.
  assert (Hneed : BytesNeeded e = 8).
  { unfold BytesNeeded, bytes_available. rewrite Hr, Hp. reflexivity. }
  (* first turn: the length prefix *)
  rewrite (drive_turn X (S (S fuel)) client_mode setreturn kCallFunc e
             {| inbox := (shutdown_packet ++ tail) :: more; outbox := ob ++ writer_ e |}
             {| inbox := (le_bytes 4 kShutdown ++ tail) :: more; outbox := ob ++ writer_ e |}
             (le_bytes 8 4));
    try discriminate; try assumption.
  2: { rewrite Haf. reflexivity. }
  2: { rewrite Hneed. discriminate. }
  2: { rewrite Hneed. unfold shutdown_packet. rewrite <- app_assoc.
       change 8 with (len (le_bytes 8 4)).
       rewrite channel_Recv_front. rewrite le_bytes_cons. reflexivity. }
  rewrite Haf, Hr. cbn [app].
  rewrite (HandleNextEvent_turn_then_wait X setreturn (S (S fuel)) client_mode false _
             (set_pending 4 (enter kProcessPacket
                (set_reader []
                   (set_modes client_mode false
                      (set_reader (le_bytes 8 4)
                         (set_channel
                            (Some {| inbox := (le_bytes 4 kShutdown ++ tail) :: more;
                                     outbox := ob ++ writer_ e |})
                            (set_writer []
                               (set_channel
                                  (Some {| inbox := (shutdown_packet ++ tail) :: more;
                                           outbox := ob ++ writer_ e |}) e)))))))));
    [|project; rewrite Hs; discriminate
     |unfold Ready, bytes_available; project; rewrite Hp; reflexivity
     |apply body_length_prefix;
        [project; exact Hs|project; exact Hp|project; now rewrite app_nil_r|lia]
     |right; reflexivity].
  (* second turn: the opcode *)
  match goal with
  | |- HandleUntilReturnEvent_loop _ _ _ _ _ ?s = _ => set (e3 := s)
  end.
  assert (Hc3 : channel_ e3 =
                Some {| inbox := (le_bytes 4 kShutdown ++ tail) :: more;
                        outbox := ob ++ writer_ e |}) by reflexivity.
  assert (Hw3 : writer_ e3 = []) by reflexivity.
  assert (Haf3 : after_flush e3 = e3) by (unfold after_flush; now rewrite Hw3).
  assert (Hneed3 : BytesNeeded e3 = 4) by reflexivity.
  rewrite (drive_turn X (S fuel) client_mode setreturn kNone e3
             {| inbox := (le_bytes 4 kShutdown ++ tail) :: more; outbox := ob ++ writer_ e |}
             {| inbox := match tail with [] => more | _ :: _ => tail :: more end;
                outbox := ob ++ writer_ e |}
             (le_bytes 4 kShutdown));
    try discriminate;
    try (now rewrite Haf3);
    try (unfold flush_writer_; now rewrite Hw3, Haf3);
    try (rewrite Hneed3; discriminate);
    try (rewrite Hneed3; change 4 with (len (le_bytes 4 kShutdown));
         apply channel_Recv_front).
  rewrite Haf3.
  rewrite (HandleNextEvent_two_turns X setreturn fuel client_mode false _
             (enter kShutdownReceived
                (set_pending 0
                   (set_reader []
                      (set_modes client_mode false
                         (set_reader (reader_ e3 ++ le_bytes 4 kShutdown)
                            (set_channel
                               (Some {| inbox := match tail with
                                                 | [] => more
                                                 | _ :: _ => tail :: more
                                                 end;
                                        outbox := ob ++ writer_ e |}) e3))))))
             (enter kShutdownReceived
                (set_pending 0
                   (set_reader []
                      (set_modes client_mode false
                         (set_reader (reader_ e3 ++ le_bytes 4 kShutdown)
                            (set_channel
                               (Some {| inbox := match tail with
                                                 | [] => more
                                                 | _ :: _ => tail :: more
                                                 end;
                                        outbox := ob ++ writer_ e |}) e3))))))
             kShutdown);
    [|discriminate|reflexivity
     |apply body_shutdown; [reflexivity|project; now rewrite app_nil_r|reflexivity]
     |discriminate|reflexivity|reflexivity|discriminate].
  rewrite drive_exit by (right; left; reflexivity).
  do 2 f_equal. unfold shut_down, e3. endpoint_ext. now rewrite Hr.
Qed.

(** X15: what [Shutdown] sends stops the peer.  A client with an empty
    writer pushes exactly the [Shutdown] packet; an idle server whose
    channel delivers that packet, with no hooks registered, leaves its drive
    loop with [kShutdown], and [ServerLoop] returns normally with the
    channel released and the handler in [kShutdownReceived]; what the
    server still had in its writer has gone out first. *)
Theorem shutdown_stops_server_loop (X : Externals) (fuel : nat)
    (client server : Endpoint) (cch : RPCChannel)
    (tail : list byte) (more : list (list byte)) (ob : list byte) :
  channel_ client = Some cch ->
  writer_ client = [] ->
  state_ server = kRecvPacketNumBytes ->
  pending_request_bytes_ server = 8 ->
  reader_ server = [] ->
  channel_ server = Some {| inbox := (shutdown_packet ++ tail) :: more; outbox := ob |} ->
  fst (RPCEndpoint.Shutdown client) =
    Some {| inbox := inbox cch; outbox := outbox cch ++ shutdown_packet |} /\
  HandleUntilReturnEvent X (S (S (S fuel))) false ignore_return server =
    Some (Ok kShutdown
            (shut_down server (match tail with [] => more | _ :: _ => tail :: more end) ob)) /\
  RPCEndpoint.ServerLoop X None None None (S (S (S fuel))) server =
    Some (Ok tt (set_channel None
                   (shut_down server
                      (match tail with [] => more | _ :: _ => tail :: more end) ob))).
Proof.
  intros Hcc Hcw Hs Hp Hr Hc. split; [|split].
  - unfold RPCEndpoint.Shutdown. rewrite Hcc.
    unfold bind at 1, Write_u64, Write at 1, modify at 1.
    unfold bind at 1, Write_code, Write_i32, Write at 1, modify at 1.
    unfold try_catch.
    match goal with
    | |- context [flush_writer_ ?s] =>
        destruct (flush_writer_channel s cch) as (Hflush & _); [exact Hcc|];
        rewrite Hflush; rewrite (after_flush_channel s cch) by exact Hcc
    end.
    project. cbn [fst]. unfold RingBuffer_Write, shutdown_packet.
    rewrite Hcw. cbn [app]. reflexivity.
  - now apply drive_until_shutdown.
  - unfold RPCEndpoint.ServerLoop, RPCEndpoint.run_hook. unfold ret at 1.
    rewrite (drive_until_shutdown X fuel false ignore_return server tail more ob)
      by assumption.
    unfold drive_then. change (kShutdown =? kShutdown) with true.
    unfold ICHECK. run_monad. reflexivity.
Qed.

Lemma shutdown_stops_server_loop_witness :
  RPCEndpoint.ServerLoop (Demo.externals true) None None None 3
    (EventHandler_new (Some {| inbox := [shutdown_packet ++ []]; outbox := [] |})
       "server" "key" Demo.zero_memory) =
    Some (Ok tt
            (set_channel None
               (shut_down
                  (EventHandler_new (Some {| inbox := [shutdown_packet ++ []]; outbox := [] |})
                     "server" "key" Demo.zero_memory)
                  [] []))).
Proof.
  refine (proj2 (proj2
            (shutdown_stops_server_loop (Demo.externals true) 0
               (EventHandler_new (Some {| inbox := []; outbox := [] |})
                  "client" "key" Demo.zero_memory)
               (EventHandler_new (Some {| inbox := [shutdown_packet ++ []]; outbox := [] |})
                  "server" "key" Demo.zero_memory)
               {| inbox := []; outbox := [] |} [] [] [] _ _ _ _ _ _))); reflexivity.
Defined.

(* ================================================================= *)
(** ** CopyFromRemote on the calling side *)

(** The idle client once a [CopyAck] packet has been taken in up to its
    payload. *)
Definition copy_ack_arrived (e : Endpoint) (payload : list byte)
    (ib : list (list byte)) (ob : list byte) : Endpoint :=
  enter kCopyAckReceived
    (enter kProcessPacket
       (set_pending (len payload)
          (set_reader payload
             (set_writer []
                (set_channel (Some {| inbox := ib; outbox := ob ++ writer_ e |}) e))))).

Lemma drive_until_copy_ack (X : Externals) (fuel : nat) (client_mode : bool)
    (setreturn : option (list Any -> M unit)) (e : Endpoint)
    (payload tail : list byte) (more : list (list byte)) (ob : list byte) :
  state_ e = kRecvPacketNumBytes ->
  pending_request_bytes_ e = 8 ->
  reader_ e = [] ->
  4 + len payload < 2 ^ 64 ->
  channel_ e =
    Some {| inbox := (le_bytes 8 (4 + len payload) ++ le_bytes 4 kCopyAck
                      ++ payload ++ tail) :: more;
            outbox := ob |} ->
  HandleUntilReturnEvent X (S (S (S fuel))) client_mode setreturn e =
    Some (Ok kCopyAck
            (copy_ack_arrived e payload
               (match tail with [] => more | _ :: _ => tail :: more end) ob)).
Proof.
  intros Hs Hp Hr Hn Hc. pose proof (len_nonneg payload) as Hl0.
  unfold HandleUntilReturnEvent. rewrite Hc.
  destruct (flush_writer_channel e _ Hc) as (Hflush & _).
  pose proof (after_flush_channel e _ Hc) as Haf. cbn [inbox outbox] in Haf.
  assert (Hneed : BytesNeeded e = 8).
  { unfold BytesNeeded, bytes_available. rewrite Hr, Hp. reflexivity. }
  set (chunk := le_bytes 8 (4 + len payload) ++ le_bytes 4 kCopyAck ++ payload ++ tail) in *.
  rewrite (drive_turn X (S (S fuel)) client_mode setreturn kCallFunc e
             {| inbox := chunk :: more; outbox := ob ++ writer_ e |}
             {| inbox := (le_bytes 4 kCopyAck ++ payload ++ tail) :: more;
                outbox := ob ++ writer_ e |}
             (le_bytes 8 (4 + len payload)));
    try discriminate; try assumption.
  2: { rewrite Haf. reflexivity. }
  2: { rewrite Hneed. discriminate. }
  2: { rewrite Hneed. unfold chunk.
       change 8 with (len (le_bytes 8 (4 + len payload))) at 1.
       rewrite channel_Recv_front. rewrite (le_bytes_cons 3 kCopyAck). reflexivity. }
  rewrite Haf, Hr. cbn [app].
  rewrite (HandleNextEvent_turn_then_wait X setreturn (S (S fuel)) client_mode false _
             (set_pending (4 + len payload) (enter kProcessPacket
                (set_reader []
                   (set_modes client_mode false
                      (set_reader (le_bytes 8 (4 + len payload))
                         (set_channel
                            (Some {| inbox := (le_bytes 4 kCopyAck ++ payload ++ tail) :: more;
                                     outbox := ob ++ writer_ e |})
                            (set_writer []
                               (set_channel
                                  (Some {| inbox := chunk :: more;
                                           outbox := ob ++ writer_ e |}) e)))))))));
    [|project; rewrite Hs; discriminate
     |unfold Ready, bytes_available; project; rewrite Hp, len_le_bytes; reflexivity
     |apply body_length_prefix;
        [project; exact Hs|project; exact Hp|project; now rewrite app_nil_r|lia]
     |right; unfold Ready, bytes_available; project; apply Z.leb_gt; unfold len;
      cbn [List.length]; lia].
  match goal with
  | |- HandleUntilReturnEvent_loop _ _ _ _ _ ?s = _ => set (e3 := s)
  end.
  assert (Hc3 : channel_ e3 =
                Some {| inbox := (le_bytes 4 kCopyAck ++ payload ++ tail) :: more;
                        outbox := ob ++ writer_ e |}) by reflexivity.
  assert (Hw3 : writer_ e3 = []) by reflexivity.
  assert (Haf3 : after_flush e3 = e3) by (unfold after_flush; now rewrite Hw3).
  assert (Hneed3 : BytesNeeded e3 = 4 + len payload).
  { unfold BytesNeeded, bytes_available, e3. project.
    change (len (@nil byte)) with 0.
    destruct (Z.ltb_spec 0 (4 + len payload)) as [_|Hge]; lia. }
  rewrite (drive_turn X (S fuel) client_mode setreturn kNone e3
             {| inbox := (le_bytes 4 kCopyAck ++ payload ++ tail) :: more;
                outbox := ob ++ writer_ e |}
             {| inbox := match tail with [] => more | _ :: _ => tail :: more end;
                outbox := ob ++ writer_ e |}
             (le_bytes 4 kCopyAck ++ payload));
    try discriminate;
    try (now rewrite Haf3);
    try (unfold flush_writer_; now rewrite Hw3, Haf3);
    try (rewrite Hneed3; lia);
    try (rewrite Hneed3;
         replace (4 + len payload) with (len (le_bytes 4 kCopyAck ++ payload))
           by (rewrite len_app, len_le_bytes; lia);
         rewrite (app_assoc (le_bytes 4 kCopyAck) payload tail);
         apply channel_Recv_front);
    try (rewrite le_bytes_cons; discriminate).
  rewrite Haf3.
  rewrite (HandleNextEvent_two_turns X setreturn fuel client_mode false _
             (enter kCopyAckReceived
                (set_pending (len payload)
                   (set_reader payload
                      (set_modes client_mode false
                         (set_reader (reader_ e3 ++ le_bytes 4 kCopyAck ++ payload)
                            (set_channel
                               (Some {| inbox := match tail with
                                                 | [] => more
                                                 | _ :: _ => tail :: more
                                                 end;
                                        outbox := ob ++ writer_ e |}) e3))))))
             (enter kCopyAckReceived
                (set_pending (len payload)
                   (set_reader payload
                      (set_modes client_mode false
                         (set_reader (reader_ e3 ++ le_bytes 4 kCopyAck ++ payload)
                            (set_channel
                               (Some {| inbox := match tail with
                                                 | [] => more
                                                 | _ :: _ => tail :: more
                                                 end;
                                        outbox := ob ++ writer_ e |}) e3))))))
             kCopyAck);
    [|discriminate
     |unfold Ready, bytes_available, e3; project; cbn [app];
      rewrite len_app, len_le_bytes; apply Z.leb_le; lia
     |rewrite (body_copy_ack X setreturn _ payload);
        [repeat f_equal; unfold e3; project; lia
        |reflexivity|reflexivity|unfold e3; project; lia]
     |discriminate
     |unfold Ready, bytes_available; project; apply Z.leb_le; lia
     |reflexivity|discriminate].
  rewrite drive_exit by (right; right; reflexivity).
  apply (f_equal (fun x => Some (Ok kCopyAck x))).
  unfold copy_ack_arrived, e3. endpoint_ext.
Qed.

(** The request [RPCEndpoint::CopyFromRemote] writes for [nbytes] bytes of
    [from], whose descriptor takes [desc] on the wire. *)
Definition copy_from_request (desc : list byte) (from : DLTensor) (nbytes : Z)
    : list byte :=
  le_bytes 8 (RemoteCopyCalculatePacketOverheadSize from kCopyFromRemote nbytes)
  ++ le_bytes 4 kCopyFromRemote ++ desc ++ le_bytes 8 nbytes.

(** X16: [RPCEndpoint::CopyFromRemote] on an idle endpoint, within the
    bounds of the tensor.  The request goes out after whatever was still
    waiting in the writer; when the channel answers with a [CopyAck] packet
    carrying [nbytes] bytes, the call returns, these bytes are in local
    memory from [to_bytes] on and no other address has changed, and the
    handler waits for the next packet with nothing left in its reader. *)
Theorem endpoint_copy_from_remote (X : Externals)
    (SendDLTensorBytes : DLTensor -> list byte) (GetDataSize : DLTensor -> Z)
    (fuel : nat) (from : DLTensor) (to_bytes nbytes : Z) (e : Endpoint)
    (payload tail : list byte) (more : list (list byte)) (ob : list byte) :
  state_ e = kRecvPacketNumBytes ->
  pending_request_bytes_ e = 8 ->
  reader_ e = [] ->
  len payload = nbytes ->
  4 + nbytes < 2 ^ 64 ->
  wrap64 (byte_offset from + nbytes) <= wrap64 (GetDataSize from) ->
  channel_ e =
    Some {| inbox := (le_bytes 8 (4 + nbytes) ++ le_bytes 4 kCopyAck ++ payload ++ tail)
                     :: more;
            outbox := ob |} ->
  exists e' : Endpoint,
    RPCEndpoint.CopyFromRemote X SendDLTensorBytes GetDataSize (S (S (S fuel)))
      from to_bytes nbytes e = Some (Ok tt e') /\
    mem_read (memory_ e') to_bytes nbytes = payload /\
    (forall a : Z, a < to_bytes \/ to_bytes + nbytes <= a -> memory_ e' a = memory_ e a) /\
    state_ e' = kRecvPacketNumBytes /\
    pending_request_bytes_ e' = 8 /\
    reader_ e' = [] /\
    writer_ e' = [] /\
    channel_ e' =
      Some {| inbox := match tail with [] => more | _ :: _ => tail :: more end;
              outbox := ob ++ writer_ e
                        ++ copy_from_request (SendDLTensorBytes from) from nbytes |}.
Proof.
  intros Hs Hp Hr Hlen Hn Hfit Hc. subst nbytes.
  unfold RPCEndpoint.CopyFromRemote.
  destruct (Z.leb_spec (wrap64 (byte_offset from + len payload))
              (wrap64 (GetDataSize from))) as [_|]; [|lia].
  cbn [negb].
  set (e1 := set_writer
               (writer_ e ++ copy_from_request (SendDLTensorBytes from) from (len payload))
               e).
  assert (Hw : (Write_u64 (RemoteCopyCalculatePacketOverheadSize from kCopyFromRemote
                             (len payload)) ;;;
                Write_code kCopyFromRemote ;;;
                Write (SendDLTensorBytes from) ;;;
                Write_u64 (len payload)) e = Ok tt e1).
  { run_monad. f_equal. unfold e1, copy_from_request. endpoint_ext.
    now rewrite <- !app_assoc. }
  rewrite Hw.
  rewrite (drive_until_copy_ack X fuel true ignore_return e1 payload tail more ob);
    try assumption.
  cbn [drive_then]. change (kCopyAck =? kCopyAck) with true.
  unfold ICHECK. unfold bind at 1, ret at 1. unfold bind at 1, ReadArray.
  rewrite (Read_front payload [] (copy_ack_arrived e1 payload _ ob));
    [|unfold copy_ack_arrived; project; now rewrite app_nil_r
     |unfold copy_ack_arrived; project; lia].
  unfold bind at 1, store_bytes, modify at 1. unfold FinishCopyAck.
  rewrite SwitchToState_recv;
    [|unfold copy_ack_arrived; project; lia|unfold copy_ack_arrived; project; discriminate].
  eexists. split; [reflexivity|].
  unfold copy_ack_arrived, e1. project.
  split; [apply mem_read_write_same|].
  split; [intros a Ha; now apply mem_write_outside|].
  repeat split.
Qed.

Lemma endpoint_copy_from_remote_witness :
  exists e' : Endpoint,
    RPCEndpoint.CopyFromRemote (Demo.externals true) (fun _ => cpu_tensor_bytes)
      (fun _ => 16) 3 cpu_tensor 100 4
      (EventHandler_new
         (Some {| inbox := [le_bytes 8 (4 + 4) ++ le_bytes 4 kCopyAck
                            ++ [x0a; x0b; x0c; x0d] ++ []];
                  outbox := [] |})
         "client" "key" Demo.zero_memory) = Some (Ok tt e') /\
    mem_read (memory_ e') 100 4 = [x0a; x0b; x0c; x0d] /\
    (forall a : Z, a < 100 \/ 100 + 4 <= a -> memory_ e' a = Demo.zero_memory a) /\
    state_ e' = kRecvPacketNumBytes /\
    pending_request_bytes_ e' = 8 /\
    reader_ e' = [] /\
    writer_ e' = [] /\
    channel_ e' =
      Some {| inbox := [];
              outbox := [] ++ [] ++ copy_from_request cpu_tensor_bytes cpu_tensor 4 |}.
Proof.
  refine (endpoint_copy_from_remote (Demo.externals true) (fun _ => cpu_tensor_bytes)
            (fun _ => 16) 0 cpu_tensor 100 4
            (EventHandler_new
               (Some {| inbox := [le_bytes 8 (4 + 4) ++ le_bytes 4 kCopyAck
                                  ++ [x0a; x0b; x0c; x0d] ++ []];
                        outbox := [] |})
               "client" "key" Demo.zero_memory)
            [x0a; x0b; x0c; x0d] [] [] [] _ _ _ _ _ _ _);
    try reflexivity.
  vm_compute. discriminate.
Defined.

(* ================================================================= *)
(** ** The chunked copy: the caller's offset, and a failing call *)

(** What a chunked copy did: the message it raised, if any, and the endpoint
    calls in the order they were issued. *)
Definition outcome (r : CopyResult) : option string * list EndpointCopy :=
  match r with
  | CopyDone p => (None, issued p)
  | CopyThrow msg p => (Some msg, issued p)
  end.

(** The tensor the caller is left with. *)
Definition tensor_after (r : CopyResult) : DLTensor :=
  match r with
  | CopyDone p => tensor p
  | CopyThrow _ p => tensor p
  end.

Lemma set_byte_offset_twice (v w : Z) (t : DLTensor) :
  set_byte_offset v (set_byte_offset w t) = set_byte_offset v t.
Proof. reflexivity. Qed.

Section OffsetBlind.

Import RPCClientSession.

Variable endpoint_copy : EndpointCopy -> bool.

(** Two runs agree on the calls so far and on the tensor up to its offset. *)
Definition agree (p q : CopyProgress) : Prop :=
  issued p = issued q /\
  set_byte_offset 0 (tensor p) = set_byte_offset 0 (tensor q).

Lemma agree_set_byte_offset (v : Z) (p q : CopyProgress) :
  agree p q -> set_byte_offset v (tensor p) = set_byte_offset v (tensor q).
Proof.
  intros [_ H].
  rewrite <- (set_byte_offset_twice v 0 (tensor p)), H. apply set_byte_offset_twice.
Qed.

Lemma call_endpoint_agree (c : EndpointCopy) (p q : CopyProgress) :
  issued p = issued q ->
  call_endpoint endpoint_copy c p = call_endpoint endpoint_copy c q.
Proof. intro H. unfold call_endpoint. now rewrite H. Qed.

Lemma copy_blocks_agree (n : nat) :
  forall (block_count block_size local : Z) (p q : CopyProgress),
    agree p q ->
    let rp := copy_blocks endpoint_copy n block_count block_size local p in
    let rq := copy_blocks endpoint_copy n block_count block_size local q in
    snd rp = snd rq /\
    outcome (fst rp) = outcome (fst rq) /\
    match fst rp, fst rq with
    | CopyDone p', CopyDone q' => agree p' q'
    | _, _ => True
    end.
Proof.
  induction n as [|n IH]; intros block_count block_size local p q Hpq; cbn zeta.
  - cbn [copy_blocks fst snd outcome]. destruct Hpq as [Hi Ht].
    repeat split; [now rewrite Hi|exact Hi|exact Ht].
  - cbn [copy_blocks].
    rewrite (agree_set_byte_offset (wrap64 (block_count * block_size)) p q Hpq).
    rewrite (call_endpoint_agree _ p q (proj1 Hpq)).
    destruct (call_endpoint endpoint_copy _ q) as [q'|msg q'].
    + apply (IH (block_count + 1) block_size local q' q'). split; reflexivity.
    + cbn [fst snd]. repeat split.
Qed.

Lemma chunked_copy_agree (code rpc_max_size local : Z) (t : DLTensor) (nbytes v : Z) :
  outcome (chunked_copy endpoint_copy code rpc_max_size local (set_byte_offset v t) nbytes) =
  outcome (chunked_copy endpoint_copy code rpc_max_size local t nbytes).
Proof.
  unfold chunked_copy.
  change (RemoteCopyCalculatePacketOverheadSize (set_byte_offset v t) code nbytes)
    with (RemoteCopyCalculatePacketOverheadSize t code nbytes).
  destruct (negb (rpc_max_size >? RemoteCopyCalculatePacketOverheadSize t code nbytes));
    [reflexivity|].
  set (block_size := wrap64 (rpc_max_size
                             - RemoteCopyCalculatePacketOverheadSize t code nbytes)).
  destruct (copy_blocks_agree (Z.to_nat (nbytes / block_size)) 0 block_size local
              {| tensor := set_byte_offset v t; issued := [] |}
              {| tensor := t; issued := [] |}) as (Hc & Ho & Ha).
  { split; reflexivity. }
  destruct (copy_blocks endpoint_copy _ 0 block_size local
              {| tensor := set_byte_offset v t; issued := [] |}) as [[p'|m p'] c];
    destruct (copy_blocks endpoint_copy _ 0 block_size local
                {| tensor := t; issued := [] |}) as [[q'|m' q'] c'];
    cbn [fst snd outcome] in *; try discriminate; try exact Ho.
  subst c'. destruct (negb (nbytes mod block_size =? 0)); [|exact Ho].
  rewrite (agree_set_byte_offset (wrap64 (c * block_size)) p' q' Ha).
  now rewrite (call_endpoint_agree _ p' q' (proj1 Ha)).
Qed.

(** The tensor a run hands back: the one of the last call issued, or the
    tensor [t0] it started from when it issued none. *)
Definition left_with (t0 : DLTensor) (c0 : EndpointCopy) (r : CopyResult) : Prop :=
  tensor_after r =
    match snd (outcome r) with
    | [] => t0
    | _ :: _ => remote (last (snd (outcome r)) c0)
    end.

Lemma call_endpoint_left_with (t0 : DLTensor) (c0 c : EndpointCopy) (p : CopyProgress) :
  left_with t0 c0 (call_endpoint endpoint_copy c p).
Proof.
  unfold left_with, call_endpoint.
  destruct (endpoint_copy c); cbn [outcome snd issued tensor_after tensor];
    rewrite last_last; now destruct (issued p).
Qed.

Lemma copy_blocks_left_with (t0 : DLTensor) (c0 : EndpointCopy) (n : nat) :
  forall (block_count block_size local : Z) (p : CopyProgress),
    left_with t0 c0 (CopyDone p) ->
    left_with t0 c0 (fst (copy_blocks endpoint_copy n block_count block_size local p)).
Proof.
  induction n as [|n IH]; intros block_count block_size local p Hp; [exact Hp|].
  cbn [copy_blocks].
  match goal with
  | |- context [call_endpoint endpoint_copy ?c p] =>
      pose proof (call_endpoint_left_with t0 c0 c p) as Hc;
      destruct (call_endpoint endpoint_copy c p) as [p'|msg p']
  end.
  - now apply IH.
  - exact Hc.
Qed.

End OffsetBlind.

(** X17: the chunked [CopyToRemote] and [CopyFromRemote] of the client
    session neither read nor restore the [byte_offset] of the caller's
    tensor.  Started from a tensor with any other offset they issue the same
    endpoint calls with the same result; and once a call has been issued the
    caller's tensor is left as it was passed to the last call, so with the
    offset of the last block. *)
Theorem chunked_copy_overwrites_byte_offset (endpoint_copy : EndpointCopy -> bool)
    (code rpc_max_size local : Z) (t : DLTensor) (nbytes v : Z) (c0 : EndpointCopy) :
  let r := RPCClientSession.chunked_copy endpoint_copy code rpc_max_size local t nbytes in
  outcome (RPCClientSession.chunked_copy endpoint_copy code rpc_max_size local
             (set_byte_offset v t) nbytes) = outcome r /\
  tensor_after r =
    match snd (outcome r) with
    | [] => t
    | _ :: _ => remote (last (snd (outcome r)) c0)
    end.
Proof.
  cbn zeta. split; [apply chunked_copy_agree|].
  change (left_with t c0
            (RPCClientSession.chunked_copy endpoint_copy code rpc_max_size local t nbytes)).
  unfold RPCClientSession.chunked_copy.
  destruct (negb (rpc_max_size >? RemoteCopyCalculatePacketOverheadSize t code nbytes));
    [reflexivity|].
  set (block_size := wrap64 (rpc_max_size
                             - RemoteCopyCalculatePacketOverheadSize t code nbytes)).
  pose proof (copy_blocks_left_with endpoint_copy t c0 (Z.to_nat (nbytes / block_size)) 0
                block_size local {| tensor := t; issued := [] |}) as H.
  destruct (RPCClientSession.copy_blocks endpoint_copy (Z.to_nat (nbytes / block_size)) 0
              block_size local {| tensor := t; issued := [] |}) as [[p'|m p'] c];
    cbn [fst] in H.
  - destruct (negb (nbytes mod block_size =? 0)).
    + apply call_endpoint_left_with.
    + now apply H.
  - now apply H.
Qed.

Section FailingCall.

Import RPCClientSession.

Variable endpoint_copy : EndpointCopy -> bool.

(** Every call issued returned, except that a run that raised did so in its
    last call. *)
Definition stopped_at_failure (r : CopyResult) : Prop :=
  match r with
  | CopyDone p => forallb endpoint_copy (issued p) = true
  | CopyThrow _ p =>
      exists (before : list EndpointCopy) (c : EndpointCopy),
        issued p = before ++ [c] /\
        forallb endpoint_copy before = true /\
        endpoint_copy c = false
  end.

Lemma call_endpoint_stopped (c : EndpointCopy) (p : CopyProgress) :
  forallb endpoint_copy (issued p) = true ->
  stopped_at_failure (call_endpoint endpoint_copy c p).
Proof.
  intro Hp. unfold call_endpoint.
  destruct (endpoint_copy c) eqn:Hc; cbn [stopped_at_failure issued].
  - rewrite forallb_app, Hp. cbn [forallb]. now rewrite Hc.
  - exists (issued p), c. auto.
Qed.

Lemma copy_blocks_stopped (n : nat) :
  forall (block_count block_size local : Z) (p : CopyProgress),
    forallb endpoint_copy (issued p) = true ->
    stopped_at_failure (fst (copy_blocks endpoint_copy n block_count block_size local p)).
Proof.
  induction n as [|n IH]; intros block_count block_size local p Hp; [exact Hp|].
  cbn [copy_blocks].
  match goal with
  | |- context [call_endpoint endpoint_copy ?c p] =>
      pose proof (call_endpoint_stopped c p Hp) as Hc;
      destruct (call_endpoint endpoint_copy c p) as [p'|msg p']
  end.
  - now apply IH.
  - exact Hc.
Qed.

End FailingCall.

(** X18: a chunked copy stops at the first endpoint call that raises.  When
    the maximum transfer size does not exceed the packet overhead it raises
    before any call is issued; otherwise every call of a completed copy
    returned, and a copy that raised issued its failing call last, every
    call before it having returned. *)
Theorem chunked_copy_stops_at_failure (endpoint_copy : EndpointCopy -> bool)
    (code rpc_max_size local : Z) (t : DLTensor) (nbytes : Z) :
  let overhead := RemoteCopyCalculatePacketOverheadSize t code nbytes in
  let r := RPCClientSession.chunked_copy endpoint_copy code rpc_max_size local t nbytes in
  (rpc_max_size <= overhead -> outcome r = (Some "Invalid block size!", [])) /\
  (overhead < rpc_max_size -> stopped_at_failure endpoint_copy r).
Proof.
  cbn zeta. unfold RPCClientSession.chunked_copy.
  destruct (Z.gtb_spec rpc_max_size (RemoteCopyCalculatePacketOverheadSize t code nbytes))
    as [Hgt|Hle]; cbn [negb].
  - split; [lia|]. intros _.
    set (block_size := wrap64 (rpc_max_size
                               - RemoteCopyCalculatePacketOverheadSize t code nbytes)).
    pose proof (copy_blocks_stopped endpoint_copy (Z.to_nat (nbytes / block_size)) 0
                  block_size local {| tensor := t; issued := [] |} eq_refl) as H.
    destruct (RPCClientSession.copy_blocks endpoint_copy (Z.to_nat (nbytes / block_size)) 0
                block_size local {| tensor := t; issued := [] |}) as [[p'|m p'] c];
      cbn [fst] in H; [|exact H].
    destruct (negb (nbytes mod block_size =? 0)); [|exact H].
    now apply call_endpoint_stopped.
  - split; [reflexivity|lia].
Qed.

(** An endpoint whose calls return for whole blocks of four bytes only: of
    ten bytes in blocks of four, the remainder of two fails. *)
Lemma chunked_copy_stops_at_failure_witness :
  outcome (RPCClientSession.chunked_copy (fun c => copy_nbytes c =? 4) kCopyToRemote
             10 0 cpu_tensor 10) = (Some "Invalid block size!", []) /\
  stopped_at_failure (fun c => copy_nbytes c =? 4)
    (RPCClientSession.chunked_copy (fun c => copy_nbytes c =? 4) kCopyToRemote
       (RemoteCopyCalculatePacketOverheadSize cpu_tensor kCopyToRemote 10 + 4)
       0 cpu_tensor 10).
Proof.
  split.
  - refine (proj1 (chunked_copy_stops_at_failure (fun c => copy_nbytes c =? 4)
                     kCopyToRemote 10 0 cpu_tensor 10) _).
    vm_compute. discriminate.
  - refine (proj2 (chunked_copy_stops_at_failure (fun c => copy_nbytes c =? 4)
                     kCopyToRemote
                     (RemoteCopyCalculatePacketOverheadSize cpu_tensor kCopyToRemote 10 + 4)
                     0 cpu_tensor 10) _).
    vm_compute. reflexivity.
Defined.

(* ================================================================= *)
(** ** The server driven by I/O events *)

Section WholePacket.

Variable X : Externals.
Variable setreturn : option (list Any -> M unit).

Lemma HandleNextEvent_loop_turn (fuel : nat) (e e' : Endpoint) (status : Z) :
  state_ e <> kWaitForAsyncCallback ->
  Ready e = true ->
  HandleNextEvent_body X setreturn e = Ok status e' ->
  HandleNextEvent_loop X (S fuel) setreturn kNone e =
    HandleNextEvent_loop X fuel setreturn status e'.
Proof.
  intros Hs Hr Hbody. cbn [HandleNextEvent_loop]. rewrite Hr.
  destruct (State_eqb (state_ e) kWaitForAsyncCallback) eqn:E;
    [destruct (state_ e); try discriminate; contradiction|].
  change (kNone =? kNone) with true. cbn [negb andb]. now rewrite Hbody.
Qed.

(** The handler once a packet that is only an opcode has been taken in. *)
Definition opcode_taken (state : State) (pending : Z) (rest : list byte) (e : Endpoint)
    : Endpoint :=
  enter state
    (set_pending pending (set_reader rest (enter kProcessPacket e))).

(** An idle handler that finds a whole [Shutdown] packet in its reader. *)
Lemma HandleNextEvent_shutdown_packet (fuel : nat) (client_mode async_server_mode : bool)
    (e : Endpoint) (rest : list byte) :
  state_ e = kRecvPacketNumBytes ->
  pending_request_bytes_ e = 8 ->
  reader_ e = shutdown_packet ++ rest ->
  HandleNextEvent X (S (S (S fuel))) client_mode async_server_mode setreturn e =
    Some (Ok kShutdown (opcode_taken kShutdownReceived 0 rest e)).
Proof.
  intros Hs Hp Hr. unfold shutdown_packet in Hr. rewrite <- app_assoc in Hr.
  pose proof (len_nonneg rest) as Hl.
  unfold HandleNextEvent.
  rewrite (HandleNextEvent_loop_turn (S (S fuel)) _
             (set_pending 4 (enter kProcessPacket
                (set_reader (le_bytes 4 kShutdown ++ rest)
                   (set_modes client_mode async_server_mode e)))) kNone);
    [|project; rewrite Hs; discriminate
     |unfold Ready, bytes_available; project; rewrite Hp, Hr, len_app, len_le_bytes;
      apply Z.leb_le; pose proof (len_nonneg (le_bytes 4 kShutdown ++ rest)); lia
     |apply body_length_prefix; [project; exact Hs|project; exact Hp|project; exact Hr|lia]].
  rewrite (HandleNextEvent_loop_turn (S fuel) _
             (enter kShutdownReceived
                (set_pending 0
                   (set_reader rest
                      (set_pending 4 (enter kProcessPacket
                         (set_reader (le_bytes 4 kShutdown ++ rest)
                            (set_modes client_mode async_server_mode e))))))) kNone);
    [|discriminate
     |unfold Ready, bytes_available; project; rewrite len_app, len_le_bytes;
      apply Z.leb_le; lia
     |apply body_shutdown; reflexivity].
  match goal with
  | |- context [HandleNextEvent_loop X _ setreturn kNone ?s] =>
      rewrite (HandleNextEvent_loop_turn fuel s s kShutdown);
        [|discriminate|unfold Ready, bytes_available; project; apply Z.leb_le; lia
         |reflexivity]
  end.
  rewrite HandleNextEvent_loop_exit by reflexivity.
  apply (f_equal (fun x => Some (Ok kShutdown x))).
  unfold opcode_taken. endpoint_ext.
Qed.

(** An idle handler that finds a whole [CopyAck] packet in its reader. *)
Lemma HandleNextEvent_copy_ack_packet (fuel : nat) (client_mode async_server_mode : bool)
    (e : Endpoint) (payload : list byte) :
  state_ e = kRecvPacketNumBytes ->
  pending_request_bytes_ e = 8 ->
  4 + len payload < 2 ^ 64 ->
  reader_ e = le_bytes 8 (4 + len payload) ++ le_bytes 4 kCopyAck ++ payload ->
  HandleNextEvent X (S (S (S fuel))) client_mode async_server_mode setreturn e =
    Some (Ok kCopyAck (opcode_taken kCopyAckReceived (len payload) payload e)).
Proof.
  intros Hs Hp Hn Hr. pose proof (len_nonneg payload) as Hl.
  unfold HandleNextEvent.
  rewrite (HandleNextEvent_loop_turn (S (S fuel)) _
             (set_pending (4 + len payload) (enter kProcessPacket
                (set_reader (le_bytes 4 kCopyAck ++ payload)
                   (set_modes client_mode async_server_mode e)))) kNone);
    [|project; rewrite Hs; discriminate
     |unfold Ready, bytes_available; project; rewrite Hp, Hr, !len_app, !len_le_bytes;
      apply Z.leb_le; lia
     |apply body_length_prefix; [project; exact Hs|project; exact Hp|project; exact Hr|lia]].
  rewrite (HandleNextEvent_loop_turn (S fuel) _
             (enter kCopyAckReceived
                (set_pending (len payload)
                   (set_reader payload
                      (set_pending (4 + len payload) (enter kProcessPacket
                         (set_reader (le_bytes 4 kCopyAck ++ payload)
                            (set_modes client_mode async_server_mode e))))))) kNone);
    [|discriminate
     |unfold Ready, bytes_available; project; rewrite len_app, len_le_bytes;
      apply Z.leb_le; lia
     |rewrite (body_copy_ack X setreturn _ payload);
        [repeat f_equal; project; lia|reflexivity|reflexivity|project; lia]].
  match goal with
  | |- context [HandleNextEvent_loop X _ setreturn kNone ?s] =>
      rewrite (HandleNextEvent_loop_turn fuel s s kCopyAck);
        [|discriminate|unfold Ready, bytes_available; project; apply Z.leb_le; lia
         |reflexivity]
  end.
  rewrite HandleNextEvent_loop_exit by reflexivity.
  apply (f_equal (fun x => Some (Ok kCopyAck x))).
  unfold opcode_taken. endpoint_ext.
Qed.

End WholePacket.

Definition async_check_failed : string :=
  "Check failed: code != RPCCode::kReturn && code != RPCCode::kCopyAck".

(** The endpoint after the write half of an I/O event: the writer has gone
    to the channel when the event allows writing. *)
Definition pushed_out (event_flag : Z) (e : Endpoint) : Endpoint :=
  if negb (Z.land event_flag 2 =? 0) then after_flush e else e.

Lemma async_write_half (event_flag : Z) (e : Endpoint) (ch : RPCChannel) :
  channel_ e = Some ch ->
  (e1 <- get ;;
   if negb (Z.land event_flag 2 =? 0) && negb (bytes_available (writer_ e1) =? 0)
   then flush_writer_
   else ret tt) e = Ok tt (pushed_out event_flag e).
Proof.
  intro Hc. unfold bind, get, pushed_out.
  destruct (Z.land event_flag 2 =? 0); cbn [negb andb]; [reflexivity|].
  destruct (flush_writer_channel e ch Hc) as (Hflush & _).
  unfold bytes_available.
  destruct (Z.eqb_spec (len (writer_ e)) 0) as [Hz|Hnz]; cbn [negb]; [|exact Hflush].
  unfold ret, after_flush. destruct (writer_ e); [reflexivity|].
  unfold len in Hz. cbn [List.length] in Hz. lia.
Qed.

Lemma writer_pushed_out (event_flag : Z) (e : Endpoint) (ch : RPCChannel) :
  channel_ e = Some ch ->
  writer_ (pushed_out event_flag e) =
    if Z.land event_flag 2 =? 0 then writer_ e else [].
Proof.
  intro Hc. unfold pushed_out.
  destruct (Z.land event_flag 2 =? 0); cbn [negb]; [reflexivity|].
  now rewrite (after_flush_channel e ch Hc).
Qed.

(** The tail of [ServerAsyncIOEventHandler], from the write half on. *)
Lemma async_tail (event_flag code : Z) (e : Endpoint) (ch : RPCChannel) :
  channel_ e = Some ch ->
  ((e1 <- get ;;
    if negb (Z.land event_flag 2 =? 0) && negb (bytes_available (writer_ e1) =? 0)
    then flush_writer_
    else ret tt) ;;;
   ICHECK (negb (code =? kReturn) && negb (code =? kCopyAck))
          "Check failed: code != RPCCode::kReturn && code != RPCCode::kCopyAck" ;;;
   e2 <- get ;;
   if code =? kShutdown then ret 0
   else if negb (bytes_available (writer_ e2) =? 0) then ret 2
   else ret 1) e =
  if (code =? kReturn) || (code =? kCopyAck)
  then Throw async_check_failed (pushed_out event_flag e)
  else Ok (if code =? kShutdown then 0
           else if (Z.land event_flag 2 =? 0) && negb (len (writer_ e) =? 0) then 2
           else 1)
          (pushed_out event_flag e).
Proof.
  intro Hc. unfold bind at 1. rewrite (async_write_half event_flag e ch Hc).
  unfold bind at 1, ICHECK.
  destruct (code =? kReturn); cbn [negb andb orb]; [reflexivity|].
  destruct (code =? kCopyAck); cbn [negb andb orb]; [reflexivity|].
  unfold ret at 1. unfold bind, get, bytes_available.
  rewrite (writer_pushed_out event_flag e ch Hc).
  destruct (code =? kShutdown); [reflexivity|].
  destruct (Z.land event_flag 2 =? 0); cbn [andb]; [|reflexivity].
  now destruct (negb (len (writer_ e) =? 0)).
Qed.

(** X19: one I/O event on an idle server in asynchronous mode.  Without
    input the handler is not run; the writer goes to the channel exactly
    when the event allows writing, and the result is 2 when bytes are left
    to send and 1 otherwise.  A whole [Shutdown] packet makes the result 0.
    A whole [CopyAck] packet fails the check on the code, which a server
    never expects. *)
Theorem async_server_event (X : Externals) (fuel : nat) (event_flag : Z) (e : Endpoint)
    (ch : RPCChannel) (payload : list byte) :
  state_ e = kRecvPacketNumBytes ->
  pending_request_bytes_ e = 8 ->
  reader_ e = [] ->
  channel_ e = Some ch ->
  4 + len payload < 2 ^ 64 ->
  RPCEndpoint.ServerAsyncIOEventHandler X fuel [] event_flag e =
    Some (Ok (if (Z.land event_flag 2 =? 0) && negb (len (writer_ e) =? 0) then 2 else 1)
             (pushed_out event_flag e)) /\
  RPCEndpoint.ServerAsyncIOEventHandler X (S (S (S fuel))) shutdown_packet event_flag e =
    Some (Ok 0 (pushed_out event_flag (opcode_taken kShutdownReceived 0 [] e))) /\
  RPCEndpoint.ServerAsyncIOEventHandler X (S (S (S fuel)))
    (le_bytes 8 (4 + len payload) ++ le_bytes 4 kCopyAck ++ payload) event_flag e =
    Some (Throw async_check_failed
            (pushed_out event_flag
               (opcode_taken kCopyAckReceived (len payload) payload e))).
Proof.
  intros Hs Hp Hr Hc Hn. unfold RPCEndpoint.ServerAsyncIOEventHandler.
  split; [|split].
  - change (len (@nil byte) =? 0) with true. cbn [negb drive_then].
    rewrite (async_tail event_flag kNone e ch Hc). reflexivity.
  - replace (negb (len shutdown_packet =? 0)) with true by reflexivity.
    rewrite (HandleNextEvent_shutdown_packet X ignore_return fuel false true _ []);
      [|exact Hs|exact Hp|project; rewrite Hr; unfold RingBuffer_Write;
                          now rewrite app_nil_r].
    cbn [drive_then].
    rewrite (async_tail event_flag kShutdown _ ch) by exact Hc.
    change ((kShutdown =? kReturn) || (kShutdown =? kCopyAck)) with false.
    change (kShutdown =? kShutdown) with true. cbv iota.
    apply (f_equal (fun x => Some (Ok 0 (pushed_out event_flag x)))).
    unfold opcode_taken. endpoint_ext.
  - assert (Hlen : negb (len (le_bytes 8 (4 + len payload) ++ le_bytes 4 kCopyAck
                              ++ payload) =? 0) = true).
    { rewrite !len_app, !len_le_bytes. pose proof (len_nonneg payload).
      destruct (Z.eqb_spec (Z.of_nat 8 + (Z.of_nat 4 + len payload)) 0); [lia|reflexivity]. }
    rewrite Hlen.
    rewrite (HandleNextEvent_copy_ack_packet X ignore_return fuel false true _ payload);
      [|exact Hs|exact Hp|exact Hn|project; now rewrite Hr].
    cbn [drive_then].
    rewrite (async_tail event_flag kCopyAck _ ch) by exact Hc.
    change ((kCopyAck =? kReturn) || (kCopyAck =? kCopyAck)) with true. cbv iota.
    apply (f_equal (fun x => Some (Throw async_check_failed (pushed_out event_flag x)))).
    unfold opcode_taken. endpoint_ext.
Qed.

(** A server with one byte still to send. *)
Definition server_with_output : Endpoint :=
  set_writer [x01]
    (EventHandler_new (Some {| inbox := []; outbox := [] |}) "server" "key"
       Demo.zero_memory).

Lemma async_server_event_witness :
  RPCEndpoint.ServerAsyncIOEventHandler (Demo.externals true) 0 [] 0 server_with_output =
    Some (Ok 2 server_with_output) /\
  RPCEndpoint.ServerAsyncIOEventHandler (Demo.externals true) 3 shutdown_packet 2
    server_with_output =
    Some (Ok 0 (pushed_out 2 (opcode_taken kShutdownReceived 0 [] server_with_output))).
Proof.
  split.
  - refine (proj1 (async_server_event (Demo.externals true) 0 0 server_with_output
                     {| inbox := []; outbox := [] |} [x0a] _ _ _ _ _)); reflexivity.
  - refine (proj1 (proj2 (async_server_event (Demo.externals true) 0 2 server_with_output
                            {| inbox := []; outbox := [] |} [x0a] _ _ _ _ _)));
      reflexivity.
Defined.

(* ================================================================= *)
(** ** CallFunc on the calling side *)

Section ReturnPacket.

Variable X : Externals.
Variable encode_return : list Any -> M unit.

(** The opcode and body of a [Return] packet: the values are decoded and
    handed to the callback, and [kReturnReceived] is entered. *)
Lemma body_return (e e1 e2 : Endpoint) (rbody : list byte) (rargs : list Any) :
  state_ e = kProcessPacket ->
  reader_ e = le_bytes 4 kReturn ++ rbody ->
  4 <= pending_request_bytes_ e ->
  RPCReference_RecvPackedSeq X
    (set_pending (pending_request_bytes_ e - 4) (set_reader rbody e)) = Ok rargs e1 ->
  encode_return rargs e1 = Ok tt e2 ->
  pending_request_bytes_ e2 = 0 ->
  state_ e2 <> kWaitForAsyncCallback ->
  HandleNextEvent_body X (Some encode_return) e = Ok kNone (enter kReturnReceived e2).
Proof.
  intros Hs Hr Hp Hrecv Hf Hp2 Hs2.
  unfold HandleNextEvent_body. unfold bind at 1, get. rewrite Hs.
  unfold bind at 1, HandleProcessPacket, Read_code. unfold bind at 1.
  rewrite (Read_i32_front kReturn rbody e) by (try assumption; unfold kReturn; lia).
  change (kReturn >=? kSyscallCodeStart) with false.
  change (kReturn =? kInitServer) with false.
  change (kReturn =? kCallFunc) with false.
  change (kReturn =? kCopyFromRemote) with false.
  change (kReturn =? kCopyToRemote) with false.
  change ((kReturn =? kException) || (kReturn =? kReturn)) with true. cbv iota.
  unfold HandleReturn. unfold bind at 1, RecvPackedSeq. rewrite Hrecv.
  change (kReturn =? kException) with false. cbv iota.
  unfold bind at 1, ret at 1. unfold bind at 1. rewrite Hf.
  rewrite SwitchToState_plain;
    [reflexivity|left; exact Hp2|exact Hs2|discriminate|discriminate].
Qed.

Lemma body_return_received (e : Endpoint) :
  state_ e = kReturnReceived ->
  pending_request_bytes_ e = 0 ->
  HandleNextEvent_body X (Some encode_return) e = Ok kReturn (idle_again e).
Proof.
  intros Hs Hp. unfold HandleNextEvent_body. unfold bind at 1, get. rewrite Hs.
  unfold bind. rewrite SwitchToState_recv; [reflexivity|exact Hp|].
  rewrite Hs. discriminate.
Qed.

End ReturnPacket.

(** The idle client once a [Return] packet has been taken in up to its
    body: the state in which the values are decoded. *)
Definition return_arrived (client_mode : bool) (e : Endpoint) (rbody : list byte)
    (ib : list (list byte)) (ob : list byte) : Endpoint :=
  set_pending (len rbody)
    (set_reader rbody
       (set_modes client_mode false
          (enter kProcessPacket
             (set_writer []
                (set_channel (Some {| inbox := ib; outbox := ob ++ writer_ e |}) e))))).

Lemma drive_until_return (X : Externals) (fuel : nat) (client_mode : bool)
    (encode_return : list Any -> M unit) (e e1 e2 : Endpoint)
    (rbody tail : list byte) (rargs : list Any) (more : list (list byte))
    (ob : list byte) :
  state_ e = kRecvPacketNumBytes ->
  pending_request_bytes_ e = 8 ->
  reader_ e = [] ->
  4 + len rbody < 2 ^ 64 ->
  channel_ e =
    Some {| inbox := (le_bytes 8 (4 + len rbody) ++ le_bytes 4 kReturn ++ rbody ++ tail)
                     :: more;
            outbox := ob |} ->
  RPCReference_RecvPackedSeq X
    (return_arrived client_mode e rbody
       (match tail with [] => more | _ :: _ => tail :: more end) ob) = Ok rargs e1 ->
  encode_return rargs e1 = Ok tt e2 ->
  pending_request_bytes_ e2 = 0 ->
  state_ e2 <> kWaitForAsyncCallback ->
  HandleUntilReturnEvent X (S (S (S fuel))) client_mode (Some encode_return) e =
    Some (Ok kReturn
            (set_modes (client_mode_ e) (async_server_mode_ e)
               (idle_again (enter kReturnReceived e2)))).
Proof.
  intros Hs Hp Hr Hn Hc Hrecv Hf Hp2 Hs2. pose proof (len_nonneg rbody) as Hl0.
  unfold HandleUntilReturnEvent. rewrite Hc.
  destruct (flush_writer_channel e _ Hc) as (Hflush & _).
  pose proof (after_flush_channel e _ Hc) as Haf. cbn [inbox outbox] in Haf.
  assert (Hneed : BytesNeeded e = 8).
  { unfold BytesNeeded, bytes_available. rewrite Hr, Hp. reflexivity. }
  set (chunk := le_bytes 8 (4 + len rbody) ++ le_bytes 4 kReturn ++ rbody ++ tail) in *.
  set (ib := match tail with [] => more | _ :: _ => tail :: more end) in *.
  rewrite (drive_turn X (S (S fuel)) client_mode (Some encode_return) kCallFunc e
             {| inbox := chunk :: more; outbox := ob ++ writer_ e |}
             {| inbox := (le_bytes 4 kReturn ++ rbody ++ tail) :: more;
                outbox := ob ++ writer_ e |}
             (le_bytes 8 (4 + len rbody)));
    try discriminate; try assumption.
  2: { rewrite Haf. reflexivity. }
  2: { rewrite Hneed. discriminate. }
  2: { rewrite Hneed. unfold chunk.
       change 8 with (len (le_bytes 8 (4 + len rbody))) at 1.
       rewrite channel_Recv_front. rewrite (le_bytes_cons 3 kReturn). reflexivity. }
  rewrite Haf, Hr. cbn [app].
  rewrite (HandleNextEvent_turn_then_wait X (Some encode_return) (S (S fuel)) client_mode
             false _
             (set_pending (4 + len rbody) (enter kProcessPacket
                (set_reader []
                   (set_modes client_mode false
                      (set_reader (le_bytes 8 (4 + len rbody))
                         (set_channel
                            (Some {| inbox := (le_bytes 4 kReturn ++ rbody ++ tail) :: more;
                                     outbox := ob ++ writer_ e |})
                            (set_writer []
                               (set_channel
                                  (Some {| inbox := chunk :: more;
                                           outbox := ob ++ writer_ e |}) e)))))))));
    [|project; rewrite Hs; discriminate
     |unfold Ready, bytes_available; project; rewrite Hp, len_le_bytes; reflexivity
     |apply body_length_prefix;
        [project; exact Hs|project; exact Hp|project; now rewrite app_nil_r|lia]
     |right; unfold Ready, bytes_available; project; apply Z.leb_gt; unfold len;
      cbn [List.length]; lia].
  match goal with
  | |- HandleUntilReturnEvent_loop _ _ _ _ _ ?s = _ => set (e3 := s)
  end.
  assert (Hc3 : channel_ e3 =
                Some {| inbox := (le_bytes 4 kReturn ++ rbody ++ tail) :: more;
                        outbox := ob ++ writer_ e |}) by reflexivity.
  assert (Hw3 : writer_ e3 = []) by reflexivity.
  assert (Haf3 : after_flush e3 = e3) by (unfold after_flush; now rewrite Hw3).
  assert (Hneed3 : BytesNeeded e3 = 4 + len rbody).
  { unfold BytesNeeded, bytes_available, e3. project.
    change (len (@nil byte)) with 0.
    destruct (Z.ltb_spec 0 (4 + len rbody)) as [_|Hge]; lia. }
  rewrite (drive_turn X (S fuel) client_mode (Some encode_return) kNone e3
             {| inbox := (le_bytes 4 kReturn ++ rbody ++ tail) :: more;
                outbox := ob ++ writer_ e |}
             {| inbox := ib; outbox := ob ++ writer_ e |}
             (le_bytes 4 kReturn ++ rbody));
    try discriminate;
    try (now rewrite Haf3);
    try (unfold flush_writer_; now rewrite Hw3, Haf3);
    try (rewrite Hneed3; lia);
    try (rewrite Hneed3;
         replace (4 + len rbody) with (len (le_bytes 4 kReturn ++ rbody))
           by (rewrite len_app, len_le_bytes; lia);
         rewrite (app_assoc (le_bytes 4 kReturn) rbody tail);
         apply channel_Recv_front);
    try (rewrite le_bytes_cons; discriminate).
  rewrite Haf3.
  set (e4 := set_reader (reader_ e3 ++ le_bytes 4 kReturn ++ rbody)
               (set_channel (Some {| inbox := ib; outbox := ob ++ writer_ e |}) e3)).
  assert (Harr : set_pending (pending_request_bytes_ (set_modes client_mode false e4) - 4)
                   (set_reader rbody (set_modes client_mode false e4)) =
                 return_arrived client_mode e rbody ib ob).
  { unfold return_arrived, e4, e3. endpoint_ext. lia. }
  rewrite (HandleNextEvent_two_turns X (Some encode_return) fuel client_mode false e4
             (enter kReturnReceived e2) (idle_again (enter kReturnReceived e2)) kReturn);
    [|discriminate
     |unfold Ready, bytes_available, e4, e3; project; cbn [app];
      rewrite len_app, len_le_bytes; apply Z.leb_le; lia
     |apply (body_return X encode_return _ e1 e2 rbody rargs);
        [reflexivity|reflexivity|unfold e4, e3; project; lia
        |rewrite Harr; exact Hrecv|exact Hf|exact Hp2|exact Hs2]
     |discriminate
     |unfold Ready, bytes_available; project; rewrite Hp2; apply Z.leb_le;
      apply len_nonneg
     |apply body_return_received; [reflexivity|exact Hp2]
     |discriminate].
  rewrite drive_exit by (left; reflexivity).
  reflexivity.
Qed.

Lemma ValidateArguments_may_travel (X : Externals) (args : list Any) (e : Endpoint) :
  forallb (may_travel X) args = true -> ValidateArguments X args e = Ok tt e.
Proof.
  induction args as [|a args IH]; [reflexivity|].
  cbn [forallb ValidateArguments].
  destruct a; cbn [may_travel andb]; try exact IH; try discriminate.
  unfold bind, ICHECK.
  destruct (IsRPCSessionDevice X d); cbn [negb andb]; [discriminate|exact IH].
Qed.

(** The request [RPCEndpoint::CallFunc] writes for the function handle [h]
    and the encoded arguments [body]. *)
Definition call_request (h : Z) (body : list byte) : list byte :=
  le_bytes 8 (wrap64 (4 + 8 + len body)) ++ le_bytes 4 kCallFunc ++ le_bytes 8 h ++ body.

(** X20: [RPCEndpoint::CallFunc] on an idle endpoint, with arguments that
    may travel.  The request goes out after whatever was waiting in the
    writer; when the channel answers with a [Return] packet, its body is
    decoded, the values are handed to [encode_return], and the call returns
    with the handler waiting for the next packet, its arenas recycled and
    its mode flags as they were before the call; when decoder and callback
    leave the channel alone, what has gone out is the writer's old content
    followed by the request: length, [kCallFunc], handle, arguments. *)
Theorem endpoint_call_func (X : Externals) (fuel : nat) (h : Z) (args rargs : list Any)
    (encode_return : list Any -> M unit) (e e1 e2 : Endpoint)
    (body rbody tail : list byte) (more : list (list byte)) (ob : list byte) :
  state_ e = kRecvPacketNumBytes ->
  pending_request_bytes_ e = 8 ->
  reader_ e = [] ->
  forallb (may_travel X) args = true ->
  PackedSeqBytes X args = Some body ->
  4 + len rbody < 2 ^ 64 ->
  channel_ e = Some {| inbox := (return_packet rbody ++ tail) :: more; outbox := ob |} ->
  RPCReference_RecvPackedSeq X
    (return_arrived true (set_writer (writer_ e ++ call_request h body) e) rbody
       (match tail with [] => more | _ :: _ => tail :: more end) ob) = Ok rargs e1 ->
  encode_return rargs e1 = Ok tt e2 ->
  pending_request_bytes_ e2 = 0 ->
  state_ e2 <> kWaitForAsyncCallback ->
  channel_ e2 =
    channel_ (return_arrived true (set_writer (writer_ e ++ call_request h body) e) rbody
                (match tail with [] => more | _ :: _ => tail :: more end) ob) ->
  exists final : Endpoint,
    RPCEndpoint.CallFunc X (S (S (S fuel))) h args (Some encode_return) e =
      Some (Ok tt final) /\
    final = set_modes (client_mode_ e) (async_server_mode_ e)
              (idle_again (enter kReturnReceived e2)) /\
    channel_ final =
      Some {| inbox := match tail with [] => more | _ :: _ => tail :: more end;
              outbox := ob ++ writer_ e ++ call_request h body |}.
Proof.
  intros Hs Hp Hr Hargs Hbody Hn Hc Hrecv Hf Hp2 Hs2 Hch.
  eexists. split; [|split; [reflexivity|]].
  2: { unfold idle_again. project. rewrite Hch. reflexivity. }
  pose proof (len_nonneg rbody) as Hl0.
  unfold RPCEndpoint.CallFunc.
  set (e0 := set_writer (writer_ e ++ call_request h body) e) in *.
  assert (Hw : (ValidateArguments X args ;;;
                body0 <- RPCEndpoint.packed_body X args ;;
                Write_u64 (wrap64 (4 + 8 + len body0)) ;;;
                Write_code kCallFunc ;;;
                Write_u64 h ;;;
                Write body0) e = Ok tt e0).
  { unfold bind at 1. rewrite (ValidateArguments_may_travel X args e Hargs).
    unfold RPCEndpoint.packed_body. rewrite Hbody.
    run_monad. f_equal. unfold e0, call_request. endpoint_ext.
    now rewrite <- !app_assoc. }
  rewrite Hw.
  unfold return_packet in Hc. rewrite wrap64_small in Hc by lia.
  rewrite <- !app_assoc in Hc.
  rewrite (drive_until_return X fuel true encode_return e0 e1 e2 rbody tail rargs more ob);
    try assumption.
  cbn [drive_then]. change (kReturn =? kReturn) with true. reflexivity.
Qed.

(** A client whose channel holds the reply to its call: a [Return] packet
    with no values. *)
Definition calling_client : Endpoint :=
  EventHandler_new
    (Some {| inbox := [return_packet (le_bytes 4 0) ++ []]; outbox := [] |})
    "client" "key" Demo.zero_memory.

Definition reply_decoded : Endpoint :=
  set_pending 0
    (set_reader []
       (return_arrived true
          (set_writer (writer_ calling_client
                       ++ call_request 7 (le_bytes 4 1 ++ Demo.string_bytes "hi"))
             calling_client)
          (le_bytes 4 0) [] [])).

Lemma endpoint_call_func_witness :
  exists final : Endpoint,
    RPCEndpoint.CallFunc (Demo.externals true) 3 7 [AnyStr "hi"] (Some (fun _ => ret tt))
      calling_client = Some (Ok tt final) /\
    final = set_modes false false (idle_again (enter kReturnReceived reply_decoded)) /\
    channel_ final =
      Some {| inbox := [];
              outbox := [] ++ []
                        ++ call_request 7 (le_bytes 4 1 ++ Demo.string_bytes "hi") |}.
Proof.
  refine (endpoint_call_func (Demo.externals true) 0 7 [AnyStr "hi"] []
            (fun _ => ret tt) calling_client reply_decoded reply_decoded
            (le_bytes 4 1 ++ Demo.string_bytes "hi") (le_bytes 4 0) [] [] []
            _ _ _ _ _ _ _ _ _ _ _ _);
    try reflexivity.
  discriminate.
Defined.

(* ================================================================= *)
(** ** The stream-synchronisation syscall *)

(** X21: [HandleSyscallStreamSync], once the arguments are decoded with
    nothing of the packet left.  A first argument that is not a device is
    answered with an [Exception] packet that stays in the writer.  With a
    device and a stream handle the handler enters [kWaitForAsyncCallback]:
    when no session is installed the [Exception] reply that follows is
    pushed to the channel at once, because the wait state is being left;
    when the session does not finish the wait at once, the request is
    queued, nothing is written and the handler stays suspended. *)
Theorem stream_sync_replies (X : Externals) (e e1 : Endpoint) (args rest : list Any)
    (dev : DLDevice) (handle : Z) (ch : RPCChannel) :
  RPCReference_RecvPackedSeq X e = Ok args e1 ->
  pending_request_bytes_ e1 = 0 ->
  state_ e1 <> kWaitForAsyncCallback ->
  channel_ e1 = Some ch ->
  (forall a : Any,
     args = a :: rest ->
     (forall d : DLDevice, a <> AnyDevice d) ->
     exists what : string,
     HandleSyscallStreamSync X e =
       Ok tt (idle_again (set_writer (writer_ e1 ++ exception_packet X what) e1))) /\
  (args = AnyDevice dev :: AnyHandle handle :: rest ->
   serving_session_ e1 = None ->
   HandleSyscallStreamSync X e =
     Ok tt (idle_again
              (set_writer []
                 (set_channel
                    (Some {| inbox := inbox ch;
                             outbox := outbox ch ++ writer_ e1
                                       ++ exception_packet X session_missing_message |})
                    (enter kWaitForAsyncCallback e1))))) /\
  (forall sess : RPCSession,
     args = AnyDevice dev :: AnyHandle handle :: rest ->
     serving_session_ e1 = Some sess ->
     negb (IsAsync sess) || async_server_mode_ e1 = true ->
     AsyncOutcome X sess (AsyncStreamWait dev handle) = None ->
     HandleSyscallStreamSync X e =
       Ok tt (set_session_requests
                (session_requests_ e1 ++ [AsyncStreamWait dev handle])
                (enter kWaitForAsyncCallback e1))).
Proof.
  intros Hrecv Hp Hs Hc.
  assert (Hwait : SwitchToState kWaitForAsyncCallback e1 =
                  Ok tt (enter kWaitForAsyncCallback e1)).
  { apply SwitchToState_plain; [left; exact Hp|exact Hs|discriminate|discriminate]. }
  split; [|split].
  - intros a Hargs Ha. subst args. exists "TypeError: cannot convert to Device".
    unfold HandleSyscallStreamSync, RecvPackedSeq. unfold bind at 1. rewrite Hrecv.
    unfold try_catch. cbn [arg nth_error]. unfold bind at 1, ret at 1.
    unfold bind at 1.
    destruct a as [|v|str|p|d|t| |obj|ti]; try (now elim (Ha d));
      cbn [cast_Device]; unfold throw at 1;
      unfold bind at 1; rewrite ReturnException_writes;
      (rewrite SwitchToState_recv; [reflexivity|exact Hp|exact Hs]).
  - intros Hargs Hnone. subst args.
    unfold HandleSyscallStreamSync, RecvPackedSeq. unfold bind at 1. rewrite Hrecv.
    unfold try_catch. cbn [arg nth_error]. unfold bind at 1, ret at 1.
    unfold bind at 1. cbn [cast_Device]. unfold ret at 1.
    unfold bind at 1, ret at 1. unfold bind at 1. cbn [cast_handle]. unfold ret at 1.
    unfold bind at 1. rewrite Hwait.
    unfold bind at 1, GetServingSession. unfold bind at 1, get. project. rewrite Hnone.
    unfold throw at 1. unfold bind at 1. rewrite ReturnException_writes.
    rewrite (SwitchToState_recv_flush _ ch); [|exact Hp|reflexivity|exact Hc].
    apply (f_equal (Ok tt)). unfold idle_again. endpoint_ext.
  - intros sess Hargs Hsess Hasync Hout. subst args.
    unfold HandleSyscallStreamSync, RecvPackedSeq. unfold bind at 1. rewrite Hrecv.
    unfold try_catch. cbn [arg nth_error]. unfold bind at 1, ret at 1.
    unfold bind at 1. cbn [cast_Device]. unfold ret at 1.
    unfold bind at 1, ret at 1. unfold bind at 1. cbn [cast_handle]. unfold ret at 1.
    unfold bind at 1. rewrite Hwait.
    unfold bind at 1.
    rewrite (GetServingSession_ok (enter kWaitForAsyncCallback e1) sess Hsess Hasync).
    unfold run_async. rewrite Hout. reflexivity.
Qed.

(** A peer whose packed sequences are always a device followed by a
    stream handle. *)
Definition stream_peer : Externals :=
  {| kRuntimeRPCObjectRef := kRuntimeRPCObjectRef (Demo.externals true);
     kRPCProtocolVer := kRPCProtocolVer (Demo.externals true);
     DMLC_IO_NO_ENDIAN_SWAP := true;
     PackedSeqBytes := PackedSeqBytes (Demo.externals true);
     ExceptionSeqBytes := ExceptionSeqBytes (Demo.externals true);
     VoidSeqBytes := VoidSeqBytes (Demo.externals true);
     RPCReference_RecvPackedSeq :=
       dev_type <- Read_i32 ;;
       dev_id <- Read_i32 ;;
       stream <- Read_u64 ;;
       ret [AnyDevice {| device_type := dev_type; device_id := dev_id |};
            AnyHandle stream];
     RPCReference_ReceiveDLTensor := RPCReference_ReceiveDLTensor (Demo.externals true);
     SessionConstructor := fun _ _ => CtorMissing;
     LocalSession := Demo.local_session;
     SysCallFn := SysCallFn (Demo.externals true);
     AsyncOutcome := AsyncOutcome (Demo.externals true);
     IsRPCSessionDevice := IsRPCSessionDevice (Demo.externals true);
     arena_base := arena_base (Demo.externals true) |}.

(** A server without a session, one byte of an earlier reply still in its
    writer, that has read the opcode of a stream synchronisation. *)
Definition awaiting_stream_sync_body : Endpoint :=
  set_pending 16
    (set_state kProcessPacket
       (set_writer [x01]
          (set_reader (le_bytes 4 kDLCPU ++ le_bytes 4 0 ++ le_bytes 8 5)
             (EventHandler_new (Some {| inbox := []; outbox := [] |}) "server" "key"
                Demo.zero_memory)))).

Lemma stream_sync_replies_witness :
  HandleSyscallStreamSync stream_peer awaiting_stream_sync_body =
    Ok tt (idle_again
             (set_writer []
                (set_channel
                   (Some {| inbox := [];
                            outbox := [] ++ [x01]
                                      ++ exception_packet stream_peer
                                           session_missing_message |})
                   (enter kWaitForAsyncCallback
                      (set_pending 0 (set_reader [] awaiting_stream_sync_body)))))).
Proof.
  refine (proj1 (proj2
            (stream_sync_replies stream_peer awaiting_stream_sync_body
               (set_pending 0 (set_reader [] awaiting_stream_sync_body))
               [AnyDevice {| device_type := kDLCPU; device_id := 0 |}; AnyHandle 5] []
               {| device_type := kDLCPU; device_id := 0 |} 5
               {| inbox := []; outbox := [] |} _ _ _ _)) eq_refl eq_refl);
    try reflexivity.
  discriminate.
Defined.

(* ================================================================= *)
(** ** CopyToRemote on the calling side *)

Lemma len_mem_read (m : Z -> byte) (addr n : Z) : 0 <= n -> len (mem_read m addr n) = n.
Proof.
  intro Hn. unfold mem_read, len. rewrite length_map, length_seq. now apply Z2Nat.id.
Qed.

(** What follows the length field in the request of
    [RPCEndpoint::CopyToRemote]: [desc] is the tensor descriptor on the
    wire, [bytes] the data. *)
Definition copy_to_packet (desc : list byte) (nbytes : Z) (bytes : list byte) : list byte :=
  le_bytes 4 kCopyToRemote ++ desc ++ le_bytes 8 nbytes ++ bytes.

(** X22: [RPCEndpoint::CopyToRemote] on an idle endpoint, within the bounds
    of the tensor, when the descriptor takes 32 bytes and 8 more for each
    dimension on the wire.  The length field of the request is the number of
    bytes that follow it, so the overhead computed by
    [RemoteCopyCalculatePacketOverheadSize] agrees with what is written; the
    data are the [nbytes] bytes of local memory from [from_bytes] on; and
    when the channel answers with a [Return] packet the call returns with
    the handler waiting for the next packet.  What has gone out, when the
    decoder leaves the channel alone, is the writer's old content followed
    by this request. *)
Theorem endpoint_copy_to_remote (X : Externals)
    (SendDLTensorBytes : DLTensor -> list byte) (GetDataSize : DLTensor -> Z)
    (fuel : nat) (from_bytes : Z) (to : DLTensor) (nbytes : Z) (e e1 : Endpoint)
    (rbody tail : list byte) (rargs : list Any) (more : list (list byte))
    (ob : list byte) :
  let packet := copy_to_packet (SendDLTensorBytes to) nbytes
                  (mem_read (memory_ e) from_bytes nbytes) in
  state_ e = kRecvPacketNumBytes ->
  pending_request_bytes_ e = 8 ->
  reader_ e = [] ->
  0 <= ndim to < 2 ^ 32 ->
  len (SendDLTensorBytes to) = 32 + 8 * ndim to ->
  0 <= nbytes < 2 ^ 63 ->
  wrap64 (byte_offset to + nbytes) <= wrap64 (GetDataSize to) ->
  4 + len rbody < 2 ^ 64 ->
  channel_ e = Some {| inbox := (return_packet rbody ++ tail) :: more; outbox := ob |} ->
  RPCReference_RecvPackedSeq X
    (return_arrived true (set_writer (writer_ e ++ le_bytes 8 (len packet) ++ packet) e)
       rbody (match tail with [] => more | _ :: _ => tail :: more end) ob) = Ok rargs e1 ->
  pending_request_bytes_ e1 = 0 ->
  state_ e1 <> kWaitForAsyncCallback ->
  channel_ e1 =
    channel_ (return_arrived true
                (set_writer (writer_ e ++ le_bytes 8 (len packet) ++ packet) e)
                rbody (match tail with [] => more | _ :: _ => tail :: more end) ob) ->
  exists final : Endpoint,
    RPCEndpoint.CopyToRemote X SendDLTensorBytes GetDataSize (S (S (S fuel)))
      from_bytes to nbytes e = Some (Ok tt final) /\
    final = set_modes (client_mode_ e) (async_server_mode_ e)
              (idle_again (enter kReturnReceived e1)) /\
    channel_ final =
      Some {| inbox := match tail with [] => more | _ :: _ => tail :: more end;
              outbox := ob ++ writer_ e ++ le_bytes 8 (len packet) ++ packet |}.
Proof.
  cbn zeta. intros Hs Hp Hr Hnd Hdesc Hn Hfit Hrn Hc Hrecv Hp1 Hs1 Hch.
  eexists. split; [|split; [reflexivity|]].
  2: { unfold idle_again. project. rewrite Hch. reflexivity. }
  pose proof (len_nonneg rbody) as Hl0.
  unfold RPCEndpoint.CopyToRemote.
  destruct (Z.leb_spec (wrap64 (byte_offset to + nbytes)) (wrap64 (GetDataSize to)))
    as [_|]; [|lia].
  cbn [negb].
  set (packet := copy_to_packet (SendDLTensorBytes to) nbytes
                   (mem_read (memory_ e) from_bytes nbytes)) in *.
  assert (Hlen : wrap64 (RemoteCopyCalculatePacketOverheadSize to kCopyToRemote nbytes
                         + nbytes) = len packet).
  { unfold packet, copy_to_packet, RemoteCopyCalculatePacketOverheadSize.
    rewrite !len_app, !len_le_bytes, Hdesc, len_mem_read by lia.
    rewrite (wrap64_small (ndim to)) by lia.
    rewrite (wrap64_small (ndim to * 8)) by lia.
    rewrite (wrap64_small (4 + 8 + 8 + 4 + 4 + 8 + ndim to * 8 + 8)) by lia.
    rewrite wrap64_small by lia. lia. }
  set (e0 := set_writer (writer_ e ++ le_bytes 8 (len packet) ++ packet) e) in *.
  assert (Hw : (Write_u64 (wrap64 (RemoteCopyCalculatePacketOverheadSize to kCopyToRemote
                                     nbytes + nbytes)) ;;;
                Write_code kCopyToRemote ;;;
                Write (SendDLTensorBytes to) ;;;
                Write_u64 nbytes ;;;
                (e' <- get ;; WriteArray (mem_read (memory_ e') from_bytes nbytes))) e =
               Ok tt e0).
  { rewrite Hlen. run_monad. f_equal. unfold e0, packet, copy_to_packet.
    endpoint_ext. now rewrite <- !app_assoc. }
  rewrite Hw.
  unfold return_packet in Hc. rewrite wrap64_small in Hc by lia.
  rewrite <- !app_assoc in Hc.
  unfold ignore_return.
  rewrite (drive_until_return X fuel true (fun _ => ret tt) e0 e1 e1 rbody tail rargs
             more ob);
    [|first [assumption|reflexivity]..].
  cbn [drive_then]. change (kReturn =? kReturn) with true. reflexivity.
Qed.

(** A client over memory that counts, whose channel holds the reply to a
    copy: a [Return] packet with no values. *)
Definition copying_client : Endpoint :=
  EventHandler_new
    (Some {| inbox := [return_packet (le_bytes 4 0) ++ []]; outbox := [] |})
    "client" "key" Demo.counting_memory.

Definition copy_reply_decoded : Endpoint :=
  set_pending 0
    (set_reader []
       (return_arrived true
          (set_writer
             (writer_ copying_client
              ++ le_bytes 8 (len (copy_to_packet cpu_tensor_bytes 4 [x01; x02; x03; x04]))
              ++ copy_to_packet cpu_tensor_bytes 4 [x01; x02; x03; x04])
             copying_client)
          (le_bytes 4 0) [] [])).

Lemma endpoint_copy_to_remote_witness :
  exists final : Endpoint,
    RPCEndpoint.CopyToRemote (Demo.externals true) (fun _ => cpu_tensor_bytes)
      (fun _ => 16) 3 0 cpu_tensor 4 copying_client = Some (Ok tt final) /\
    final = set_modes false false
              (idle_again (enter kReturnReceived copy_reply_decoded)) /\
    channel_ final =
      Some {| inbox := [];
              outbox := [] ++ []
                        ++ le_bytes 8 (len (copy_to_packet cpu_tensor_bytes 4
                                              (mem_read Demo.counting_memory 0 4)))
                        ++ copy_to_packet cpu_tensor_bytes 4
                             (mem_read Demo.counting_memory 0 4) |}.
Proof.
  refine (endpoint_copy_to_remote (Demo.externals true) (fun _ => cpu_tensor_bytes)
            (fun _ => 16) 0 0 cpu_tensor 4 copying_client copy_reply_decoded
            (le_bytes 4 0) [] [] [] [] _ _ _ _ _ _ _ _ _ _ _ _ _);
    try reflexivity; try discriminate; try (unfold cpu_tensor; cbn [ndim]; lia).
Defined.
